(** * BookShelfUI: the list state store, the API client and the list controller

    A shallow embedding of the TypeScript sources
      - [models/book.model.ts]     (one module per interface: [Book], ...),
      - [services/book.service.ts] (module [BookService]),
      - [store/book.actions.ts]    (type [Action]),
      - [store/book.state.ts]      (module [BookState]),
      - [components/book-list/book-list.component.ts]
                                   (module [BookListComponent]),
    followed by the properties proved about them.

    Conventions.  A JavaScript [number] that the code only ever uses as an
    integer (ids, page numbers, counts, HTTP status codes, years) is a [Z];
    a rating is a rational [Q] (every finite double is one, and [<], [>]
    agree); the result of [parseInt], which may be [NaN], has its own type
    [Js.num].  [T | null] and optional properties are [option T].  Strings are
    Rocq strings, sequences of bytes: for ASCII text a byte is a code unit of
    the JavaScript string, and comparing, lower-casing and searching go as
    in JavaScript; the comments of [Js] say where the two part.
    [ctx.setState({...state, f: v})] is written as the record with every other
    field copied from [state]. *)

From Stdlib Require Import ZArith QArith Bool List String Ascii Lia.
From Stdlib Require Import DecimalString DecimalPos Permutation Sorted.
Import ListNotations.

#[local] Open Scope string_scope.
#[local] Open Scope list_scope.
#[local] Open Scope Z_scope.

(* ================================================================== *)
(** ** JavaScript primitives used by the sources *)
(* ================================================================== *)

Module Js.

(** [String(n)] / [n.toString()] / a template-literal hole, for an integer:
    its decimal digits.  (JavaScript prints them for an integer of absolute
    value below 10^21 and an exponent from there on.) *)
Definition toString (n : Z) : string :=
  NilZero.string_of_int (Z.to_int n).

(** A number that may be [NaN] (what [parseInt] returns). *)
Inductive num : Type :=
| NaN : num
| Int (z : Z) : num.

Definition numToString (n : num) : string :=
  match n with
  | NaN => "NaN"
  | Int z => toString z
  end.

(** Truthiness, as tested by [x || y], [x ? a : b] and [if (x)]. *)
Definition truthyString (s : string) : bool :=
  match s with
  | EmptyString => false
  | String _ _ => true
  end.

Definition truthyNum (n : num) : bool :=
  match n with
  | NaN => false
  | Int z => negb (z =? 0)
  end.

(** [x || undefined] for a string. *)
Definition stringOrUndefined (s : string) : option string :=
  if truthyString s then Some s else None.

(** [x || undefined] for a [number | null]: [null], [0] and [NaN] are falsy. *)
Definition numOrUndefined (x : option num) : option num :=
  match x with
  | Some n => if truthyNum n then Some n else None
  | None => None
  end.

(** [s || ''] for a [string | null]. *)
Definition orEmpty (s : option string) : string :=
  match s with
  | Some v => v
  | None => ""
  end.

(** [n || 0] for a [number | null]. *)
Definition orZeroZ (n : option Z) : Z :=
  match n with
  | Some v => v
  | None => 0
  end.

Definition orZeroQ (q : option Q) : Q :=
  match q with
  | Some v => v
  | None => 0%Q
  end.

(** [a === b] on [string | null]. *)
Definition strictEqOptString (a b : option string) : bool :=
  match a, b with
  | Some x, Some y => String.eqb x y
  | None, None => true
  | _, _ => false
  end.

(** [String.prototype.toLowerCase], on the ASCII letters: A to Z are
    lowered and every other byte is kept.  (JavaScript also lowers the cased
    letters beyond ASCII.) *)
Definition lowerChar (c : ascii) : ascii :=
  let n := nat_of_ascii c in
  if ((65 <=? n)%nat && (n <=? 90)%nat)%bool then ascii_of_nat (n + 32) else c.

Fixpoint toLowerCase (s : string) : string :=
  match s with
  | EmptyString => EmptyString
  | String c r => String (lowerChar c) (toLowerCase r)
  end.

(** [s.includes(t)]: [t] occurs in [s] as a contiguous substring. *)
Fixpoint includes (s t : string) : bool :=
  if String.prefix t s then true
  else match s with
       | EmptyString => false
       | String _ r => includes r t
       end.

(** [a > b] and [a < b] on strings: lexicographic, byte by byte.  (For
    ASCII text that is the order of the code units, which JavaScript
    compares.) *)
Definition strGt (a b : string) : bool := String.ltb b a.
Definition strLt (a b : string) : bool := String.ltb a b.

(** [a > b] and [a < b] on finite numbers. *)
Definition numGt (a b : Q) : bool := negb (Qle_bool a b).
Definition numLt (a b : Q) : bool := negb (Qle_bool b a).

(** [parseInt(s, 10)]: leading white space is skipped, then an optional sign,
    then the longest prefix of decimal digits; [NaN] when there is no digit.
    (The value is exact here; JavaScript rounds it beyond 2^53.  The white
    space skipped is the ASCII one.) *)
Definition isWhiteSpace (c : ascii) : bool :=
  let n := nat_of_ascii c in
  (((9 <=? n)%nat && (n <=? 13)%nat) || (n =? 32)%nat)%bool.

Fixpoint trimStart (s : string) : string :=
  match s with
  | EmptyString => EmptyString
  | String c r => if isWhiteSpace c then trimStart r else s
  end.

Definition digitValue (c : ascii) : option Z :=
  let n := nat_of_ascii c in
  if ((48 <=? n)%nat && (n <=? 57)%nat)%bool then Some (Z.of_nat (n - 48)) else None.

Fixpoint parseDigits (acc : option Z) (s : string) : option Z :=
  match s with
  | EmptyString => acc
  | String c r =>
      match digitValue c with
      | Some d => parseDigits (Some (10 * orZeroZ acc + d)) r
      | None => acc
      end
  end.

Definition parseInt10 (s : string) : num :=
  let t := trimStart s in
  let '(sign, body) :=
    match t with
    | String "-"%char r => (-1, r)
    | String "+"%char r => (1, r)
    | _ => (1, t)
    end in
  match parseDigits None body with
  | Some m => Int (sign * m)
  | None => NaN
  end.

(** *** [Array.prototype.sort]

    The sort is supplied by the JavaScript engine, so the selector that
    calls it takes the engine's sort as an argument. *)
Definition SortEngine : Type :=
  forall A : Type, (A -> A -> Z) -> list A -> list A.

(** The sort of V8 (Chrome, Node.js, and so the server-side rendering of this
    application), [third_party/v8/builtins/array-sort.tq], for an array of
    fewer than 64 elements: [ComputeMinRunLength] is then the length of the
    array, so [ArrayTimSortImpl] makes one run with [CountAndMakeRun] and
    extends it over the whole array with [BinaryInsertionSort]; no merge
    takes place.  (Longer arrays are cut into runs of 32 to 64 elements that
    are sorted this way and then merged; that part is not modelled.) *)
Section V8.
Context {A : Type} (comparefn : A -> A -> Z).

(** The loop of [CountAndMakeRun]: how far the run that starts with
    [previousElement] extends into [rest]. *)
Fixpoint extendRun (isDescending : bool) (previousElement : A) (rest : list A) : nat :=
  match rest with
  | [] => 0%nat
  | currentElement :: rest' =>
      let order := comparefn currentElement previousElement in
      if (if isDescending then 0 <=? order else order <? 0)
      then 0%nat
      else S (extendRun isDescending currentElement rest')
  end.

(** [CountAndMakeRun(0, length)]: the length of the initial run, and the
    array with that run reversed when it is descending. *)
Definition CountAndMakeRun (a : list A) : nat * list A :=
  match a with
  | [] => (0%nat, a)
  | [_] => (1%nat, a)
  | elementHigh :: elementLow :: rest =>
      let isDescending := comparefn elementLow elementHigh <? 0 in
      let runLength := (2 + extendRun isDescending elementLow rest)%nat in
      if isDescending
      then (runLength, rev (firstn runLength a) ++ skipn runLength a)
      else (runLength, a)
  end.

(** The binary search of [BinaryInsertionSort] for the slot of [pivot] in
    the sorted prefix [a]. *)
Fixpoint insertionPoint (fuel : nat) (pivot : A) (a : list A) (left right : nat) : nat :=
  match fuel with
  | O => left
  | S fuel' =>
      if (left <? right)%nat then
        let mid := (left + (right - left) / 2)%nat in
        match nth_error a mid with
        | Some m =>
            if comparefn pivot m <? 0
            then insertionPoint fuel' pivot a left mid
            else insertionPoint fuel' pivot a (mid + 1)%nat right
        | None => left
        end
      else left
  end.

Fixpoint BinaryInsertionSort (sorted pending : list A) : list A :=
  match pending with
  | [] => sorted
  | pivot :: rest =>
      let n := List.length sorted in
      let left := insertionPoint (S n) pivot sorted 0%nat n in
      BinaryInsertionSort (firstn left sorted ++ pivot :: skipn left sorted) rest
  end.

Definition ArrayTimSort (a : list A) : list A :=
  if (List.length a <? 2)%nat then a
  else
    let '(runLength, a') := CountAndMakeRun a in
    BinaryInsertionSort (firstn runLength a') (skipn runLength a').

End V8.

Definition v8 : SortEngine := fun A => @ArrayTimSort A.

End Js.

(* ================================================================== *)
(** ** models/book.model.ts *)
(* ================================================================== *)

Module Book.
Record t : Type := mk {
  id : Z;
  title : option string;
  author : option string;
  isbn : option string;
  publishedYear : option Z;
  genre : option string;
  status : option string;
  rating : option Q;
  createdAt : string;
  updatedAt : string
}.
End Book.
Abbreviation Book := Book.t.

Module StatusDto.
Record t : Type := mk {
  statusId : Z;
  statusName : option string
}.
End StatusDto.
Abbreviation StatusDto := StatusDto.t.

Module GenreDto.
Record t : Type := mk {
  genreId : Z;
  genreName : option string
}.
End GenreDto.
Abbreviation GenreDto := GenreDto.t.

Module CreateBookRequest.
Record t : Type := mk {
  title : string;
  author : string;
  isbn : option string;
  publishedYear : option Z;
  genreId : option Z;
  statusId : Z;
  rating : option Q
}.
End CreateBookRequest.
Abbreviation CreateBookRequest := CreateBookRequest.t.

(** [UpdateBookRequest extends CreateBookRequest] with [id]. *)
Module UpdateBookRequest.
Record t : Type := mk {
  base : CreateBookRequest;
  id : Z
}.
End UpdateBookRequest.
Abbreviation UpdateBookRequest := UpdateBookRequest.t.

Inductive SortColumn : Type :=
| title | author | rating | publishedYear | genre | status.

Inductive SortDirection : Type :=
| asc | desc.

Module BookFilter.
Record t : Type := mk {
  searchTerm : string;
  statusId : option Z;
  genreId : option Z;
  sortBy : SortColumn;
  sortOrder : SortDirection
}.
End BookFilter.
Abbreviation BookFilter := BookFilter.t.

(** The anonymous type of [BookStateModel.pagination]. *)
Module Pagination.
Record t : Type := mk {
  currentPage : Z;
  pageSize : Z;
  totalCount : Z;
  totalPages : Z
}.
End Pagination.
Abbreviation Pagination := Pagination.t.

Module BookStateModel.
Record t : Type := mk {
  books : list Book;
  selectedBook : option Book;
  loading : bool;
  error : option string;
  filter : BookFilter;
  statuses : list StatusDto;
  genres : list GenreDto;
  pagination : Pagination
}.
End BookStateModel.
Abbreviation BookStateModel := BookStateModel.t.

(** [SortBy?: string] is kept a string: [getBooks] tests it for truthiness.
    [StatusId] and [GenreId] are [number | null | undefined]; [getBooks]
    treats [null] and [undefined] alike, so both are [None]. *)
Module PaginationParams.
Record t : Type := mk {
  Page : Z;
  PageSize : Z;
  SearchText : option string;
  StatusId : option Js.num;
  GenreId : option Js.num;
  SortBy : option string;
  SortDir : option SortDirection
}.
End PaginationParams.
Abbreviation PaginationParams := PaginationParams.t.

Module PaginatedResponse.
Record t (T : Type) : Type := mk {
  items : list T;
  totalCount : Z;
  page : Z;
  pageSize : Z;
  totalPages : Z
}.
Arguments mk {T}.
Arguments items {T}.
Arguments totalCount {T}.
Arguments page {T}.
Arguments pageSize {T}.
Arguments totalPages {T}.
End PaginatedResponse.
Abbreviation PaginatedResponse := PaginatedResponse.t.

(** The string a column or a direction is in the source. *)
Definition columnName (c : SortColumn) : string :=
  match c with
  | title => "title"
  | author => "author"
  | rating => "rating"
  | publishedYear => "publishedYear"
  | genre => "genre"
  | status => "status"
  end.

Definition directionName (d : SortDirection) : string :=
  match d with
  | asc => "asc"
  | desc => "desc"
  end.

(* ================================================================== *)
(** ** services/book.service.ts *)
(* ================================================================== *)

Module BookService.

(** [HttpParams]: an immutable list of query parameters; [set] replaces the
    value of a key that is present and appends the pair otherwise. *)
Definition HttpParams : Type := list (string * string).

Fixpoint set (key value : string) (ps : HttpParams) : HttpParams :=
  match ps with
  | [] => [(key, value)]
  | (k, v) :: rest =>
      if String.eqb k key then (key, value) :: rest
      else (k, v) :: set key value rest
  end.

Fixpoint get (key : string) (ps : HttpParams) : option string :=
  match ps with
  | [] => None
  | (k, v) :: rest => if String.eqb k key then Some v else get key rest
  end.

(** What an [HttpErrorResponse] carries for [handleError]: [error] is either
    an [ErrorEvent] (with its message) or anything else. *)
Inductive ErrorBody : Type :=
| ErrorEvent (message : string)
| OtherBody.

Module HttpErrorResponse.
Record t : Type := mk {
  error : ErrorBody;
  status : Z;
  message : string
}.
End HttpErrorResponse.
Abbreviation HttpErrorResponse := HttpErrorResponse.t.

(** An HTTP request that the service sends. *)
Inductive HttpRequest : Type :=
| GET (url : string) (params : HttpParams)
| POST_create (url : string) (body : CreateBookRequest)
| POST_update (url : string) (body : UpdateBookRequest)
| DELETE (url : string).

Section Service.

(** [environment.apiUrl] comes from [environments/environment.ts], and
    whether [typeof ErrorEvent !== 'undefined'] from the runtime (true in a
    browser, false under Node.js). *)
Variable environment_apiUrl : string.
Variable ErrorEvent_defined : bool.

Definition apiUrl : string := environment_apiUrl ++ "/Books".
Definition lookupsUrl : string := environment_apiUrl ++ "/Lookups".

Definition getAllBooks : HttpRequest := GET apiUrl [].

Definition getBooks (params : PaginationParams) : HttpRequest :=
  let httpParams :=
    set "PageSize" (Js.toString (PaginationParams.PageSize params))
      (set "Page" (Js.toString (PaginationParams.Page params)) []) in
  let httpParams :=
    match PaginationParams.SearchText params with
    | Some s => if Js.truthyString s then set "SearchText" s httpParams else httpParams
    | None => httpParams
    end in
  let httpParams :=
    match PaginationParams.StatusId params with
    | Some n => set "StatusId" (Js.numToString n) httpParams
    | None => httpParams
    end in
  let httpParams :=
    match PaginationParams.GenreId params with
    | Some n => set "GenreId" (Js.numToString n) httpParams
    | None => httpParams
    end in
  let httpParams :=
    match PaginationParams.SortBy params with
    | Some s => if Js.truthyString s then set "SortBy" s httpParams else httpParams
    | None => httpParams
    end in
  let httpParams :=
    match PaginationParams.SortDir params with
    | Some d => set "SortDir" (directionName d) httpParams
    | None => httpParams
    end in
  GET (apiUrl ++ "/paged") httpParams.

Definition getBookById (id : Z) : HttpRequest :=
  GET (apiUrl ++ "/" ++ Js.toString id) [].

Definition createBook (book : CreateBookRequest) : HttpRequest :=
  POST_create (apiUrl ++ "/createBook") book.

Definition updateBook (book : UpdateBookRequest) : HttpRequest :=
  POST_update (apiUrl ++ "/updateBook") book.

Definition deleteBook (id : Z) : HttpRequest :=
  DELETE (apiUrl ++ "/" ++ Js.toString id).

Definition getStatuses : HttpRequest := GET (lookupsUrl ++ "/statuses") [].

Definition getGenres : HttpRequest := GET (lookupsUrl ++ "/Genres") [].

(** [handleError]: the message of the [Error] that the failed observable
    carries to its subscriber. *)
Definition handleError (error : HttpErrorResponse) : string :=
  match ErrorEvent_defined, HttpErrorResponse.error error with
  | true, ErrorEvent message => "Network Error: " ++ message
  | _, _ =>
      if HttpErrorResponse.status error =? 0
      then "Connection Error: Unable to reach API at " ++ apiUrl
           ++ ". Make sure the API server is running on port 7181 and CORS is configured."
      else "Server Error (" ++ Js.toString (HttpErrorResponse.status error) ++ "): "
           ++ HttpErrorResponse.message error
  end.

End Service.

End BookService.

(* ================================================================== *)
(** ** store/book.actions.ts *)
(* ================================================================== *)

Inductive Action : Type :=
| FetchPaginatedBooks (payload : PaginationParams)
| FetchPaginatedBooksSuccess (payload : PaginatedResponse Book)
| FetchPaginatedBooksError (payload : string)
| FetchBooks
| FetchBooksSuccess (payload : list Book)
| FetchBooksError (payload : string)
| FetchBookById (payload : Z)
| FetchBookByIdSuccess (payload : Book)
| FetchBookByIdError (payload : string)
| CreateBook (payload : CreateBookRequest)
| CreateBookSuccess (payload : Book)
| CreateBookError (payload : string)
| UpdateBook (payload : UpdateBookRequest)
| UpdateBookSuccess (payload : Book)
| UpdateBookError (payload : string)
| DeleteBook (payload : Z)
| DeleteBookSuccess (payload : Z)
| DeleteBookError (payload : string)
| FetchStatuses
| FetchStatusesSuccess (payload : list StatusDto)
| FetchStatusesError (payload : string)
| FetchGenres
| FetchGenresSuccess (payload : list GenreDto)
| FetchGenresError (payload : string)
| SetBookFilter (payload : BookFilter)
| ClearBookFilter
| ClearSelectedBook.

(* ================================================================== *)
(** ** store/book.state.ts *)
(* ================================================================== *)

Module BookState.
Import BookStateModel.

(** What a handler does besides producing the next state: it subscribes to
    an HTTP request with a [next] and an [error] callback, each of which
    dispatches an action, or it opens a snack bar. *)
Inductive Effect : Type :=
| Subscribe {T : Type} (request : BookService.HttpRequest)
    (next : T -> Action) (error : string -> Action)
| SnackBarOpen (message action : string) (duration : Z).

Definition defaults : BookStateModel :=
  {| books := [];
     selectedBook := None;
     loading := false;
     error := None;
     filter := {| BookFilter.searchTerm := "";
                  BookFilter.statusId := None;
                  BookFilter.genreId := None;
                  BookFilter.sortBy := title;
                  BookFilter.sortOrder := asc |};
     statuses := [];
     genres := [];
     pagination := {| Pagination.currentPage := 1;
                      Pagination.pageSize := 10;
                      Pagination.totalCount := 0;
                      Pagination.totalPages := 0 |} |}.

(** *** The selector [filteredBooks] *)

(** [aVal] (or [bVal]) after the [switch] on [filter.sortBy].  The
    [default] case of the [switch] is the [title] case again; the type of
    [sortBy] has no other value. *)
Inductive SortValue : Type :=
| StrVal (s : string)
| NumVal (q : Q).

Definition sortValue (sortBy : SortColumn) (a : Book) : SortValue :=
  match sortBy with
  | title => StrVal (Js.orEmpty (Book.title a))
  | author => StrVal (Js.orEmpty (Book.author a))
  | genre => StrVal (Js.orEmpty (Book.genre a))
  | status => StrVal (Js.orEmpty (Book.status a))
  | rating => NumVal (Js.orZeroQ (Book.rating a))
  | publishedYear => NumVal (inject_Z (Js.orZeroZ (Book.publishedYear a)))
  end.

(** [aVal > bVal] and [aVal < bVal]; both values come from the same case of
    the [switch], the mixed cases do not arise. *)
Definition gt (aVal bVal : SortValue) : bool :=
  match aVal, bVal with
  | StrVal x, StrVal y => Js.strGt x y
  | NumVal x, NumVal y => Js.numGt x y
  | _, _ => false
  end.

Definition lt (aVal bVal : SortValue) : bool :=
  match aVal, bVal with
  | StrVal x, StrVal y => Js.strLt x y
  | NumVal x, NumVal y => Js.numLt x y
  | _, _ => false
  end.

(** The comparison function handed to [filtered.sort]. *)
Definition compareBooks (filter : BookFilter) (a b : Book) : Z :=
  let aVal := sortValue (BookFilter.sortBy filter) a in
  let bVal := sortValue (BookFilter.sortBy filter) b in
  match BookFilter.sortOrder filter with
  | asc => if gt aVal bVal then 1 else -1
  | desc => if lt aVal bVal then 1 else -1
  end.

Definition matchesSearch (term : string) (book : Book) : bool :=
  match Book.title book with
  | Some t => Js.includes (Js.toLowerCase t) term
  | None => false
  end
  ||
  match Book.author book with
  | Some a => Js.includes (Js.toLowerCase a) term
  | None => false
  end.

Definition findGenre (genres : list GenreDto) (id : Z) : option GenreDto :=
  find (fun g => GenreDto.genreId g =? id) genres.

Definition findStatus (statuses : list StatusDto) (id : Z) : option StatusDto :=
  find (fun s => StatusDto.statusId s =? id) statuses.

Definition matchesGenre (genres : list GenreDto) (id : Z) (book : Book) : bool :=
  match findGenre genres id with
  | Some g => Js.strictEqOptString (Book.genre book) (GenreDto.genreName g)
  | None => false
  end.

Definition applySearch (filter : BookFilter) (filtered : list Book) : list Book :=
  if Js.truthyString (BookFilter.searchTerm filter)
  then List.filter (matchesSearch (Js.toLowerCase (BookFilter.searchTerm filter))) filtered
  else filtered.

Definition applyGenre (state : BookStateModel) (filtered : list Book) : list Book :=
  match BookFilter.genreId (filter state) with
  | Some id => List.filter (matchesGenre (genres state) id) filtered
  | None => filtered
  end.

Definition applyStatus (state : BookStateModel) (filtered : list Book) : list Book :=
  match BookFilter.statusId (filter state) with
  | Some id =>
      match findStatus (statuses state) id with
      | Some selectedStatus =>
          List.filter
            (fun book => Js.strictEqOptString (Book.status book)
                           (StatusDto.statusName selectedStatus))
            filtered
      | None => filtered
      end
  | None => filtered
  end.

Definition filteredBooks (sort : Js.SortEngine) (state : BookStateModel) : list Book :=
  let filtered := books state in
  let filtered := applySearch (filter state) filtered in
  let filtered := applyGenre state filtered in
  let filtered := applyStatus state filtered in
  sort Book (compareBooks (filter state)) filtered.

(** *** The action handlers

    [patchState({ loading: true, error: null })], with which every book
    operation starts. *)
Definition patchLoading (s : BookStateModel) : BookStateModel :=
  {| books := books s;
     selectedBook := selectedBook s;
     loading := true;
     error := None;
     filter := filter s;
     statuses := statuses s;
     genres := genres s;
     pagination := pagination s |}.

(** [setState({ ...state, loading: false, error: action.payload })], the
    state change of every [...Error] handler of a book operation. *)
Definition setError (s : BookStateModel) (payload : string) : BookStateModel :=
  {| books := books s;
     selectedBook := selectedBook s;
     loading := false;
     error := Some payload;
     filter := filter s;
     statuses := statuses s;
     genres := genres s;
     pagination := pagination s |}.

Section Handlers.

Variable environment_apiUrl : string.

Definition fetchPaginatedBooks (s : BookStateModel) (payload : PaginationParams)
  : BookStateModel * list Effect :=
  (patchLoading s,
   [Subscribe (BookService.getBooks environment_apiUrl payload)
      FetchPaginatedBooksSuccess FetchPaginatedBooksError]).

Definition fetchPaginatedBooksSuccess (s : BookStateModel)
    (payload : PaginatedResponse Book) : BookStateModel * list Effect :=
  ({| books := PaginatedResponse.items payload;
      selectedBook := selectedBook s;
      loading := false;
      error := None;
      filter := filter s;
      statuses := statuses s;
      genres := genres s;
      pagination :=
        {| Pagination.currentPage := PaginatedResponse.page payload;
           Pagination.pageSize := PaginatedResponse.pageSize payload;
           Pagination.totalCount := PaginatedResponse.totalCount payload;
           Pagination.totalPages := PaginatedResponse.totalPages payload |} |},
   []).

Definition fetchPaginatedBooksError (s : BookStateModel) (payload : string)
  : BookStateModel * list Effect :=
  (setError s payload,
   [SnackBarOpen ("Failed to load books: " ++ payload) "Close" 4000]).

Definition fetchBooks (s : BookStateModel) : BookStateModel * list Effect :=
  (patchLoading s,
   [Subscribe (BookService.getAllBooks environment_apiUrl)
      FetchBooksSuccess FetchBooksError]).

Definition fetchBooksSuccess (s : BookStateModel) (payload : list Book)
  : BookStateModel * list Effect :=
  ({| books := payload;
      selectedBook := selectedBook s;
      loading := false;
      error := None;
      filter := filter s;
      statuses := statuses s;
      genres := genres s;
      pagination := pagination s |},
   []).

Definition fetchBooksError (s : BookStateModel) (payload : string)
  : BookStateModel * list Effect :=
  (setError s payload,
   [SnackBarOpen ("Failed to load all books: " ++ payload) "Close" 4000]).

Definition fetchBookById (s : BookStateModel) (payload : Z)
  : BookStateModel * list Effect :=
  (patchLoading s,
   [Subscribe (BookService.getBookById environment_apiUrl payload)
      FetchBookByIdSuccess FetchBookByIdError]).

Definition fetchBookByIdSuccess (s : BookStateModel) (payload : Book)
  : BookStateModel * list Effect :=
  ({| books := books s;
      selectedBook := Some payload;
      loading := false;
      error := None;
      filter := filter s;
      statuses := statuses s;
      genres := genres s;
      pagination := pagination s |},
   []).

Definition fetchBookByIdError (s : BookStateModel) (payload : string)
  : BookStateModel * list Effect :=
  (setError s payload,
   [SnackBarOpen ("Failed to load book: " ++ payload) "Close" 4000]).

Definition createBook (s : BookStateModel) (payload : CreateBookRequest)
  : BookStateModel * list Effect :=
  (patchLoading s,
   [Subscribe (BookService.createBook environment_apiUrl payload)
      CreateBookSuccess CreateBookError]).

Definition createBookSuccess (s : BookStateModel) (payload : Book)
  : BookStateModel * list Effect :=
  ({| books := books s ++ [payload];
      selectedBook := selectedBook s;
      loading := false;
      error := None;
      filter := filter s;
      statuses := statuses s;
      genres := genres s;
      pagination := pagination s |},
   [SnackBarOpen "Book created" "Close" 3000]).

Definition createBookError (s : BookStateModel) (payload : string)
  : BookStateModel * list Effect :=
  (setError s payload,
   [SnackBarOpen ("Failed to create book: " ++ payload) "Close" 4000]).

Definition updateBook (s : BookStateModel) (payload : UpdateBookRequest)
  : BookStateModel * list Effect :=
  (patchLoading s,
   [Subscribe (BookService.updateBook environment_apiUrl payload)
      UpdateBookSuccess UpdateBookError]).

Definition updateBookSuccess (s : BookStateModel) (payload : Book)
  : BookStateModel * list Effect :=
  ({| books := map (fun book => if Book.id book =? Book.id payload then payload else book)
                   (books s);
      selectedBook := Some payload;
      loading := false;
      error := None;
      filter := filter s;
      statuses := statuses s;
      genres := genres s;
      pagination := pagination s |},
   [SnackBarOpen "Book updated" "Close" 3000]).

Definition updateBookError (s : BookStateModel) (payload : string)
  : BookStateModel * list Effect :=
  (setError s payload,
   [SnackBarOpen ("Failed to update book: " ++ payload) "Close" 4000]).

(** The [next] callback of [deleteBook] takes no value and dispatches
    [DeleteBookSuccess] with the id of the request. *)
Definition deleteBook (s : BookStateModel) (payload : Z)
  : BookStateModel * list Effect :=
  (patchLoading s,
   [Subscribe (BookService.deleteBook environment_apiUrl payload)
      (fun _ : unit => DeleteBookSuccess payload) DeleteBookError]).

(** [state.selectedBook?.id === action.payload]. *)
Definition selectedIs (s : BookStateModel) (id : Z) : bool :=
  match selectedBook s with
  | Some b => Book.id b =? id
  | None => false
  end.

Definition deleteBookSuccess (s : BookStateModel) (payload : Z)
  : BookStateModel * list Effect :=
  ({| books := List.filter (fun book => negb (Book.id book =? payload)) (books s);
      selectedBook := if selectedIs s payload then None else selectedBook s;
      loading := false;
      error := None;
      filter := filter s;
      statuses := statuses s;
      genres := genres s;
      pagination := pagination s |},
   [SnackBarOpen "Book deleted" "Close" 3000]).

Definition deleteBookError (s : BookStateModel) (payload : string)
  : BookStateModel * list Effect :=
  (setError s payload,
   [SnackBarOpen ("Failed to delete book: " ++ payload) "Close" 4000]).

Definition fetchStatuses (s : BookStateModel) : BookStateModel * list Effect :=
  (s,
   [Subscribe (BookService.getStatuses environment_apiUrl)
      FetchStatusesSuccess FetchStatusesError]).

Definition fetchStatusesSuccess (s : BookStateModel) (payload : list StatusDto)
  : BookStateModel * list Effect :=
  ({| books := books s;
      selectedBook := selectedBook s;
      loading := loading s;
      error := error s;
      filter := filter s;
      statuses := payload;
      genres := genres s;
      pagination := pagination s |},
   []).

(** The body of this handler is a comment. *)
Definition fetchStatusesError (s : BookStateModel) (payload : string)
  : BookStateModel * list Effect :=
  (s, []).

Definition fetchGenres (s : BookStateModel) : BookStateModel * list Effect :=
  (s,
   [Subscribe (BookService.getGenres environment_apiUrl)
      FetchGenresSuccess FetchGenresError]).

Definition fetchGenresSuccess (s : BookStateModel) (payload : list GenreDto)
  : BookStateModel * list Effect :=
  ({| books := books s;
      selectedBook := selectedBook s;
      loading := loading s;
      error := error s;
      filter := filter s;
      statuses := statuses s;
      genres := payload;
      pagination := pagination s |},
   []).

Definition fetchGenresError (s : BookStateModel) (payload : string)
  : BookStateModel * list Effect :=
  (s, [SnackBarOpen ("Failed to load genres: " ++ payload) "Close" 4000]).

(** [{ ...state.filter, ...action.payload }]: the payload is a [BookFilter],
    which has every property, so each one comes from the payload. *)
Definition mergeFilter (old payload : BookFilter) : BookFilter :=
  {| BookFilter.searchTerm := BookFilter.searchTerm payload;
     BookFilter.statusId := BookFilter.statusId payload;
     BookFilter.genreId := BookFilter.genreId payload;
     BookFilter.sortBy := BookFilter.sortBy payload;
     BookFilter.sortOrder := BookFilter.sortOrder payload |}.

Definition setFilter (s : BookStateModel) (payload : BookFilter)
  : BookStateModel * list Effect :=
  ({| books := books s;
      selectedBook := selectedBook s;
      loading := loading s;
      error := error s;
      filter := mergeFilter (filter s) payload;
      statuses := statuses s;
      genres := genres s;
      pagination := pagination s |},
   []).

Definition clearFilter (s : BookStateModel) : BookStateModel * list Effect :=
  ({| books := books s;
      selectedBook := selectedBook s;
      loading := loading s;
      error := error s;
      filter := {| BookFilter.searchTerm := "";
                   BookFilter.statusId := None;
                   BookFilter.genreId := None;
                   BookFilter.sortBy := title;
                   BookFilter.sortOrder := asc |};
      statuses := statuses s;
      genres := genres s;
      pagination := pagination s |},
   []).

Definition clearSelectedBook (s : BookStateModel) : BookStateModel * list Effect :=
  ({| books := books s;
      selectedBook := None;
      loading := loading s;
      error := error s;
      filter := filter s;
      statuses := statuses s;
      genres := genres s;
      pagination := pagination s |},
   []).

(** [store.dispatch(action)]: the handler registered for the action runs on
    the current state. *)
Definition dispatch (s : BookStateModel) (a : Action) : BookStateModel * list Effect :=
  match a with
  | FetchPaginatedBooks p => fetchPaginatedBooks s p
  | FetchPaginatedBooksSuccess p => fetchPaginatedBooksSuccess s p
  | FetchPaginatedBooksError p => fetchPaginatedBooksError s p
  | FetchBooks => fetchBooks s
  | FetchBooksSuccess p => fetchBooksSuccess s p
  | FetchBooksError p => fetchBooksError s p
  | FetchBookById p => fetchBookById s p
  | FetchBookByIdSuccess p => fetchBookByIdSuccess s p
  | FetchBookByIdError p => fetchBookByIdError s p
  | CreateBook p => createBook s p
  | CreateBookSuccess p => createBookSuccess s p
  | CreateBookError p => createBookError s p
  | UpdateBook p => updateBook s p
  | UpdateBookSuccess p => updateBookSuccess s p
  | UpdateBookError p => updateBookError s p
  | DeleteBook p => deleteBook s p
  | DeleteBookSuccess p => deleteBookSuccess s p
  | DeleteBookError p => deleteBookError s p
  | FetchStatuses => fetchStatuses s
  | FetchStatusesSuccess p => fetchStatusesSuccess s p
  | FetchStatusesError p => fetchStatusesError s p
  | FetchGenres => fetchGenres s
  | FetchGenresSuccess p => fetchGenresSuccess s p
  | FetchGenresError p => fetchGenresError s p
  | SetBookFilter p => setFilter s p
  | ClearBookFilter => clearFilter s
  | ClearSelectedBook => clearSelectedBook s
  end.

(** The state after an action, and after a sequence of actions. *)
Definition reduce (s : BookStateModel) (a : Action) : BookStateModel :=
  fst (dispatch s a).

Definition reduceAll (s : BookStateModel) (l : list Action) : BookStateModel :=
  fold_left reduce l s.

End Handlers.

End BookState.

(* ================================================================== *)
(** ** components/book-list/book-list.component.ts *)
(* ================================================================== *)

Module BookListComponent.

Module SortConfig.
Record t : Type := mk {
  column : SortColumn;
  direction : SortDirection
}.
End SortConfig.
Abbreviation SortConfig := SortConfig.t.

(** The signals of the component. *)
Record t : Type := mk {
  searchTerm : string;
  selectedGenreId : option Js.num;
  selectedStatusId : option Js.num;
  sortConfig : SortConfig;
  currentPage : Z;
  pageSize : Z;
  totalBooks : Z;
  totalPages : Z;
  animateList : bool;
  animateListOut : bool;
  leaving : list Z
}.

(** The values the signals are created with. *)
Definition initial : t :=
  {| searchTerm := "";
     selectedGenreId := None;
     selectedStatusId := None;
     sortConfig := {| SortConfig.column := title; SortConfig.direction := asc |};
     currentPage := 1;
     pageSize := 10;
     totalBooks := 0;
     totalPages := 0;
     animateList := false;
     animateListOut := false;
     leaving := [] |}.

(** [signal.set(v)], one per signal that the methods below write. *)
Definition set_searchTerm (v : string) (c : t) : t :=
  mk v (selectedGenreId c) (selectedStatusId c) (sortConfig c) (currentPage c)
     (pageSize c) (totalBooks c) (totalPages c) (animateList c) (animateListOut c)
     (leaving c).

Definition set_selectedGenreId (v : option Js.num) (c : t) : t :=
  mk (searchTerm c) v (selectedStatusId c) (sortConfig c) (currentPage c)
     (pageSize c) (totalBooks c) (totalPages c) (animateList c) (animateListOut c)
     (leaving c).

Definition set_selectedStatusId (v : option Js.num) (c : t) : t :=
  mk (searchTerm c) (selectedGenreId c) v (sortConfig c) (currentPage c)
     (pageSize c) (totalBooks c) (totalPages c) (animateList c) (animateListOut c)
     (leaving c).

Definition set_sortConfig (v : SortConfig) (c : t) : t :=
  mk (searchTerm c) (selectedGenreId c) (selectedStatusId c) v (currentPage c)
     (pageSize c) (totalBooks c) (totalPages c) (animateList c) (animateListOut c)
     (leaving c).

Definition set_currentPage (v : Z) (c : t) : t :=
  mk (searchTerm c) (selectedGenreId c) (selectedStatusId c) (sortConfig c) v
     (pageSize c) (totalBooks c) (totalPages c) (animateList c) (animateListOut c)
     (leaving c).

Definition set_pageSize (v : Z) (c : t) : t :=
  mk (searchTerm c) (selectedGenreId c) (selectedStatusId c) (sortConfig c)
     (currentPage c) v (totalBooks c) (totalPages c) (animateList c)
     (animateListOut c) (leaving c).

Definition set_totalBooks (v : Z) (c : t) : t :=
  mk (searchTerm c) (selectedGenreId c) (selectedStatusId c) (sortConfig c)
     (currentPage c) (pageSize c) v (totalPages c) (animateList c)
     (animateListOut c) (leaving c).

Definition set_totalPages (v : Z) (c : t) : t :=
  mk (searchTerm c) (selectedGenreId c) (selectedStatusId c) (sortConfig c)
     (currentPage c) (pageSize c) (totalBooks c) v (animateList c)
     (animateListOut c) (leaving c).

Definition set_animateList (v : bool) (c : t) : t :=
  mk (searchTerm c) (selectedGenreId c) (selectedStatusId c) (sortConfig c)
     (currentPage c) (pageSize c) (totalBooks c) (totalPages c) v
     (animateListOut c) (leaving c).

Definition set_animateListOut (v : bool) (c : t) : t :=
  mk (searchTerm c) (selectedGenreId c) (selectedStatusId c) (sortConfig c)
     (currentPage c) (pageSize c) (totalBooks c) (totalPages c) (animateList c)
     v (leaving c).

Definition ANIM_MS : Z := 320.

(** The functions that the methods hand to [setTimeout]. *)
Inductive Callback : Type :=
| ReloadFirstPage
    (* currentPage.set(1); loadData(); animateListOut.set(false) *)
| LoadPage (page : Z)
    (* currentPage.set(page); loadData(); animateListOut.set(false) *)
| LoadPreviousPage
    (* currentPage.set(currentPage() - 1); loadData(); ... *)
| LoadNextPage
    (* currentPage.set(currentPage() + 1); loadData(); ... *)
| ApplyPageSize (size : Z)
    (* pageSize.set(size); currentPage.set(1); loadData(); ... *)
| EndEnterAnimation.
    (* animateList.set(false) *)

(** What a method asks of its surroundings. *)
Inductive Output : Type :=
| Dispatch (a : Action)
| SetTimeout (callback : Callback) (ms : Z).

Definition canPreviousPage (c : t) : bool := 1 <? currentPage c.
Definition canNextPage (c : t) : bool := currentPage c <? totalPages c.

(** The parameters that [loadData] builds from the signals. *)
Definition loadDataParams (c : t) : PaginationParams :=
  {| PaginationParams.Page := currentPage c;
     PaginationParams.PageSize := pageSize c;
     PaginationParams.SearchText := Js.stringOrUndefined (searchTerm c);
     PaginationParams.StatusId := Js.numOrUndefined (selectedStatusId c);
     PaginationParams.GenreId := Js.numOrUndefined (selectedGenreId c);
     PaginationParams.SortBy := Some (columnName (SortConfig.column (sortConfig c)));
     PaginationParams.SortDir := Some (SortConfig.direction (sortConfig c)) |}.

Definition loadData (c : t) : list Output :=
  [Dispatch (FetchPaginatedBooks (loadDataParams c))].

Definition onSearch (term : string) (c : t) : t * list Output :=
  let c := set_searchTerm term c in
  let c := set_animateListOut true c in
  (c, [SetTimeout ReloadFirstPage ANIM_MS]).

(** [genreId ? parseInt(genreId, 10) : null]. *)
Definition parseId (s : string) : option Js.num :=
  if Js.truthyString s then Some (Js.parseInt10 s) else None.

Definition onGenreChange (genreId : string) (c : t) : t * list Output :=
  let id := parseId genreId in
  let c := set_selectedGenreId id c in
  let c := set_animateListOut true c in
  (c, [SetTimeout ReloadFirstPage ANIM_MS]).

Definition onStatusChange (statusId : string) (c : t) : t * list Output :=
  let id := parseId statusId in
  let c := set_selectedStatusId id c in
  let c := set_animateListOut true c in
  (c, [SetTimeout ReloadFirstPage ANIM_MS]).

Definition columnEq (a b : SortColumn) : bool :=
  String.eqb (columnName a) (columnName b).

Definition onSortChange (column : SortColumn) (c : t) : t * list Output :=
  let current := sortConfig c in
  let c :=
    if columnEq (SortConfig.column current) column
    then set_sortConfig
           {| SortConfig.column := column;
              SortConfig.direction :=
                match SortConfig.direction current with
                | asc => desc
                | desc => asc
                end |} c
    else set_sortConfig
           {| SortConfig.column := column; SortConfig.direction := asc |} c in
  let c := set_animateListOut true c in
  (c, [SetTimeout ReloadFirstPage ANIM_MS]).

Definition goToPage (page : Z) (c : t) : t * list Output :=
  if (1 <=? page) && (page <=? totalPages c)
  then (set_animateListOut true c, [SetTimeout (LoadPage page) ANIM_MS])
  else (c, []).

Definition previousPage (c : t) : t * list Output :=
  if canPreviousPage c
  then (set_animateListOut true c, [SetTimeout LoadPreviousPage ANIM_MS])
  else (c, []).

Definition nextPage (c : t) : t * list Output :=
  if canNextPage c
  then (set_animateListOut true c, [SetTimeout LoadNextPage ANIM_MS])
  else (c, []).

Definition changePageSize (size : Z) (c : t) : t * list Output :=
  (set_animateListOut true c, [SetTimeout (ApplyPageSize size) ANIM_MS]).

(** A timer fires: the body of the function given to [setTimeout] runs on
    the signals as they are then. *)
Definition fire (callback : Callback) (c : t) : t * list Output :=
  match callback with
  | ReloadFirstPage =>
      let c := set_currentPage 1 c in
      let out := loadData c in
      (set_animateListOut false c, out)
  | LoadPage page =>
      let c := set_currentPage page c in
      let out := loadData c in
      (set_animateListOut false c, out)
  | LoadPreviousPage =>
      let c := set_currentPage (currentPage c - 1) c in
      let out := loadData c in
      (set_animateListOut false c, out)
  | LoadNextPage =>
      let c := set_currentPage (currentPage c + 1) c in
      let out := loadData c in
      (set_animateListOut false c, out)
  | ApplyPageSize size =>
      let c := set_pageSize size c in
      let c := set_currentPage 1 c in
      let out := loadData c in
      (set_animateListOut false c, out)
  | EndEnterAnimation => (set_animateList false c, [])
  end.

(** The subscription to [pagination$] made in [ngOnInit]. *)
Definition onPagination (pagination : Pagination) (c : t) : t :=
  let c := set_currentPage (Pagination.currentPage pagination) c in
  let c := set_pageSize (Pagination.pageSize pagination) c in
  let c := set_totalBooks (Pagination.totalCount pagination) c in
  set_totalPages (Pagination.totalPages pagination) c.

(** The subscription to [loading$] made in [ngOnInit]. *)
Definition onLoading (loading : bool) (c : t) : t * list Output :=
  if negb loading
  then (set_animateList true c, [SetTimeout EndEnterAnimation 20])
  else (c, []).

(** The user's gestures that change what is listed, and the method each one
    calls. *)
Inductive Gesture : Type :=
| Search (term : string)
| GenreChange (genreId : string)
| StatusChange (statusId : string)
| SortChange (column : SortColumn)
| PageSizeChange (size : Z).

Definition handle (g : Gesture) (c : t) : t * list Output :=
  match g with
  | Search term => onSearch term c
  | GenreChange genreId => onGenreChange genreId c
  | StatusChange statusId => onStatusChange statusId c
  | SortChange column => onSortChange column c
  | PageSizeChange size => changePageSize size c
  end.

(** The timers an output list sets, in the order they were set. *)
Fixpoint timersOf (out : list Output) : list Callback :=
  match out with
  | [] => []
  | SetTimeout cb _ :: rest => cb :: timersOf rest
  | Dispatch _ :: rest => timersOf rest
  end.

Fixpoint dispatchedBy (out : list Output) : list Action :=
  match out with
  | [] => []
  | Dispatch a :: rest => a :: dispatchedBy rest
  | SetTimeout _ _ :: rest => dispatchedBy rest
  end.

(** A sequence of gestures made one after the other, before any timer
    fires: the signals afterwards and the timers pending, oldest first. *)
Fixpoint gestures (gs : list Gesture) (c : t) : t * list Callback :=
  match gs with
  | [] => (c, [])
  | g :: rest =>
      let '(c1, out) := handle g c in
      let '(c2, pending) := gestures rest c1 in
      (c2, timersOf out ++ pending)
  end.

(** The pending timers fire in the order they were set (they all wait
    [ANIM_MS]); the actions dispatched, in order. *)
Fixpoint fireAll (pending : list Callback) (c : t) : t * list Action :=
  match pending with
  | [] => (c, [])
  | cb :: rest =>
      let '(c1, out) := fire cb c in
      let '(c2, acts) := fireAll rest c1 in
      (c2, dispatchedBy out ++ acts)
  end.

End BookListComponent.

(* ================================================================== *)
(** ** Page fetches in flight *)
(* ================================================================== *)

(** [fetchPaginatedBooks] subscribes to the request and returns; the
    response arrives later and its [next] callback dispatches
    [FetchPaginatedBooksSuccess].  Nothing in the store or in the service
    identifies the request a response belongs to.  To speak about it, the
    requests are numbered here in the order they are issued (0, 1, ...); the
    number is not part of the program's state and no handler reads it. *)
Module PageFetches.
Import BookStateModel.

Inductive Event : Type :=
| Issue (params : PaginationParams)
    (* store.dispatch(new FetchPaginatedBooks(params)) *)
| Arrive (request : nat) (response : PaginatedResponse Book)
    (* the request completes: next(response) *)
| Fail (request : nat) (message : string).
    (* the request fails: error(new Error(message)) *)

Record t : Type := mk {
  store : BookStateModel;
  issued : nat;
  inFlight : list nat
}.

Definition start (s : BookStateModel) : t :=
  {| store := s; issued := 0; inFlight := [] |}.

Definition isInFlight (request : nat) (w : t) : bool :=
  existsb (Nat.eqb request) (inFlight w).

Definition complete (request : nat) (w : t) : list nat :=
  List.filter (fun r => negb (Nat.eqb r request)) (inFlight w).

Section Run.
Variable environment_apiUrl : string.

Definition step (w : t) (e : Event) : t :=
  match e with
  | Issue params =>
      {| store := BookState.reduce environment_apiUrl (store w) (FetchPaginatedBooks params);
         issued := S (issued w);
         inFlight := inFlight w ++ [issued w] |}
  | Arrive request response =>
      if isInFlight request w
      then {| store := BookState.reduce environment_apiUrl (store w)
                         (FetchPaginatedBooksSuccess response);
              issued := issued w;
              inFlight := complete request w |}
      else w
  | Fail request message =>
      if isInFlight request w
      then {| store := BookState.reduce environment_apiUrl (store w)
                         (FetchPaginatedBooksError message);
              issued := issued w;
              inFlight := complete request w |}
      else w
  end.

Definition run (w : t) (es : list Event) : t := fold_left step es w.

End Run.

(** The pagination metadata that a response carries. *)
Definition paginationOf (r : PaginatedResponse Book) : Pagination :=
  {| Pagination.currentPage := PaginatedResponse.page r;
     Pagination.pageSize := PaginatedResponse.pageSize r;
     Pagination.totalCount := PaginatedResponse.totalCount r;
     Pagination.totalPages := PaginatedResponse.totalPages r |}.

(** The guarantee asked of the store: when two page fetches are in flight
    and the response of the later one has been applied, the response of the
    earlier one, arriving afterwards, leaves the listed page alone. *)
Definition SupersededNeverOverwrites (environment_apiUrl : string) : Prop :=
  forall (s : BookStateModel) (p0 p1 : PaginationParams)
         (r0 r1 : PaginatedResponse Book),
    let w := run environment_apiUrl (start s)
               [Issue p0; Issue p1; Arrive 1 r1; Arrive 0 r0] in
    books (store w) = PaginatedResponse.items r1 /\
    pagination (store w) = paginationOf r1.

End PageFetches.

(* ================================================================== *)
(** ** Definitions that the statements below use *)
(* ================================================================== *)

Module Spec.
Import BookStateModel.

(** *** The operations of the store and their outcome actions *)

Inductive Operation : Type :=
| OpFetchPage | OpFetchAll | OpFetchDetail | OpCreate | OpUpdate | OpDelete
| OpFetchStatuses | OpFetchGenres.

Definition isBookOperation (op : Operation) : bool :=
  match op with
  | OpFetchStatuses | OpFetchGenres => false
  | _ => true
  end.

(** The action that the [error] callback of the operation dispatches. *)
Definition failure (op : Operation) (message : string) : Action :=
  match op with
  | OpFetchPage => FetchPaginatedBooksError message
  | OpFetchAll => FetchBooksError message
  | OpFetchDetail => FetchBookByIdError message
  | OpCreate => CreateBookError message
  | OpUpdate => UpdateBookError message
  | OpDelete => DeleteBookError message
  | OpFetchStatuses => FetchStatusesError message
  | OpFetchGenres => FetchGenresError message
  end.

(** How an action relates to the operations: it requests one, reports its
    success, reports its failure, or is a local change (filter, selection). *)
Inductive Role : Type :=
| Request (op : Operation)
| Success (op : Operation)
| Failure (op : Operation) (message : string)
| Local.

Definition role (a : Action) : Role :=
  match a with
  | FetchPaginatedBooks _ => Request OpFetchPage
  | FetchPaginatedBooksSuccess _ => Success OpFetchPage
  | FetchPaginatedBooksError m => Failure OpFetchPage m
  | FetchBooks => Request OpFetchAll
  | FetchBooksSuccess _ => Success OpFetchAll
  | FetchBooksError m => Failure OpFetchAll m
  | FetchBookById _ => Request OpFetchDetail
  | FetchBookByIdSuccess _ => Success OpFetchDetail
  | FetchBookByIdError m => Failure OpFetchDetail m
  | CreateBook _ => Request OpCreate
  | CreateBookSuccess _ => Success OpCreate
  | CreateBookError m => Failure OpCreate m
  | UpdateBook _ => Request OpUpdate
  | UpdateBookSuccess _ => Success OpUpdate
  | UpdateBookError m => Failure OpUpdate m
  | DeleteBook _ => Request OpDelete
  | DeleteBookSuccess _ => Success OpDelete
  | DeleteBookError m => Failure OpDelete m
  | FetchStatuses => Request OpFetchStatuses
  | FetchStatusesSuccess _ => Success OpFetchStatuses
  | FetchStatusesError m => Failure OpFetchStatuses m
  | FetchGenres => Request OpFetchGenres
  | FetchGenresSuccess _ => Success OpFetchGenres
  | FetchGenresError m => Failure OpFetchGenres m
  | SetBookFilter _ | ClearBookFilter | ClearSelectedBook => Local
  end.

(** *** The three kinds of failure that [handleError] tells apart *)

Inductive FailureKind : Type :=
| ClientSide      (* error.error is an ErrorEvent *)
| Connection      (* status 0 *)
| ServerResponse. (* any other status *)

Definition failureKind (ErrorEvent_defined : bool)
    (e : BookService.HttpErrorResponse) : FailureKind :=
  match ErrorEvent_defined, BookService.HttpErrorResponse.error e with
  | true, BookService.ErrorEvent _ => ClientSide
  | _, _ =>
      if BookService.HttpErrorResponse.status e =? 0 then Connection
      else ServerResponse
  end.

(** *** The projection the specification describes

    Written from the specification's words, to be compared with
    [BookState.filteredBooks]: the books that pass the three predicates,
    in the order of a stable sort on the selected field, ascending by the
    field's natural order or descending by its reverse, ties in their
    original order. *)
Definition comesNoLater (f : BookFilter) (a b : Book) : bool :=
  let aVal := BookState.sortValue (BookFilter.sortBy f) a in
  let bVal := BookState.sortValue (BookFilter.sortBy f) b in
  match BookFilter.sortOrder f with
  | asc => negb (BookState.gt aVal bVal)
  | desc => negb (BookState.lt aVal bVal)
  end.

(** [x] stood before every element of [sorted] in the original list. *)
Fixpoint insertStable (f : BookFilter) (x : Book) (sorted : list Book) : list Book :=
  match sorted with
  | [] => [x]
  | y :: rest =>
      if comesNoLater f x y then x :: sorted
      else y :: insertStable f x rest
  end.

Definition stableSort (f : BookFilter) (l : list Book) : list Book :=
  fold_right (insertStable f) [] l.

(** Two books tie when neither has the greater value in the sort field;
    a list has no ties when no two of its entries do. *)
Definition tie (f : BookFilter) (a b : Book) : bool :=
  let aVal := BookState.sortValue (BookFilter.sortBy f) a in
  let bVal := BookState.sortValue (BookFilter.sortBy f) b in
  negb (BookState.gt aVal bVal) && negb (BookState.lt aVal bVal).

Definition noTies (f : BookFilter) (l : list Book) : Prop :=
  ForallOrdPairs (fun a b => tie f a b = false) l.

Definition passes (state : BookStateModel) (book : Book) : bool :=
  (if Js.truthyString (BookFilter.searchTerm (filter state))
   then BookState.matchesSearch
          (Js.toLowerCase (BookFilter.searchTerm (filter state))) book
   else true)
  &&
  (match BookFilter.genreId (filter state) with
   | Some id => BookState.matchesGenre (genres state) id book
   | None => true
   end)
  &&
  (match BookFilter.statusId (filter state) with
   | Some id =>
       match BookState.findStatus (statuses state) id with
       | Some st => Js.strictEqOptString (Book.status book) (StatusDto.statusName st)
       | None => true
       end
   | None => true
   end).

Definition stableProjection (state : BookStateModel) : list Book :=
  stableSort (filter state) (List.filter (passes state) (books state)).

(** *** The value a gesture sets, and the last one set *)

Fixpoint lastSearch (gs : list BookListComponent.Gesture) (current : string) : string :=
  match gs with
  | [] => current
  | BookListComponent.Search term :: rest => lastSearch rest term
  | _ :: rest => lastSearch rest current
  end.

Fixpoint lastGenre (gs : list BookListComponent.Gesture) (current : option Js.num)
  : option Js.num :=
  match gs with
  | [] => current
  | BookListComponent.GenreChange g :: rest =>
      lastGenre rest (BookListComponent.parseId g)
  | _ :: rest => lastGenre rest current
  end.

Fixpoint lastStatus (gs : list BookListComponent.Gesture) (current : option Js.num)
  : option Js.num :=
  match gs with
  | [] => current
  | BookListComponent.StatusChange g :: rest =>
      lastStatus rest (BookListComponent.parseId g)
  | _ :: rest => lastStatus rest current
  end.

(** *** The page of the fetch that follows a gesture

    The timers of [goToPage], [previousPage] and [nextPage]: their callbacks
    set the current page to the page asked for. *)
Definition isPageStep (callback : BookListComponent.Callback) : bool :=
  match callback with
  | BookListComponent.LoadPage _
  | BookListComponent.LoadPreviousPage
  | BookListComponent.LoadNextPage => true
  | _ => false
  end.

Definition fetchesPage (page : Z) (a : Action) : Prop :=
  exists params, a = FetchPaginatedBooks params /\ PaginationParams.Page params = page.

(** The guarantee asked of the controller: whatever the signals are and
    whatever timers are pending when the user makes one of the five
    gestures, the first page fetch dispatched afterwards is for page 1.
    (The pending timers were set before the gesture's own and wait as long,
    so they fire first.) *)
Definition ResetsPageBeforeNextFetch : Prop :=
  forall (g : BookListComponent.Gesture) (c : BookListComponent.t)
         (pending : list BookListComponent.Callback),
    let '(c1, out) := BookListComponent.handle g c in
    exists a rest,
      snd (BookListComponent.fireAll (pending ++ BookListComponent.timersOf out) c1)
      = a :: rest /\
      fetchesPage 1 a.

(** *** Ids that are printed and read back exactly

    [String(n)] prints the decimal digits of an integer below 10^21 and
    [parseInt] reads digits back exactly up to 2^53: both hold of the safe
    integers, those of absolute value at most 2^53 - 1. *)
Definition MAX_SAFE_INTEGER : Z := 9007199254740991.

Definition isSafeInteger (z : Z) : bool := Z.abs z <=? MAX_SAFE_INTEGER.

(** The test of the filter in [deleteBookSuccess]. *)
Definition keepsOthers (id : Z) (b : Book) : bool := negb (Book.id b =? id).

(** *** Sample data *)

Definition book (id : Z) (title author : string) : Book :=
  {| Book.id := id;
     Book.title := Some title;
     Book.author := Some author;
     Book.isbn := None;
     Book.publishedYear := None;
     Book.genre := None;
     Book.status := None;
     Book.rating := None;
     Book.createdAt := "2025-01-01T00:00:00Z";
     Book.updatedAt := "2025-01-01T00:00:00Z" |}.

Definition withBooks (l : list Book) (s : BookStateModel) : BookStateModel :=
  {| books := l;
     selectedBook := selectedBook s;
     loading := loading s;
     error := error s;
     filter := filter s;
     statuses := statuses s;
     genres := genres s;
     pagination := pagination s |}.

Definition withSelected (b : option Book) (s : BookStateModel) : BookStateModel :=
  {| books := books s;
     selectedBook := b;
     loading := loading s;
     error := error s;
     filter := filter s;
     statuses := statuses s;
     genres := genres s;
     pagination := pagination s |}.

Definition response (l : list Book) (count page size pages : Z)
  : PaginatedResponse Book :=
  {| PaginatedResponse.items := l;
     PaginatedResponse.totalCount := count;
     PaginatedResponse.page := page;
     PaginatedResponse.pageSize := size;
     PaginatedResponse.totalPages := pages |}.

Definition unreachable : BookService.HttpErrorResponse :=
  {| BookService.HttpErrorResponse.error := BookService.OtherBody;
     BookService.HttpErrorResponse.status := 0;
     BookService.HttpErrorResponse.message :=
       "Http failure response for /api/Books/paged: 0 Unknown Error" |}.

Definition firstPage : PaginationParams :=
  {| PaginationParams.Page := 1;
     PaginationParams.PageSize := 10;
     PaginationParams.SearchText := None;
     PaginationParams.StatusId := None;
     PaginationParams.GenreId := None;
     PaginationParams.SortBy := Some "title";
     PaginationParams.SortDir := Some asc |}.

End Spec.

(* ================================================================== *)
(** ** The rest of the store, the components and the routes *)
(* ================================================================== *)

(** *** store/book.state.ts: what a dispatch sends and what an action
    carries *)
Module StoreTraffic.

(** The HTTP requests among the effects of a handler. *)
Fixpoint requestsOf (effects : list BookState.Effect) : list BookService.HttpRequest :=
  match effects with
  | [] => []
  | BookState.Subscribe request _ _ :: rest => request :: requestsOf rest
  | BookState.SnackBarOpen _ _ _ :: rest => requestsOf rest
  end.

(** The book records that an action brings with it. *)
Definition carried (a : Action) : list Book :=
  match a with
  | FetchPaginatedBooksSuccess payload => PaginatedResponse.items payload
  | FetchBooksSuccess payload => payload
  | FetchBookByIdSuccess payload => [payload]
  | CreateBookSuccess payload => [payload]
  | UpdateBookSuccess payload => [payload]
  | _ => []
  end.

Definition carriedBy (l : list Action) : list Book := flat_map carried l.

(** The HTTP requests sent while a sequence of actions is dispatched, in
    order. *)
Fixpoint sent (environment_apiUrl : string) (s : BookStateModel) (l : list Action)
  : list BookService.HttpRequest :=
  match l with
  | [] => []
  | a :: rest =>
      let '(s1, effects) := BookState.dispatch environment_apiUrl s a in
      requestsOf effects ++ sent environment_apiUrl s1 rest
  end.

(** The actions of a sequence that request an operation. *)
Definition isRequest (a : Action) : bool :=
  match a with
  | FetchPaginatedBooks _ | FetchBooks | FetchBookById _ | CreateBook _
  | UpdateBook _ | DeleteBook _ | FetchStatuses | FetchGenres => true
  | _ => false
  end.

End StoreTraffic.

(** *** store/book.state.ts: the search of [filteredBooks], for any engine

    [String.prototype.toLowerCase] is supplied by the JavaScript engine, as
    the sort is; here the first stage of the selector takes it as an
    argument.  ([BookState.applySearch] is this stage for an engine that
    lowers the letters A to Z.) *)
Module SearchStage.

Section Engine.
Variable toLowerCase : string -> string.

(** [(book.title?.toLowerCase().includes(term) || false) ||
     (book.author?.toLowerCase().includes(term) || false)]. *)
Definition matchesSearch (term : string) (book : Book) : bool :=
  match Book.title book with
  | Some t => Js.includes (toLowerCase t) term
  | None => false
  end
  ||
  match Book.author book with
  | Some a => Js.includes (toLowerCase a) term
  | None => false
  end.

(** [if (filter.searchTerm) { const term = filter.searchTerm.toLowerCase();
     filtered = filtered.filter(...) }]. *)
Definition applySearch (filter : BookFilter) (filtered : list Book) : list Book :=
  if Js.truthyString (BookFilter.searchTerm filter)
  then List.filter (matchesSearch (toLowerCase (BookFilter.searchTerm filter))) filtered
  else filtered.

End Engine.

End SearchStage.

(** *** store/book.state.ts: what [filteredBooks] is to return

    The books to be listed and their order, stated on the fields of the
    books and on the two lookup tables, without the tests of the selector. *)
Module Projection.
Import BookStateModel.

(** Text of ASCII characters: there [Js.toLowerCase] is the engine's
    [toLowerCase] and the order of [String.compare] is the order of [<] and
    [>] on JavaScript strings. *)
Definition isAscii (s : string) : bool :=
  forallb (fun c => (nat_of_ascii c <? 128)%nat) (list_ascii_of_string s).

Definition isAsciiOrNull (x : option string) : bool :=
  match x with
  | Some s => isAscii s
  | None => true
  end.

Definition asciiBook (b : Book) : bool :=
  isAsciiOrNull (Book.title b) && isAsciiOrNull (Book.author b)
  && isAsciiOrNull (Book.genre b) && isAsciiOrNull (Book.status b).

Definition asciiText (s : BookStateModel) : bool :=
  isAscii (BookFilter.searchTerm (filter s)) && forallb asciiBook (books s).

(** [t] occurs in [s]. *)
Definition Occurs (t s : string) : Prop :=
  exists before after : string, s = (before ++ t ++ after)%string.

(** [entry] is the first entry of [table] with the id. *)
Definition FirstWith {A : Type} (idOf : A -> Z) (id : Z) (table : list A) (entry : A)
  : Prop :=
  exists before after,
    table = before ++ entry :: after /\
    idOf entry = id /\
    forall x, In x before -> idOf x <> id.

(** The term occurs in the title or in the author of the book, case
    ignored. *)
Definition Found (term : string) (b : Book) : Prop :=
  (exists t, Book.title b = Some t /\
             Occurs (Js.toLowerCase term) (Js.toLowerCase t)) \/
  (exists a, Book.author b = Some a /\
             Occurs (Js.toLowerCase term) (Js.toLowerCase a)).

(** The book is to be listed: the search term is empty or found in it;
    when a genre is selected, the table has that genre and the book is of
    it; when a status is selected and the table has it, the book has it. *)
Definition Selected (s : BookStateModel) (b : Book) : Prop :=
  (BookFilter.searchTerm (filter s) = "" \/ Found (BookFilter.searchTerm (filter s)) b) /\
  (forall id, BookFilter.genreId (filter s) = Some id ->
     exists g, FirstWith GenreDto.genreId id (genres s) g /\
               Book.genre b = GenreDto.genreName g) /\
  (forall id st, BookFilter.statusId (filter s) = Some id ->
     FirstWith StatusDto.statusId id (statuses s) st ->
     Book.status b = StatusDto.statusName st).

(** The order of a column: texts by [String.compare], a missing text as
    the empty text; ratings and years as numbers, a missing one as 0. *)
Definition fieldLe (column : SortColumn) (a b : Book) : Prop :=
  match column with
  | title =>
      String.leb (Js.orEmpty (Book.title a)) (Js.orEmpty (Book.title b)) = true
  | author =>
      String.leb (Js.orEmpty (Book.author a)) (Js.orEmpty (Book.author b)) = true
  | genre =>
      String.leb (Js.orEmpty (Book.genre a)) (Js.orEmpty (Book.genre b)) = true
  | status =>
      String.leb (Js.orEmpty (Book.status a)) (Js.orEmpty (Book.status b)) = true
  | rating =>
      (Js.orZeroQ (Book.rating a) <= Js.orZeroQ (Book.rating b))%Q
  | publishedYear =>
      Js.orZeroZ (Book.publishedYear a) <= Js.orZeroZ (Book.publishedYear b)
  end.

(** [a] may stand before [b]: ascending, or the reverse for descending. *)
Definition NoLater (f : BookFilter) (a b : Book) : Prop :=
  match BookFilter.sortOrder f with
  | asc => fieldLe (BookFilter.sortBy f) a b
  | desc => fieldLe (BookFilter.sortBy f) b a
  end.

End Projection.

(** *** components/book-list/book-list.component.ts, the other members *)
Module BookList.
Import BookListComponent.

(** [for (let i = left; i <= right; i++) pages.push(i)]. *)
Definition range (left right : Z) : list Z :=
  map (fun i => left + Z.of_nat i) (seq 0 (Z.to_nat (right - left + 1))).

(** [pageNumbers]; an ellipsis is the entry [-1].
    [Array.from({ length: total }, (_, i) => i + 1)] is the pages 1 to
    [total], none for a [total] below 1. *)
Definition pageNumbers (c : BookListComponent.t) : list Z :=
  let total := totalPages c in
  let current := currentPage c in
  let maxButtons := 5 in
  if total <=? maxButtons then range 1 total
  else
    let window := 1 in
    let left := Z.max 2 (current - window) in
    let right := Z.min (total - 1) (current + window) in
    [1] ++ (if 2 <? left then [-1] else [])
        ++ range left right
        ++ (if right <? total - 1 then [-1] else [])
        ++ [total].

Definition getSortIndicator (column : string) (c : BookListComponent.t) : string :=
  let config := sortConfig c in
  if String.eqb (columnName (SortConfig.column config)) column
  then match SortConfig.direction config with
       | asc => "↑"
       | desc => "↓"
       end
  else "".

(** [id ? String(id) : ''], the value bound to a select. *)
Definition selectValue (id : option Js.num) : string :=
  match id with
  | Some n => if Js.truthyNum n then Js.numToString n else ""
  | None => ""
  end.

Definition getGenreSelectValue (c : BookListComponent.t) : string :=
  selectValue (selectedGenreId c).

Definition getStatusSelectValue (c : BookListComponent.t) : string :=
  selectValue (selectedStatusId c).

Definition getStatusBadgeClass (status : option string) : string :=
  let statusLower :=
    match status with
    | Some s => Js.toLowerCase s
    | None => ""
    end in
  if Js.includes statusLower "read" then "badge-success"
  else if Js.includes statusLower "reading" then "badge-info"
  else if Js.includes statusLower "want" then "badge-warning"
  else "badge-default".

(** [start] and [end] of [getPaginationInfo]. *)
Definition shownRange (c : BookListComponent.t) : Z * Z :=
  ((currentPage c - 1) * pageSize c + 1,
   Z.min (currentPage c * pageSize c) (totalBooks c)).

Definition getPaginationInfo (c : BookListComponent.t) : string :=
  let '(first, last) := shownRange c in
  let total := totalBooks c in
  if total =? 0 then "No books found"
  else "Showing " ++ Js.toString first ++ "-" ++ Js.toString last
       ++ " of " ++ Js.toString total ++ " books".

Definition set_leaving (v : list Z) (c : BookListComponent.t) : BookListComponent.t :=
  BookListComponent.mk (searchTerm c) (selectedGenreId c) (selectedStatusId c)
    (sortConfig c) (currentPage c) (pageSize c) (totalBooks c) (totalPages c)
    (animateList c) (animateListOut c) v.

(** [deleteBook(id, event)]: [confirmed] is the answer to [confirm(...)].
    The result says whether the timer of [ANIM_MS] was set. *)
Definition deleteBook (id : Z) (confirmed : bool) (c : BookListComponent.t)
  : BookListComponent.t * bool :=
  if confirmed then (set_leaving (leaving c ++ [id]) c, true) else (c, false).

(** The function [deleteBook] hands to [setTimeout]. *)
Definition deleteBookTimer (id : Z) (c : BookListComponent.t)
  : BookListComponent.t * list Action :=
  (set_leaving (List.filter (fun x => negb (x =? id)) (leaving c)) c,
   [DeleteBook id]).

(** [router.navigate(commands)] of [selectBook] and [editBook]. *)
Definition selectBook (book : Book) : list string :=
  ["/books"; Js.toString (Book.id book)].

Definition editBook (book : Book) : list string :=
  ["/books"; Js.toString (Book.id book); "edit"].

(** [n] clicks on "previous page", and on "next page", one after the other
    before any timer fires: the signals afterwards and the timers set. *)
Fixpoint previousPageClicks (n : nat) (c : BookListComponent.t)
  : BookListComponent.t * list Callback :=
  match n with
  | O => (c, [])
  | S n' =>
      let '(c1, out) := previousPage c in
      let '(c2, pending) := previousPageClicks n' c1 in
      (c2, timersOf out ++ pending)
  end.

Fixpoint nextPageClicks (n : nat) (c : BookListComponent.t)
  : BookListComponent.t * list Callback :=
  match n with
  | O => (c, [])
  | S n' =>
      let '(c1, out) := nextPage c in
      let '(c2, pending) := nextPageClicks n' c1 in
      (c2, timersOf out ++ pending)
  end.

(** The page that a dispatched action asks for. *)
Definition pageOf (a : Action) : option Z :=
  match a with
  | FetchPaginatedBooks params => Some (PaginationParams.Page params)
  | _ => None
  end.

End BookList.

(** *** components/book-detail/book-detail.component.ts *)
Module BookDetailComponent.

Record t : Type := mk {
  bookId : option Js.num
}.

Definition initial : t := {| bookId := None |}.

Inductive Output : Type :=
| Dispatch (a : Action)
| Navigate (commands : list string)
| NavigateLater (commands : list string) (ms : Z).

(** [if (this.bookId)]: the id when it is a number other than 0. *)
Definition truthyId (c : t) : option Z :=
  match bookId c with
  | Some (Js.Int z) => if z =? 0 then None else Some z
  | _ => None
  end.

Definition loadBookDetails (c : t) : list Output :=
  match truthyId c with
  | Some id => [Dispatch (FetchBookById id)]
  | None => []
  end.

(** The subscription to [route.params] made in [ngOnInit]; [id] is
    [params['id']]. *)
Definition onParams (id : option string) (c : t) : t * list Output :=
  match id with
  | Some s =>
      if Js.truthyString s
      then let c := {| bookId := Some (Js.parseInt10 s) |} in
           (c, loadBookDetails c)
      else (c, [])
  | None => (c, [])
  end.

Definition ngOnDestroy (c : t) : list Output :=
  [Dispatch ClearSelectedBook].

(** [confirm] is only asked when there is an id. *)
Definition deleteBook (confirmed : bool) (c : t) : list Output :=
  match truthyId c with
  | Some id =>
      if confirmed
      then [Dispatch (DeleteBook id); NavigateLater ["/books"] 500]
      else []
  | None => []
  end.

Definition editBook (c : t) : list Output :=
  match truthyId c with
  | Some id => [Navigate ["/books"; Js.toString id; "edit"]]
  | None => []
  end.

Definition goBack (c : t) : list Output := [Navigate ["/books"]].

Fixpoint dispatchedBy (out : list Output) : list Action :=
  match out with
  | [] => []
  | Dispatch a :: rest => a :: dispatchedBy rest
  | _ :: rest => dispatchedBy rest
  end.

End BookDetailComponent.

(** *** components/book-form/book-form.component.ts: the two lookups by
    name, on the tables that [selectSnapshot] returns *)
Module BookFormComponent.

Definition getGenreIdByName (genres : list GenreDto) (genreName : string) : option Z :=
  match find (fun g => Js.strictEqOptString (GenreDto.genreName g) (Some genreName))
             genres with
  | Some found => Some (GenreDto.genreId found)
  | None => None
  end.

Definition getStatusIdByName (statuses : list StatusDto) (statusName : string)
  : option Z :=
  match find (fun s => Js.strictEqOptString (StatusDto.statusName s) (Some statusName))
             statuses with
  | Some found => Some (StatusDto.statusId found)
  | None => None
  end.

End BookFormComponent.

(** *** app.routes.ts *)
Module Routes.

Inductive Component : Type :=
| BookListComponent
| BookFormComponent
| BookDetailComponent.

(** One segment of a route's path: a fixed word or a parameter. *)
Inductive Segment : Type :=
| Fixed (word : string)
| Param (name : string).

Inductive Target : Type :=
| Show (component : Component)
| RedirectTo (path : list string).

(** A route: its path, or [None] for the wildcard ['**'], and its target. *)
Definition Route : Type := (option (list Segment) * Target)%type.

Definition routes : list Route :=
  [ (Some [], RedirectTo ["books"]);
    (Some [Fixed "books"], Show BookListComponent);
    (Some [Fixed "books"; Fixed "add"], Show BookFormComponent);
    (Some [Fixed "books"; Param "id"], Show BookDetailComponent);
    (Some [Fixed "books"; Param "id"; Fixed "edit"], Show BookFormComponent);
    (None, RedirectTo ["books"]) ].

(** The parameters bound when a path matches the whole URL ([pathMatch:
    'full'] on the empty path; the other routes have no children, so they
    too must consume every segment). *)
Fixpoint matchPath (path : list Segment) (url : list string)
  : option (list (string * string)) :=
  match path, url with
  | [], [] => Some []
  | Fixed word :: path', u :: url' =>
      if String.eqb word u then matchPath path' url' else None
  | Param name :: path', u :: url' =>
      match matchPath path' url' with
      | Some params => Some ((name, u) :: params)
      | None => None
      end
  | _, _ => None
  end.

(** The first route, in the order of the table, that matches. *)
Fixpoint firstMatch (table : list Route) (url : list string)
  : option (Target * list (string * string)) :=
  match table with
  | [] => None
  | (Some path, target) :: rest =>
      match matchPath path url with
      | Some params => Some (target, params)
      | None => firstMatch rest url
      end
  | (None, target) :: rest => Some (target, [])
  end.

(** The component shown for a URL and the route parameters it gets; a
    redirect is followed once (both redirects of the table lead to
    ['books'], which is not a redirect). *)
Definition resolve (url : list string)
  : option (Component * list (string * string)) :=
  match firstMatch routes url with
  | Some (Show component, params) => Some (component, params)
  | Some (RedirectTo path, _) =>
      match firstMatch routes path with
      | Some (Show component, params) => Some (component, params)
      | _ => None
      end
  | None => None
  end.

(** The URL segments that [router.navigate(commands)] leads to, for the
    commands the components use: the leading ['/'] of the first command
    makes the URL absolute and every other command is one segment. *)
Definition segmentsOf (commands : list string) : list string :=
  match commands with
  | String "/"%char first :: rest => first :: rest
  | _ => commands
  end.

(** [params['id']]: the value bound to a route parameter, if any. *)
Fixpoint param (name : string) (params : list (string * string)) : option string :=
  match params with
  | [] => None
  | (k, v) :: rest => if String.eqb k name then Some v else param name rest
  end.

End Routes.

(* ================================================================== *)
(** ** Properties *)
(* ================================================================== *)

Import BookStateModel.

(** *** The API client's error message *)

Lemma handleError_nonempty (apiUrl : string) (browser : bool)
    (e : BookService.HttpErrorResponse) :
  BookService.handleError apiUrl browser e <> "".
Proof.
  unfold BookService.handleError.
  destruct browser, (BookService.HttpErrorResponse.error e);
    try destruct (BookService.HttpErrorResponse.status e =? 0);
    cbn; discriminate.
Qed.

(** Every [...Error] handler of a book operation changes [loading] and
    [error] and nothing else. *)
Lemma setError_frame (s : BookStateModel) (m : string) :
  books (BookState.setError s m) = books s /\
  selectedBook (BookState.setError s m) = selectedBook s /\
  filter (BookState.setError s m) = filter s /\
  statuses (BookState.setError s m) = statuses s /\
  genres (BookState.setError s m) = genres s /\
  pagination (BookState.setError s m) = pagination s.
Proof. repeat split. Qed.

(** C1.  A page fetch that fails leaves the books and the pagination
    metadata as they were before the fetch was dispatched, sets [error] to
    the (non-empty) message of the API client and [loading] to false.  The
    same holds of the error handler alone, on whatever state it runs. *)
Theorem fetchPage_failure_keeps_page
    (apiUrl : string) (browser : bool) (s : BookStateModel)
    (params : PaginationParams) (e : BookService.HttpErrorResponse) :
  let message := BookService.handleError apiUrl browser e in
  let requested := BookState.reduce apiUrl s (FetchPaginatedBooks params) in
  let failed := BookState.reduce apiUrl requested (FetchPaginatedBooksError message) in
  let failed' := BookState.reduce apiUrl s (FetchPaginatedBooksError message) in
  (books failed = books s /\
   pagination failed = pagination s /\
   error failed = Some message /\ message <> "" /\
   loading failed = false) /\
  (books failed' = books s /\
   pagination failed' = pagination s /\
   error failed' = Some message /\
   loading failed' = false).
Proof.
  cbn. repeat split. apply handleError_nonempty.
Qed.

(** C2.  Dispatching a page fetch sets [loading], clears [error] and
    subscribes to one request, the one [getBooks] builds from the
    parameters.  When that request succeeds, its [next] callback dispatches
    an action after which, whatever the state has become in between, the
    books are the response's items and the four pagination fields are the
    response's, [loading] is false and [error] is null.  In particular three
    items with [totalCount = 3] and [totalPages = 1] give three books and
    one page. *)
Theorem fetchPage_success_replaces_page
    (apiUrl : string) (s : BookStateModel) (params : PaginationParams) :
  let requested := fst (BookState.dispatch apiUrl s (FetchPaginatedBooks params)) in
  (loading requested = true /\ error requested = None) /\
  exists (next : PaginatedResponse Book -> Action) (failed : string -> Action),
    snd (BookState.dispatch apiUrl s (FetchPaginatedBooks params))
    = [BookState.Subscribe (BookService.getBooks apiUrl params) next failed] /\
    forall (r : PaginatedResponse Book) (later : BookStateModel),
      let loaded := BookState.reduce apiUrl later (next r) in
      (books loaded = PaginatedResponse.items r /\
       Pagination.currentPage (pagination loaded) = PaginatedResponse.page r /\
       Pagination.pageSize (pagination loaded) = PaginatedResponse.pageSize r /\
       Pagination.totalCount (pagination loaded) = PaginatedResponse.totalCount r /\
       Pagination.totalPages (pagination loaded) = PaginatedResponse.totalPages r /\
       loading loaded = false /\ error loaded = None) /\
      (List.length (PaginatedResponse.items r) = 3%nat ->
       PaginatedResponse.totalCount r = 3 ->
       PaginatedResponse.totalPages r = 1 ->
       List.length (books loaded) = 3%nat /\
       Pagination.totalPages (pagination loaded) = 1).
Proof.
  cbn. split; [split; reflexivity |].
  exists FetchPaginatedBooksSuccess, FetchPaginatedBooksError.
  split; [reflexivity |].
  intros r later. cbn. repeat split; assumption.
Qed.

Lemma fetchPage_success_replaces_page_witness :
  let r := Spec.response
             [Spec.book 1 "Dune" "Herbert"; Spec.book 2 "Emma" "Austen";
              Spec.book 3 "Ulysses" "Joyce"] 3 1 10 1 in
  let '(requested, effects) :=
    BookState.dispatch "/api" BookState.defaults (FetchPaginatedBooks Spec.firstPage) in
  exists next failed,
    effects = [BookState.Subscribe (BookService.getBooks "/api" Spec.firstPage)
                 next failed] /\
    List.length (books (BookState.reduce "/api" requested (next r))) = 3%nat /\
    Pagination.totalPages (pagination (BookState.reduce "/api" requested (next r))) = 1.
Proof.
  destruct (proj2 (fetchPage_success_replaces_page "/api" BookState.defaults
                     Spec.firstPage))
    as (next & failed & Hsent & Hloaded).
  exists next, failed. split; [exact Hsent |].
  exact (proj2 (Hloaded
                  (Spec.response
                     [Spec.book 1 "Dune" "Herbert"; Spec.book 2 "Emma" "Austen";
                      Spec.book 3 "Ulysses" "Joyce"] 3 1 10 1)
                  (fst (BookState.dispatch "/api" BookState.defaults
                          (FetchPaginatedBooks Spec.firstPage))))
               eq_refl eq_refl eq_refl).
Defined.

(** *** Responses of superseded page fetches *)

(** C3, as the specification states it, does not hold of the store: with two
    page fetches in flight, the response of the first, arriving after the
    response of the second, replaces the books the second one brought. *)
Lemma superseded_response_overwrites :
  ~ PageFetches.SupersededNeverOverwrites "/api".
Proof.
  intro H.
  specialize (H BookState.defaults Spec.firstPage Spec.firstPage
                (Spec.response [Spec.book 1 "Dune" "Herbert"] 1 1 10 1)
                (Spec.response [Spec.book 2 "Emma" "Austen"] 1 1 10 1)).
  cbn in H. destruct H as [H _]. discriminate H.
Qed.

(** C3, amended.  The store applies the response of every page fetch in
    flight when it arrives, whichever request it answers: the books and the
    pagination metadata are then those of that response.  So of two fetches
    in flight the one that answers last determines the page, also when it
    is the one issued first. *)
Theorem last_response_wins (apiUrl : string) :
  (forall (w : PageFetches.t) (request : nat) (r : PaginatedResponse Book),
      PageFetches.isInFlight request w = true ->
      let w' := PageFetches.step apiUrl w (PageFetches.Arrive request r) in
      books (PageFetches.store w') = PaginatedResponse.items r /\
      pagination (PageFetches.store w') = PageFetches.paginationOf r /\
      loading (PageFetches.store w') = false /\
      error (PageFetches.store w') = None) /\
  (forall (s : BookStateModel) (p0 p1 : PaginationParams)
          (r0 r1 : PaginatedResponse Book),
      let w := PageFetches.run apiUrl (PageFetches.start s)
                 [PageFetches.Issue p0; PageFetches.Issue p1;
                  PageFetches.Arrive 1 r1; PageFetches.Arrive 0 r0] in
      books (PageFetches.store w) = PaginatedResponse.items r0 /\
      pagination (PageFetches.store w) = PageFetches.paginationOf r0).
Proof.
  split.
  - intros w request r Hin. cbn. rewrite Hin. cbn. repeat split.
  - intros s p0 p1 r0 r1. cbn. split; reflexivity.
Qed.

Lemma last_response_wins_witness :
  let w := PageFetches.run "/api" (PageFetches.start BookState.defaults)
             [PageFetches.Issue Spec.firstPage; PageFetches.Issue Spec.firstPage] in
  let r := Spec.response [Spec.book 1 "Dune" "Herbert"] 1 1 10 1 in
  PageFetches.isInFlight 0 w = true /\
  books (PageFetches.store (PageFetches.step "/api" w (PageFetches.Arrive 0 r)))
  = [Spec.book 1 "Dune" "Herbert"].
Proof.
  split.
  - reflexivity.
  - exact (proj1 (proj1 (last_response_wins "/api")
                    (PageFetches.run "/api" (PageFetches.start BookState.defaults)
                       [PageFetches.Issue Spec.firstPage; PageFetches.Issue Spec.firstPage])
                    0%nat
                    (Spec.response [Spec.book 1 "Dune" "Herbert"] 1 1 10 1)
                    eq_refl)).
Defined.

(** *** Deleting a book *)

Lemma filter_all_pass {A : Type} (f : A -> bool) (l : list A) :
  (forall x, In x l -> f x = true) -> List.filter f l = l.
Proof.
  induction l as [|a l IH]; intros Hall; cbn.
  - reflexivity.
  - rewrite (Hall a (or_introl eq_refl)).
    f_equal. apply IH. intros x Hx. apply Hall. right. exact Hx.
Qed.

Lemma keepsOthers_true (id : Z) (b : Book) :
  Spec.keepsOthers id b = true <-> Book.id b <> id.
Proof.
  unfold Spec.keepsOthers. rewrite negb_true_iff, Z.eqb_neq. reflexivity.
Qed.

(** With pairwise distinct ids, the filter of [deleteBookSuccess] cuts the
    one book with the id out of the list. *)
Lemma delete_cuts_one (l : list Book) (b : Book) :
  NoDup (map Book.id l) -> In b l ->
  exists before after,
    l = before ++ b :: after /\
    List.filter (Spec.keepsOthers (Book.id b)) l = before ++ after /\
    (forall x, In x (before ++ after) -> Book.id x <> Book.id b).
Proof.
  intros Hnd Hin.
  destruct (in_split b l Hin) as (before & after & ->).
  exists before, after.
  rewrite map_app in Hnd. cbn in Hnd.
  apply NoDup_remove_2 in Hnd. rewrite <- map_app in Hnd.
  assert (Hothers : forall x, In x (before ++ after) -> Book.id x <> Book.id b).
  { intros x Hx Heq. apply Hnd. rewrite <- Heq. apply in_map. exact Hx. }
  split; [reflexivity | split; [| exact Hothers]].
  rewrite filter_app. cbn.
  replace (Spec.keepsOthers (Book.id b) b) with false
    by (unfold Spec.keepsOthers; rewrite Z.eqb_refl; reflexivity).
  rewrite !filter_all_pass; [reflexivity | |];
    intros x Hx; apply keepsOthers_true, Hothers, in_or_app; auto.
Qed.

(** C4.  On a list of books with pairwise distinct ids, a successful delete
    removes the one book with the id, when there is one, and keeps the
    others as they are and in their order; without such a book the list
    stays as it is.  The selected book becomes null exactly when its id is
    the deleted one, and is unchanged otherwise (also when none was
    selected). *)
Theorem deleteBookSuccess_removes_one (s : BookStateModel) (id : Z) :
  NoDup (map Book.id (books s)) ->
  let s' := fst (BookState.deleteBookSuccess s id) in
  (forall b, In b (books s) -> Book.id b = id ->
     exists before after,
       books s = before ++ b :: after /\
       books s' = before ++ after /\
       List.length (books s') = (List.length (books s) - 1)%nat /\
       (forall x, In x (books s') -> Book.id x <> id)) /\
  ((forall b, In b (books s) -> Book.id b <> id) -> books s' = books s) /\
  (forall b, selectedBook s = Some b ->
     (selectedBook s' = None <-> Book.id b = id) /\
     (Book.id b <> id -> selectedBook s' = selectedBook s)) /\
  (selectedBook s = None -> selectedBook s' = None).
Proof.
  intros Hnd. cbn. split; [| split; [| split]].
  - intros b Hin Hid. subst id.
    destruct (delete_cuts_one (books s) b Hnd Hin) as (before & after & Hl & Hf & Ho).
    exists before, after.
    change (fun book : Book => negb (Book.id book =? Book.id b))
      with (Spec.keepsOthers (Book.id b)).
    rewrite Hf. repeat split; try assumption.
    rewrite Hl, !length_app. cbn. lia.
  - intros Hnone. apply filter_all_pass.
    intros x Hx. apply (keepsOthers_true id x), Hnone, Hx.
  - intros b Hsel. unfold BookState.selectedIs. rewrite Hsel.
    destruct (Z.eqb_spec (Book.id b) id) as [Heq | Hne].
    + split; [split; auto | intros Hne; contradiction].
    + split; [split; [discriminate | intros Heq; contradiction] | reflexivity].
  - intros Hsel. unfold BookState.selectedIs. rewrite Hsel. reflexivity.
Qed.

Lemma deleteBookSuccess_removes_one_witness :
  let s := Spec.withSelected (Some (Spec.book 2 "Emma" "Austen"))
             (Spec.withBooks
                [Spec.book 1 "Dune" "Herbert"; Spec.book 2 "Emma" "Austen";
                 Spec.book 3 "Ulysses" "Joyce"] BookState.defaults) in
  let s' := fst (BookState.deleteBookSuccess s 2) in
  NoDup (map Book.id (books s)) /\
  (exists before after,
      books s = before ++ Spec.book 2 "Emma" "Austen" :: after /\
      books s' = before ++ after /\
      List.length (books s') = (List.length (books s) - 1)%nat /\
      (forall x, In x (books s') -> Book.id x <> 2)) /\
  (selectedBook s' = None <-> 2 = 2).
Proof.
  assert (Hnd : NoDup [1; 2; 3]).
  { repeat constructor; cbn; intuition discriminate. }
  pose proof (deleteBookSuccess_removes_one
                (Spec.withSelected (Some (Spec.book 2 "Emma" "Austen"))
                   (Spec.withBooks
                      [Spec.book 1 "Dune" "Herbert"; Spec.book 2 "Emma" "Austen";
                       Spec.book 3 "Ulysses" "Joyce"] BookState.defaults))
                2 Hnd) as (Hcut & _ & Hsel & _).
  split; [exact Hnd | split].
  - exact (Hcut (Spec.book 2 "Emma" "Austen") (or_intror (or_introl eq_refl)) eq_refl).
  - exact (proj1 (Hsel (Spec.book 2 "Emma" "Austen") eq_refl)).
Defined.

(** *** The list controller *)

Import BookListComponent.

Lemma columnEq_spec (a b : SortColumn) : columnEq a b = true <-> a = b.
Proof.
  destruct a, b; cbn; split; intros H; try reflexivity; discriminate H.
Qed.

Lemma columnEq_refl (a : SortColumn) : columnEq a a = true.
Proof. apply columnEq_spec. reflexivity. Qed.

Lemma columnEq_false (a b : SortColumn) : a <> b -> columnEq a b = false.
Proof.
  intros Hne. destruct (columnEq a b) eqn:E; [| reflexivity].
  apply columnEq_spec in E. contradiction.
Qed.

(** C5.  Clicking the active sort column twice gives back the sort
    configuration there was (a single click reverses the direction), and
    clicking another column selects it with the ascending direction. *)
Theorem onSortChange_toggle (c : BookListComponent.t) (column : SortColumn) :
  (column = SortConfig.column (sortConfig c) ->
   let once := fst (onSortChange column c) in
   let twice := fst (onSortChange column once) in
   SortConfig.column (sortConfig once) = column /\
   SortConfig.direction (sortConfig once) <> SortConfig.direction (sortConfig c) /\
   sortConfig twice = sortConfig c) /\
  (column <> SortConfig.column (sortConfig c) ->
   sortConfig (fst (onSortChange column c))
   = {| SortConfig.column := column; SortConfig.direction := asc |}).
Proof.
  split.
  - intros ->. destruct c as [? ? ? [col dir] ? ? ? ? ? ? ?]. cbn.
    rewrite columnEq_refl. cbn. rewrite columnEq_refl. cbn.
    destruct dir; repeat split; discriminate.
  - intros Hne. unfold onSortChange.
    rewrite (columnEq_false (SortConfig.column (sortConfig c)) column)
      by (intros E; apply Hne; symmetry; exact E).
    reflexivity.
Qed.

Lemma onSortChange_toggle_witness :
  sortConfig (fst (onSortChange title (fst (onSortChange title initial))))
  = sortConfig initial /\
  sortConfig (fst (onSortChange rating initial))
  = {| SortConfig.column := rating; SortConfig.direction := asc |}.
Proof.
  split.
  - exact (proj2 (proj2 (proj1 (onSortChange_toggle initial title) eq_refl))).
  - apply (proj2 (onSortChange_toggle initial rating)). discriminate.
Defined.

(** The request that [getBooks] sends always carries the page and the page
    size it was given. *)
Lemma getBooks_page (apiUrl : string) (p : PaginationParams) :
  exists url params,
    BookService.getBooks apiUrl p = BookService.GET url params /\
    BookService.get "Page" params = Some (Js.toString (PaginationParams.Page p)) /\
    BookService.get "PageSize" params
    = Some (Js.toString (PaginationParams.PageSize p)).
Proof.
  unfold BookService.getBooks.
  eexists. eexists. split; [reflexivity |].
  destruct p as [pg sz search st gn sb sd]. cbn.
  destruct search as [x|]; [destruct (Js.truthyString x) |];
    (destruct st as [y|]); (destruct gn as [z|]);
    (destruct sb as [u|]; [destruct (Js.truthyString u) |]);
    (destruct sd as [v|]); cbn; split; reflexivity.
Qed.

(** *** What the handlers leave alone *)

(** C10.  The success handlers of create, update and delete leave the
    pagination metadata, the filter and the two lookup tables as they are;
    and an action that changes the pagination metadata is the success of a
    paginated fetch. *)
Theorem crud_success_frame (apiUrl : string) (s : BookStateModel) :
  (forall a : Action,
      (exists b, a = CreateBookSuccess b) \/
      (exists b, a = UpdateBookSuccess b) \/
      (exists id, a = DeleteBookSuccess id) ->
      let s' := BookState.reduce apiUrl s a in
      pagination s' = pagination s /\
      filter s' = filter s /\
      statuses s' = statuses s /\
      genres s' = genres s) /\
  (forall a : Action,
      pagination (BookState.reduce apiUrl s a) <> pagination s ->
      exists r, a = FetchPaginatedBooksSuccess r).
Proof.
  split.
  - intros a [[b ->] | [[b ->] | [id ->]]]; cbn; repeat split.
  - intros a Hchanged.
    destruct a; cbn in Hchanged;
      try (exfalso; apply Hchanged; reflexivity).
    eexists. reflexivity.
Qed.

Lemma crud_success_frame_witness :
  let s := Spec.withBooks [Spec.book 1 "Dune" "Herbert"] BookState.defaults in
  pagination (BookState.reduce "/api" s (DeleteBookSuccess 1)) = pagination s /\
  (pagination
     (BookState.reduce "/api" s
        (FetchPaginatedBooksSuccess (Spec.response [] 0 1 10 1)))
   <> pagination s /\
   exists r, FetchPaginatedBooksSuccess (Spec.response [] 0 1 10 1)
             = FetchPaginatedBooksSuccess r).
Proof.
  assert (Hchanged :
    pagination
      (BookState.reduce "/api"
         (Spec.withBooks [Spec.book 1 "Dune" "Herbert"] BookState.defaults)
         (FetchPaginatedBooksSuccess (Spec.response [] 0 1 10 1)))
    <> pagination (Spec.withBooks [Spec.book 1 "Dune" "Herbert"] BookState.defaults)).
  { cbn. discriminate. }
  split; [| split].
  - exact (proj1 (proj1 (crud_success_frame "/api"
                           (Spec.withBooks [Spec.book 1 "Dune" "Herbert"]
                              BookState.defaults))
                    (DeleteBookSuccess 1)
                    (or_intror (or_intror (ex_intro _ 1 eq_refl))))).
  - exact Hchanged.
  - exact (proj2 (crud_success_frame "/api"
                    (Spec.withBooks [Spec.book 1 "Dune" "Herbert"] BookState.defaults))
             (FetchPaginatedBooksSuccess (Spec.response [] 0 1 10 1)) Hchanged).
Defined.

(** *** The error message in the state *)

(** The message of [handleError] starts with the name of the kind of
    failure. *)
Lemma handleError_kind (apiUrl : string) (browser : bool)
    (e : BookService.HttpErrorResponse) :
  match Spec.failureKind browser e with
  | Spec.ClientSide =>
      exists m, BookService.handleError apiUrl browser e = ("Network Error: " ++ m)%string
  | Spec.Connection =>
      exists m, BookService.handleError apiUrl browser e = ("Connection Error: " ++ m)%string
  | Spec.ServerResponse =>
      BookService.handleError apiUrl browser e
      = ("Server Error (" ++ Js.toString (BookService.HttpErrorResponse.status e)
         ++ "): " ++ BookService.HttpErrorResponse.message e)%string
  end.
Proof.
  unfold Spec.failureKind, BookService.handleError.
  destruct browser, (BookService.HttpErrorResponse.error e);
    try destruct (BookService.HttpErrorResponse.status e =? 0);
    cbn; try reflexivity; eexists; reflexivity.
Qed.

Lemma handleError_distinguishes (apiUrl : string) (browser : bool)
    (e1 e2 : BookService.HttpErrorResponse) :
  Spec.failureKind browser e1 <> Spec.failureKind browser e2 ->
  BookService.handleError apiUrl browser e1 <> BookService.handleError apiUrl browser e2.
Proof.
  intros Hkind Heq.
  pose proof (handleError_kind apiUrl browser e1) as H1.
  pose proof (handleError_kind apiUrl browser e2) as H2.
  destruct (Spec.failureKind browser e1), (Spec.failureKind browser e2);
    try (apply Hkind; reflexivity);
    repeat match goal with
           | H : exists _, _ |- _ => destruct H as [? H]
           end;
    rewrite H1, H2 in Heq; cbn in Heq; discriminate Heq.
Qed.

(** C9, as the specification states it, does not hold of the store.  The
    failure of a lookup fetch attaches nothing to [error]; an error that is
    attached is removed when the next book operation is dispatched, before
    it succeeds or fails; and the success of a lookup fetch leaves the
    error in place. *)
Lemma lookup_failure_sets_no_error :
  let message := BookService.handleError "/api" true Spec.unreachable in
  let lookupFailed :=
    BookState.reduce "/api" BookState.defaults (FetchStatusesError message) in
  let pageFailed :=
    BookState.reduce "/api" BookState.defaults (FetchPaginatedBooksError message) in
  let retried :=
    BookState.reduce "/api" pageFailed (FetchPaginatedBooks Spec.firstPage) in
  let lookedUp :=
    BookState.reduce "/api" pageFailed (FetchStatusesSuccess []) in
  ~ (exists m, error lookupFailed = Some m /\ m <> "") /\
  error retried <> error pageFailed /\
  error lookedUp <> None.
Proof.
  cbn. repeat split.
  - intros (m & H & _). discriminate H.
  - discriminate.
  - discriminate.
Qed.

(** C9, amended.  Every failing book operation (paginated fetch, fetch of
    all books, fetch by id, create, update, delete) attaches the message of
    [handleError] to [error]: a single non-empty string, different for the
    three kinds of failure, and with the status code for a server response.
    For every action, [error] afterwards is: null after the request or the
    success of a book operation, the message after the failure of a book
    operation, and what it was after anything else (the request, success or
    failure of a lookup fetch, a change of the filter or of the
    selection). *)
Theorem error_contract (apiUrl : string) (browser : bool) (s : BookStateModel) :
  (forall (op : Spec.Operation) (e : BookService.HttpErrorResponse),
      Spec.isBookOperation op = true ->
      let message := BookService.handleError apiUrl browser e in
      error (BookState.reduce apiUrl s (Spec.failure op message)) = Some message /\
      message <> "") /\
  (forall e1 e2 : BookService.HttpErrorResponse,
      Spec.failureKind browser e1 <> Spec.failureKind browser e2 ->
      BookService.handleError apiUrl browser e1
      <> BookService.handleError apiUrl browser e2) /\
  (forall e : BookService.HttpErrorResponse,
      Spec.failureKind browser e = Spec.ServerResponse ->
      BookService.handleError apiUrl browser e
      = ("Server Error (" ++ Js.toString (BookService.HttpErrorResponse.status e)
         ++ "): " ++ BookService.HttpErrorResponse.message e)%string) /\
  (forall a : Action,
      error (BookState.reduce apiUrl s a)
      = match Spec.role a with
        | Spec.Request op | Spec.Success op =>
            if Spec.isBookOperation op then None else error s
        | Spec.Failure op message =>
            if Spec.isBookOperation op then Some message else error s
        | Spec.Local => error s
        end).
Proof.
  split; [| split; [| split]].
  - intros op e Hbook message. split.
    + destruct op; try discriminate Hbook; reflexivity.
    + apply handleError_nonempty.
  - apply handleError_distinguishes.
  - intros e Hkind.
    pose proof (handleError_kind apiUrl browser e) as H.
    rewrite Hkind in H. exact H.
  - intros a. destruct a; reflexivity.
Qed.

Lemma error_contract_witness :
  let serverDown : BookService.HttpErrorResponse :=
    {| BookService.HttpErrorResponse.error := BookService.OtherBody;
       BookService.HttpErrorResponse.status := 503;
       BookService.HttpErrorResponse.message := "Service Unavailable" |} in
  error (BookState.reduce "/api" BookState.defaults
           (Spec.failure Spec.OpDelete
              (BookService.handleError "/api" true serverDown)))
  = Some "Server Error (503): Service Unavailable" /\
  BookService.handleError "/api" true Spec.unreachable
  <> BookService.handleError "/api" true serverDown /\
  BookService.handleError "/api" true serverDown
  = "Server Error (503): Service Unavailable".
Proof.
  pose proof (error_contract "/api" true BookState.defaults)
    as (Hattach & Hdistinct & Hserver & _).
  split; [| split].
  - exact (proj1 (Hattach Spec.OpDelete
                    {| BookService.HttpErrorResponse.error := BookService.OtherBody;
                       BookService.HttpErrorResponse.status := 503;
                       BookService.HttpErrorResponse.message := "Service Unavailable" |}
                    eq_refl)).
  - apply Hdistinct. cbn. discriminate.
  - exact (Hserver
             {| BookService.HttpErrorResponse.error := BookService.OtherBody;
                BookService.HttpErrorResponse.status := 503;
                BookService.HttpErrorResponse.message := "Service Unavailable" |}
             eq_refl).
Defined.

(** *** The request built from the signals *)

Lemma columnName_truthy (c : SortColumn) : Js.truthyString (columnName c) = true.
Proof. destruct c; reflexivity. Qed.

(** What [getBooks] sends for the parameters of [loadData]: page, page size,
    sort column and direction as the signals have them; the search text
    when it is not empty; a status or genre id when it is a number other
    than 0. *)
Lemma loadData_request (apiUrl : string) (c : BookListComponent.t) :
  exists query,
    BookService.getBooks apiUrl (loadDataParams c)
    = BookService.GET (BookService.apiUrl apiUrl ++ "/paged")%string query /\
    BookService.get "Page" query = Some (Js.toString (currentPage c)) /\
    BookService.get "PageSize" query = Some (Js.toString (pageSize c)) /\
    BookService.get "SearchText" query = Js.stringOrUndefined (searchTerm c) /\
    BookService.get "StatusId" query
    = option_map Js.numToString (Js.numOrUndefined (selectedStatusId c)) /\
    BookService.get "GenreId" query
    = option_map Js.numToString (Js.numOrUndefined (selectedGenreId c)) /\
    BookService.get "SortBy" query
    = Some (columnName (SortConfig.column (sortConfig c))) /\
    BookService.get "SortDir" query
    = Some (directionName (SortConfig.direction (sortConfig c))).
Proof.
  unfold BookService.getBooks. eexists. split; [reflexivity |].
  destruct c as [term gid sid [col dir] page size tb tp al alo lv].
  cbn [loadDataParams PaginationParams.Page PaginationParams.PageSize
       PaginationParams.SearchText PaginationParams.StatusId
       PaginationParams.GenreId PaginationParams.SortBy PaginationParams.SortDir
       searchTerm selectedGenreId selectedStatusId sortConfig currentPage pageSize
       SortConfig.column SortConfig.direction].
  rewrite columnName_truthy.
  unfold Js.stringOrUndefined.
  destruct (Js.truthyString term) eqn:Eterm; cbn [Js.truthyString];
    try rewrite Eterm;
    destruct (Js.numOrUndefined sid), (Js.numOrUndefined gid);
    cbn; repeat split; reflexivity.
Qed.

(** A timer that fires leaves the search text, the two selected ids and the
    sort configuration as they are. *)
Lemma fire_keeps_filter (callback : Callback) (c : BookListComponent.t) :
  searchTerm (fst (fire callback c)) = searchTerm c /\
  selectedGenreId (fst (fire callback c)) = selectedGenreId c /\
  selectedStatusId (fst (fire callback c)) = selectedStatusId c /\
  sortConfig (fst (fire callback c)) = sortConfig c.
Proof. destruct callback; cbn; repeat split. Qed.

(** After a sequence of gestures the three filter signals hold the value of
    the last gesture that set them. *)
Lemma gestures_last_set (gs : list Gesture) (c : BookListComponent.t) :
  searchTerm (fst (gestures gs c)) = Spec.lastSearch gs (searchTerm c) /\
  selectedGenreId (fst (gestures gs c)) = Spec.lastGenre gs (selectedGenreId c) /\
  selectedStatusId (fst (gestures gs c)) = Spec.lastStatus gs (selectedStatusId c).
Proof.
  revert c. induction gs as [| g gs IH]; intros c.
  - cbn. repeat split.
  - cbn [gestures].
    destruct (handle g c) as [c1 out] eqn:Eh.
    specialize (IH c1).
    destruct (gestures gs c1) as [c2 pending] eqn:Eg.
    cbn [fst] in *.
    destruct IH as (Hs & Hg & Ht).
    rewrite Hs, Hg, Ht.
    destruct g; cbn in Eh; injection Eh as <- _; cbn;
      try destruct (columnEq _ _); cbn; repeat split.
Qed.

(** Every action dispatched while pending timers fire is a page fetch whose
    parameters are built from the filter signals as they are now. *)
Lemma fireAll_dispatches (pending : list Callback) (c : BookListComponent.t) :
  Forall
    (fun a =>
       exists params,
         a = FetchPaginatedBooks params /\
         PaginationParams.SearchText params = Js.stringOrUndefined (searchTerm c) /\
         PaginationParams.GenreId params = Js.numOrUndefined (selectedGenreId c) /\
         PaginationParams.StatusId params = Js.numOrUndefined (selectedStatusId c) /\
         PaginationParams.SortBy params
         = Some (columnName (SortConfig.column (sortConfig c))) /\
         PaginationParams.SortDir params
         = Some (SortConfig.direction (sortConfig c)))
    (snd (fireAll pending c)).
Proof.
  revert c. induction pending as [| cb rest IH]; intros c.
  - constructor.
  - cbn [fireAll].
    pose proof (fire_keeps_filter cb c) as (Ks & Kg & Kt & Kc).
    destruct (fire cb c) as [c1 out] eqn:Ef.
    specialize (IH c1).
    destruct (fireAll rest c1) as [c2 acts] eqn:Ea.
    cbn [fst snd] in *.
    rewrite Ks, Kg, Kt, Kc in IH.
    apply Forall_app. split; [| exact IH].
    destruct cb; cbn in Ef; injection Ef as <- <-; cbn;
      repeat constructor; eexists; repeat split.
Qed.

(** So the page fetches that follow a sequence of gestures carry the search
    text and the ids of the last gestures that set them, as [loadData]
    passes them on: an empty text, and an id that is null, 0 or [NaN], are
    left out. *)
Lemma fetch_after_gestures (gs : list Gesture) (c : BookListComponent.t) :
  let '(c1, pending) := gestures gs c in
  Forall
    (fun a =>
       exists params,
         a = FetchPaginatedBooks params /\
         PaginationParams.SearchText params
         = Js.stringOrUndefined (Spec.lastSearch gs (searchTerm c)) /\
         PaginationParams.GenreId params
         = Js.numOrUndefined (Spec.lastGenre gs (selectedGenreId c)) /\
         PaginationParams.StatusId params
         = Js.numOrUndefined (Spec.lastStatus gs (selectedStatusId c)))
    (snd (fireAll pending c1)).
Proof.
  pose proof (gestures_last_set gs c) as (Hs & Hg & Ht).
  destruct (gestures gs c) as [c1 pending]. cbn [fst] in *.
  eapply Forall_impl; [| apply fireAll_dispatches].
  intros a (params & Ha & Ps & Pg & Pt & _).
  exists params. rewrite <- Hs, <- Hg, <- Ht. repeat split; assumption.
Qed.

(** *** The page of the fetch that follows a gesture *)

Lemma fireAll_app (pending1 pending2 : list Callback) (c : BookListComponent.t) :
  fireAll (pending1 ++ pending2) c
  = let '(c1, acts1) := fireAll pending1 c in
    let '(c2, acts2) := fireAll pending2 c1 in
    (c2, acts1 ++ acts2).
Proof.
  revert c. induction pending1 as [| cb rest IH]; intros c; cbn [fireAll app].
  - destruct (fireAll pending2 c). reflexivity.
  - destruct (fire cb c) as [c1 out]. rewrite IH.
    destruct (fireAll rest c1) as [c2 acts]. destruct (fireAll pending2 c2).
    rewrite app_assoc. reflexivity.
Qed.

(** A timer that is not one of the three page steps fetches page 1 or
    nothing, whatever the signals are when it fires. *)
Lemma fire_first_page (callback : Callback) (c : BookListComponent.t) :
  Spec.isPageStep callback = false ->
  Forall (Spec.fetchesPage 1) (dispatchedBy (snd (fire callback c))).
Proof.
  destruct callback; intros Hstep; try discriminate Hstep; cbn;
    repeat constructor; eexists; split; reflexivity.
Qed.

Lemma fireAll_first_page (pending : list Callback) (c : BookListComponent.t) :
  forallb (fun callback => negb (Spec.isPageStep callback)) pending = true ->
  Forall (Spec.fetchesPage 1) (snd (fireAll pending c)).
Proof.
  revert c. induction pending as [| cb rest IH]; intros c Hnone; cbn [fireAll].
  - constructor.
  - cbn [forallb] in Hnone. apply andb_true_iff in Hnone. destruct Hnone as [Hcb Hrest].
    apply negb_true_iff in Hcb.
    pose proof (fire_first_page cb c Hcb) as Hfirst.
    destruct (fire cb c) as [c1 out]. specialize (IH c1 Hrest).
    destruct (fireAll rest c1) as [c2 acts]. cbn [snd] in *.
    apply Forall_app. split; assumption.
Qed.

(** C6, as the specification states it, does not hold of the controller.
    The server has reported seven pages; the user asks for page 5 and, before
    the 320 ms of that timer are over, types a search text.  The text is
    written to its signal at once; the timer of page 5 fires first and
    fetches page 5 with the new text; the fetch for page 1 comes second. *)
Lemma pending_page_timer_fetches_first :
  let shown :=
    onPagination {| Pagination.currentPage := 1; Pagination.pageSize := 10;
                    Pagination.totalCount := 70; Pagination.totalPages := 7 |}
      initial in
  let '(c1, out1) := goToPage 5 shown in
  let '(c2, out2) := onSearch "x" c1 in
  let page (n : Z) : PaginationParams :=
    {| PaginationParams.Page := n;
       PaginationParams.PageSize := 10;
       PaginationParams.SearchText := Some "x";
       PaginationParams.StatusId := None;
       PaginationParams.GenreId := None;
       PaginationParams.SortBy := Some "title";
       PaginationParams.SortDir := Some asc |} in
  snd (fireAll (timersOf out1 ++ timersOf out2) c2)
  = [FetchPaginatedBooks (page 5); FetchPaginatedBooks (page 1)] /\
  ~ Spec.ResetsPageBeforeNextFetch.
Proof.
  cbn. split; [reflexivity |].
  intros H.
  specialize (H (Search "x")
                (fst (goToPage 5
                        (onPagination
                           {| Pagination.currentPage := 1; Pagination.pageSize := 10;
                              Pagination.totalCount := 70; Pagination.totalPages := 7 |}
                           initial)))
                [LoadPage 5]).
  cbn in H. destruct H as (a & rest & Hrun & params & Ha & Hpage).
  injection Hrun as <- _. injection Ha as <-. discriminate Hpage.
Qed.

(** C6, amended.  Each of the five gestures that change what is listed
    (search text, genre, status, sort column, page size) sets one timer of
    [ANIM_MS], which is not a page step.  When that timer fires, whatever
    the signals are by then, the current page is set to 1 and then one page
    fetch is dispatched, for page 1: the request sent for it carries
    [Page=1].  So with any timers pending at the gesture, which fire first,
    the last fetch of the run is the gesture's own, for page 1, and page 1
    is the current page afterwards; and when none of the pending timers is
    a page step, every fetch of the run, the first one too, is for
    page 1. *)
Theorem gesture_resets_page (apiUrl : string) (g : Gesture) (c : BookListComponent.t)
    (pending : list Callback) :
  let changed := fst (handle g c) in
  let run := fireAll (pending ++ timersOf (snd (handle g c))) changed in
  (exists callback,
      snd (handle g c) = [SetTimeout callback ANIM_MS] /\
      Spec.isPageStep callback = false /\
      forall later : BookListComponent.t,
        currentPage (fst (fire callback later)) = 1 /\
        exists params,
          snd (fire callback later) = [Dispatch (FetchPaginatedBooks params)] /\
          PaginationParams.Page params = 1 /\
          exists url query,
            BookService.getBooks apiUrl params = BookService.GET url query /\
            BookService.get "Page" query = Some "1") /\
  (exists last,
      snd run = snd (fireAll pending changed) ++ [last] /\
      Spec.fetchesPage 1 last) /\
  currentPage (fst run) = 1 /\
  (forallb (fun callback => negb (Spec.isPageStep callback)) pending = true ->
   Forall (Spec.fetchesPage 1) (snd run)).
Proof.
  intros changed run.
  assert (Hreq : forall params, PaginationParams.Page params = 1 ->
            exists url query,
              BookService.getBooks apiUrl params = BookService.GET url query /\
              BookService.get "Page" query = Some "1").
  { intros params Hp.
    destruct (getBooks_page apiUrl params) as (url & query & Hg & Hpage & _).
    exists url, query. rewrite Hp in Hpage. split; assumption. }
  assert (Hown : exists callback,
             snd (handle g c) = [SetTimeout callback ANIM_MS] /\
             Spec.isPageStep callback = false /\
             forall later : BookListComponent.t,
               currentPage (fst (fire callback later)) = 1 /\
               exists params,
                 snd (fire callback later) = [Dispatch (FetchPaginatedBooks params)] /\
                 PaginationParams.Page params = 1).
  { destruct g as [term | genreId | statusId | column | size].
    1-4: exists ReloadFirstPage; split; [reflexivity |]; split; [reflexivity |];
         intros later; split; [reflexivity |];
         eexists; split; [reflexivity | reflexivity].
    exists (ApplyPageSize size); split; [reflexivity |]; split; [reflexivity |].
    intros later; split; [reflexivity |].
    eexists; split; [reflexivity | reflexivity]. }
  destruct Hown as (callback & Hout & Hstep & Hfire).
  assert (Hrun : run = let '(c1, acts1) := fireAll pending changed in
                       let '(c2, out) := fire callback c1 in
                       (c2, acts1 ++ dispatchedBy out)).
  { unfold run. rewrite Hout. cbn [timersOf]. rewrite fireAll_app.
    destruct (fireAll pending changed) as [c1 acts1]. cbn [fireAll].
    destruct (fire callback c1) as [c2 out]. rewrite app_nil_r. reflexivity. }
  split; [| split; [| split]].
  - exists callback. split; [exact Hout |]. split; [exact Hstep |].
    intros later. destruct (Hfire later) as (Hpage & params & Hd & Hp).
    split; [exact Hpage |]. exists params. split; [exact Hd |].
    split; [exact Hp | apply Hreq, Hp].
  - rewrite Hrun. destruct (fireAll pending changed) as [c1 acts1].
    destruct (Hfire c1) as (_ & params & Hd & Hp).
    destruct (fire callback c1) as [c2 out]. cbn [snd] in *. rewrite Hd.
    exists (FetchPaginatedBooks params). split; [reflexivity |].
    exists params. split; [reflexivity | exact Hp].
  - rewrite Hrun. destruct (fireAll pending changed) as [c1 acts1].
    destruct (Hfire c1) as (Hpage & _).
    destruct (fire callback c1) as [c2 out]. exact Hpage.
  - intros Hnone. apply fireAll_first_page.
    rewrite forallb_app, Hnone, Hout. cbn. rewrite Hstep. reflexivity.
Qed.

Lemma gesture_resets_page_witness :
  let changed := fst (handle (Search "x") initial) in
  forallb (fun callback => negb (Spec.isPageStep callback)) [ReloadFirstPage] = true /\
  Forall (Spec.fetchesPage 1)
    (snd (fireAll ([ReloadFirstPage] ++ timersOf (snd (handle (Search "x") initial)))
            changed)).
Proof.
  split; [reflexivity |].
  exact (proj2 (proj2 (proj2
           (gesture_resets_page "/api" (Search "x") initial [ReloadFirstPage])))
           eq_refl).
Defined.

(** C8 at the genre (or status) whose id is 0.  The user selects it; the
    signal holds 0; the timer fires and page 1 is fetched; the request
    carries no [GenreId], as if no genre were selected.  [getBooks] itself
    does send an id of 0 that it is given. *)
Theorem genre_zero_is_not_sent :
  let '(c, pending) := gestures [GenreChange "0"] initial in
  let actions := snd (fireAll pending c) in
  let zero : PaginationParams :=
    {| PaginationParams.Page := 1;
       PaginationParams.PageSize := 10;
       PaginationParams.SearchText := None;
       PaginationParams.StatusId := None;
       PaginationParams.GenreId := Some (Js.Int 0);
       PaginationParams.SortBy := Some "title";
       PaginationParams.SortDir := Some asc |} in
  selectedGenreId c = Some (Js.Int 0) /\
  actions = [FetchPaginatedBooks Spec.firstPage] /\
  BookService.getBooks "/api" Spec.firstPage
  = BookService.GET "/api/Books/paged"
      [("Page", "1"); ("PageSize", "10"); ("SortBy", "title"); ("SortDir", "asc")] /\
  BookService.getBooks "/api" zero
  = BookService.GET "/api/Books/paged"
      [("Page", "1"); ("PageSize", "10"); ("GenreId", "0");
       ("SortBy", "title"); ("SortDir", "asc")].
Proof.
  cbn. repeat split.
Qed.

(** *** The client-side projection *)

Lemma ltb_irrefl (x : string) : String.ltb x x = false.
Proof.
  unfold String.ltb.
  pose proof (String.compare_antisym x x) as H.
  destruct (String.compare x x); cbn in H; try discriminate H; reflexivity.
Qed.

Lemma gt_irrefl (v : BookState.SortValue) : BookState.gt v v = false.
Proof.
  destruct v as [x | q]; cbn.
  - apply ltb_irrefl.
  - unfold Js.numGt. apply negb_false_iff, Qle_bool_iff, Qle_refl.
Qed.

Lemma lt_irrefl (v : BookState.SortValue) : BookState.lt v v = false.
Proof.
  destruct v as [x | q]; cbn.
  - apply ltb_irrefl.
  - unfold Js.numLt. apply negb_false_iff, Qle_bool_iff, Qle_refl.
Qed.

(** The comparison function never answers 0: two books with the same value
    in the sort field are each reported to come before the other, in the
    ascending and in the descending order alike. *)
Lemma compareBooks_tie (f : BookFilter) (a b : Book) :
  BookState.sortValue (BookFilter.sortBy f) a
  = BookState.sortValue (BookFilter.sortBy f) b ->
  BookState.compareBooks f a b = -1 /\ BookState.compareBooks f b a = -1.
Proof.
  intros Heq. unfold BookState.compareBooks. rewrite Heq.
  destruct (BookFilter.sortOrder f);
    rewrite ?gt_irrefl, ?lt_irrefl; split; reflexivity.
Qed.

(** The three filters of [filteredBooks] keep the books that pass the
    three predicates, in their order. *)
Lemma filters_keep_passing (s : BookStateModel) :
  BookState.applyStatus s
    (BookState.applyGenre s (BookState.applySearch (filter s) (books s)))
  = List.filter (Spec.passes s) (books s).
Proof.
  unfold BookState.applyStatus, BookState.applyGenre, BookState.applySearch,
    Spec.passes.
  induction (books s) as [| b l IH].
  - destruct (Js.truthyString _), (BookFilter.genreId _), (BookFilter.statusId _);
      try destruct (BookState.findStatus _ _); reflexivity.
  - destruct (Js.truthyString (BookFilter.searchTerm (filter s)));
      destruct (BookFilter.genreId (filter s)) as [gid |];
      destruct (BookFilter.statusId (filter s)) as [sid |];
      try destruct (BookState.findStatus (statuses s) sid) as [st |];
      cbn in *;
      repeat match goal with
             | |- context [if ?x then _ else _] => destruct x; cbn
             end;
      rewrite <- ?IH; try reflexivity;
      rewrite ?andb_true_r, ?filter_all_pass by reflexivity; reflexivity.
Qed.

(** C7 on two books with the same title, under V8.  The comparison
    function reports each of the two to come before the other, so the order
    of the result is left to the engine's sort: V8's puts the second book
    first, in the ascending and in the descending order, where the stable
    sort of the specification keeps the first book first. *)
Theorem filteredBooks_reverses_ties :
  let first := Spec.book 1 "Dune" "Herbert" in
  let second := Spec.book 2 "Dune" "Lynch" in
  let ascending := Spec.withBooks [first; second] BookState.defaults in
  let descending :=
    fst (BookState.setFilter ascending
           {| BookFilter.searchTerm := "";
              BookFilter.statusId := None;
              BookFilter.genreId := None;
              BookFilter.sortBy := title;
              BookFilter.sortOrder := desc |}) in
  (BookState.compareBooks (filter ascending) first second = -1 /\
   BookState.compareBooks (filter ascending) second first = -1) /\
  (BookState.filteredBooks Js.v8 ascending = [second; first] /\
   Spec.stableProjection ascending = [first; second]) /\
  (BookState.filteredBooks Js.v8 descending = [second; first] /\
   Spec.stableProjection descending = [first; second]).
Proof.
  cbv. repeat split.
Qed.

(** Whatever the comparison function answers, V8's sort rearranges the
    array: no element is lost or repeated. *)
Lemma BinaryInsertionSort_permutation {A : Type} (comparefn : A -> A -> Z)
    (pending sorted : list A) :
  Permutation (Js.BinaryInsertionSort comparefn sorted pending) (sorted ++ pending).
Proof.
  revert sorted. induction pending as [| pivot rest IH]; intros sorted; cbn.
  - rewrite app_nil_r. apply Permutation_refl.
  - eapply Permutation_trans; [apply IH |].
    change (sorted ++ pivot :: rest) with (sorted ++ [pivot] ++ rest).
    rewrite (app_assoc sorted). apply Permutation_app_tail.
    eapply Permutation_trans; [| apply Permutation_cons_append].
    eapply Permutation_trans; [symmetry; apply Permutation_middle |].
    rewrite firstn_skipn. apply Permutation_refl.
Qed.

Lemma CountAndMakeRun_permutation {A : Type} (comparefn : A -> A -> Z) (a : list A) :
  Permutation (snd (Js.CountAndMakeRun comparefn a)) a.
Proof.
  destruct a as [| x [| y rest]]; cbn [Js.CountAndMakeRun snd]; try reflexivity.
  destruct (comparefn y x <? 0); cbn [snd]; [| reflexivity].
  set (n := (2 + Js.extendRun comparefn true y rest)%nat).
  rewrite <- (firstn_skipn n (x :: y :: rest)) at 3.
  apply Permutation_app_tail. symmetry. apply Permutation_rev.
Qed.

Lemma ArrayTimSort_permutation {A : Type} (comparefn : A -> A -> Z) (a : list A) :
  Permutation (Js.ArrayTimSort comparefn a) a.
Proof.
  unfold Js.ArrayTimSort.
  destruct (List.length a <? 2)%nat; [reflexivity |].
  pose proof (CountAndMakeRun_permutation comparefn a) as Hrun.
  destruct (Js.CountAndMakeRun comparefn a) as [runLength a']. cbn [snd] in Hrun.
  eapply Permutation_trans; [apply BinaryInsertionSort_permutation |].
  rewrite firstn_skipn. exact Hrun.
Qed.

(** So, under V8, [filteredBooks] returns the books that pass the search,
    genre and status predicates, each one once, in some order. *)
Lemma filteredBooks_v8_passing (s : BookStateModel) :
  Permutation (BookState.filteredBooks Js.v8 s)
    (List.filter (Spec.passes s) (books s)).
Proof.
  unfold BookState.filteredBooks, Js.v8.
  rewrite filters_keep_passing. apply ArrayTimSort_permutation.
Qed.

(** *** V8's sort orders by the comparison function *)

Section SortedByComparison.

Context {A : Type} (comparefn : A -> A -> Z).

Local Abbreviation before := (fun a b : A => comparefn a b < 0).

(** The comparison function is total and transitive in what it reports to
    come first (it may report both of two elements to come first). *)
Hypothesis before_total : forall a b, before a b \/ before b a.
Hypothesis before_trans : forall a b c, before a b -> before b c -> before a c.

Lemma StronglySorted_app_intro (l1 l2 : list A) :
  StronglySorted before l1 -> StronglySorted before l2 ->
  (forall x y, In x l1 -> In y l2 -> before x y) ->
  StronglySorted before (l1 ++ l2).
Proof.
  induction l1 as [| a l1 IH]; intros H1 H2 Hcross; cbn.
  - exact H2.
  - apply StronglySorted_inv in H1. destruct H1 as [Hs Hall].
    constructor.
    + apply IH; [exact Hs | exact H2 |].
      intros x y Hx Hy. apply Hcross; [right; exact Hx | exact Hy].
    + apply Forall_app. split; [exact Hall |].
      apply Forall_forall. intros y Hy. apply Hcross; [left; reflexivity | exact Hy].
Qed.

Lemma StronglySorted_app_inv (l1 l2 : list A) :
  StronglySorted before (l1 ++ l2) ->
  StronglySorted before l1 /\ StronglySorted before l2 /\
  (forall x y, In x l1 -> In y l2 -> before x y).
Proof.
  induction l1 as [| a l1 IH]; cbn; intros H.
  - repeat split; [constructor | exact H | intros x y []].
  - apply StronglySorted_inv in H. destruct H as [Hs Hall].
    destruct (IH Hs) as (S1 & S2 & Hcross).
    apply Forall_app in Hall. destruct Hall as [Ha1 Ha2].
    repeat split.
    + constructor; assumption.
    + exact S2.
    + intros x y [<- | Hx] Hy.
      * rewrite Forall_forall in Ha2. apply Ha2, Hy.
      * apply Hcross; assumption.
Qed.

(** An element put between those that come before it and those it comes
    before keeps the list sorted. *)
Lemma StronglySorted_insert (l1 l2 : list A) (p : A) :
  StronglySorted before (l1 ++ l2) ->
  Forall (fun x => before x p) l1 -> Forall (fun y => before p y) l2 ->
  StronglySorted before (l1 ++ p :: l2).
Proof.
  intros Hs H1 H2.
  destruct (StronglySorted_app_inv l1 l2 Hs) as (S1 & S2 & Hcross).
  apply StronglySorted_app_intro.
  - exact S1.
  - constructor; assumption.
  - intros x y Hx [<- | Hy].
    + rewrite Forall_forall in H1. apply H1, Hx.
    + apply Hcross; assumption.
Qed.

(** The run that [CountAndMakeRun] finds, ascending ... *)
Lemma extendRun_ascending (rest : list A) (previous : A) :
  StronglySorted before
    (previous :: firstn (Js.extendRun comparefn false previous rest) rest).
Proof.
  revert previous. induction rest as [| current rest IH]; intros previous; cbn.
  - repeat constructor.
  - destruct (Z.ltb_spec (comparefn current previous) 0) as [Hlt | Hge]; cbn.
    + repeat constructor.
    + specialize (IH current).
      assert (Hpc : before previous current).
      { destruct (before_total previous current) as [H | H]; [exact H | lia]. }
      constructor; [exact IH |].
      constructor; [exact Hpc |].
      apply StronglySorted_inv in IH. destruct IH as [_ Hall].
      eapply Forall_impl; [| exact Hall].
      intros x Hx. cbn in *. eapply before_trans; eassumption.
Qed.

(** ... or descending, and then ascending once reversed. *)
Lemma extendRun_descending (rest : list A) (previous : A) :
  StronglySorted before
    (rev (previous :: firstn (Js.extendRun comparefn true previous rest) rest)).
Proof.
  revert previous. induction rest as [| current rest IH]; intros previous; cbn.
  - repeat constructor.
  - destruct (Z.leb_spec 0 (comparefn current previous)) as [Hge | Hlt]; cbn.
    + repeat constructor.
    + specialize (IH current). cbn in IH.
      apply StronglySorted_app_intro.
      * exact IH.
      * repeat constructor.
      * intros x y Hx [<- | []].
        apply in_app_or in Hx. destruct Hx as [Hx | [<- | []]]; [| exact Hlt].
        apply StronglySorted_app_inv in IH. destruct IH as (_ & _ & Hcross).
        eapply before_trans; [| exact Hlt].
        apply Hcross; [exact Hx | left; reflexivity].
Qed.

Lemma extendRun_le (d : bool) (rest : list A) (previous : A) :
  (Js.extendRun comparefn d previous rest <= List.length rest)%nat.
Proof.
  revert previous. induction rest as [| current rest IH]; intros previous; cbn.
  - lia.
  - destruct (if d then _ else _); [lia |]. specialize (IH current). lia.
Qed.

Lemma CountAndMakeRun_sorted (a : list A) :
  StronglySorted before
    (firstn (fst (Js.CountAndMakeRun comparefn a)) (snd (Js.CountAndMakeRun comparefn a))).
Proof.
  destruct a as [| x [| y rest]]; cbn [Js.CountAndMakeRun fst snd].
  - constructor.
  - repeat constructor.
  - destruct (Z.ltb_spec (comparefn y x) 0) as [Hlt | Hge]; cbn [fst snd].
    + pose proof (extendRun_le true rest y) as Hle.
      set (n := Js.extendRun comparefn true y rest) in *.
      change (firstn (2 + n) (x :: y :: rest)) with (x :: y :: firstn n rest).
      rewrite firstn_app.
      replace (2 + n - List.length (rev (x :: y :: firstn n rest)))%nat with 0%nat
        by (rewrite length_rev; cbn; rewrite length_firstn; lia).
      rewrite firstn_O, app_nil_r.
      rewrite firstn_all2
        by (rewrite length_rev; cbn; rewrite length_firstn; lia).
      pose proof (extendRun_descending rest y) as Hd. fold n in Hd.
      change (rev (x :: y :: firstn n rest))
        with (rev (y :: firstn n rest) ++ [x]).
      apply StronglySorted_app_intro; [exact Hd | repeat constructor |].
      intros u v Hu [<- | []].
      apply in_rev in Hu. destruct Hu as [<- | Hu]; [exact Hlt |].
      apply StronglySorted_app_inv in Hd. cbn in Hd.
      destruct Hd as (_ & _ & Hcross).
      eapply before_trans; [| exact Hlt].
      apply Hcross; [apply in_rev in Hu; exact Hu | left; reflexivity].
    + pose proof (extendRun_ascending rest y) as Ha.
      set (n := Js.extendRun comparefn false y rest) in *.
      change (firstn (2 + n) (x :: y :: rest)) with (x :: y :: firstn n rest).
      assert (Hxy : before x y).
      { destruct (before_total x y) as [H | H]; [exact H | lia]. }
      constructor; [exact Ha |].
      constructor; [exact Hxy |].
      apply StronglySorted_inv in Ha. destruct Ha as [_ Hall].
      eapply Forall_impl; [| exact Hall].
      intros z Hz. cbn in *. eapply before_trans; eassumption.
Qed.


(** In a sorted array, the elements up to one that comes before the pivot
    come before the pivot, and the pivot comes before the elements from
    one it comes before. *)
Lemma sorted_upto (l : list A) (mid : nat) (m pivot : A) :
  StronglySorted before l -> nth_error l mid = Some m -> before m pivot ->
  Forall (fun x => before x pivot) (firstn (mid + 1) l).
Proof.
  intros Hs Hnth Hmp.
  destruct (nth_error_split l mid Hnth) as (l1 & l2 & -> & <-).
  rewrite firstn_app_2. cbn [firstn].
  destruct (StronglySorted_app_inv l1 (m :: l2) Hs) as (_ & _ & Hcross).
  apply Forall_app. split; [| repeat constructor; exact Hmp].
  apply Forall_forall. intros x Hx.
  eapply before_trans; [| exact Hmp].
  apply Hcross; [exact Hx | left; reflexivity].
Qed.

Lemma sorted_from (l : list A) (mid : nat) (m pivot : A) :
  StronglySorted before l -> nth_error l mid = Some m -> before pivot m ->
  Forall (fun y => before pivot y) (skipn mid l).
Proof.
  intros Hs Hnth Hpm.
  destruct (nth_error_split l mid Hnth) as (l1 & l2 & -> & <-).
  rewrite skipn_app, skipn_all, Nat.sub_diag. cbn [skipn app].
  destruct (StronglySorted_app_inv l1 (m :: l2) Hs) as (_ & S2 & _).
  apply StronglySorted_inv in S2. destruct S2 as [_ Hall].
  constructor; [exact Hpm |].
  eapply Forall_impl; [| exact Hall].
  intros y Hy. cbn in *. eapply before_trans; eassumption.
Qed.

(** The binary search ends, within its fuel, at a slot with the elements
    that come before the pivot on its left and those the pivot comes before
    on its right. *)
Lemma insertionPoint_slot (fuel : nat) (pivot : A) (l : list A) (left right : nat) :
  StronglySorted before l ->
  (left <= right)%nat -> (right <= List.length l)%nat -> (right - left < fuel)%nat ->
  Forall (fun x => before x pivot) (firstn left l) ->
  Forall (fun y => before pivot y) (skipn right l) ->
  let k := Js.insertionPoint comparefn fuel pivot l left right in
  Forall (fun x => before x pivot) (firstn k l) /\
  Forall (fun y => before pivot y) (skipn k l).
Proof.
  intros Hs. revert left right.
  induction fuel as [| fuel IH]; intros left right Hlr Hrl Hfuel Hleft Hright.
  - lia.
  - cbn [Js.insertionPoint].
    destruct (Nat.ltb_spec left right) as [Hlt | Hge].
    + assert (Hhalf : ((right - left) / 2 < right - left)%nat)
        by (apply Nat.div_lt; lia).
      set (mid := (left + (right - left) / 2)%nat) in *.
      destruct (nth_error l mid) as [m |] eqn:Hnth.
      * destruct (Z.ltb_spec (comparefn pivot m) 0) as [Hpm | Hnpm].
        -- apply IH; try lia; [exact Hleft |].
           eapply sorted_from; eassumption.
        -- apply IH; try lia; [| exact Hright].
           eapply sorted_upto; [exact Hs | exact Hnth |].
           destruct (before_total m pivot) as [H | H]; [exact H | lia].
      * apply nth_error_None in Hnth. lia.
    + replace right with left in Hright by lia. split; assumption.
Qed.

Lemma BinaryInsertionSort_sorted (pending sorted : list A) :
  StronglySorted before sorted ->
  StronglySorted before (Js.BinaryInsertionSort comparefn sorted pending).
Proof.
  revert sorted. induction pending as [| pivot rest IH]; intros sorted Hs; cbn.
  - exact Hs.
  - apply IH.
    destruct (insertionPoint_slot (S (List.length sorted)) pivot sorted 0
                (List.length sorted) Hs) as [Hbefore Hafter];
      try lia.
    + constructor.
    + rewrite skipn_all. constructor.
    + apply StronglySorted_insert; [rewrite firstn_skipn; exact Hs | |]; assumption.
Qed.

(** V8's sort returns the array in an order in which every element is
    reported to come before those behind it. *)
Lemma ArrayTimSort_sorted (a : list A) :
  StronglySorted before (Js.ArrayTimSort comparefn a).
Proof.
  unfold Js.ArrayTimSort.
  destruct (Nat.ltb_spec (List.length a) 2) as [Hshort | Hlong].
  - destruct a as [| x [| y rest]]; cbn in Hshort; try lia; repeat constructor.
  - pose proof (CountAndMakeRun_sorted a) as Hrun.
    destruct (Js.CountAndMakeRun comparefn a) as [runLength a']. cbn [fst snd] in Hrun.
    apply BinaryInsertionSort_sorted. exact Hrun.
Qed.

End SortedByComparison.

(** *** The order of the sort values *)

Lemma not_ltb_compare (a b : string) :
  negb (String.ltb b a) = true <-> String.compare a b <> Gt.
Proof.
  unfold String.ltb. rewrite (String.compare_antisym a b).
  destruct (String.compare b a); cbn; split; intros H; congruence.
Qed.

Lemma compare_le_trans (a b c : string) :
  String.compare a b <> Gt -> String.compare b c <> Gt -> String.compare a c <> Gt.
Proof.
  revert b c. induction a as [| x a IH]; intros [| y b] [| z c]; cbn;
    try congruence.
  unfold Ascii.compare.
  destruct (N.compare_spec (N_of_ascii x) (N_of_ascii y)) as [Exy | Lxy | Gxy];
    destruct (N.compare_spec (N_of_ascii y) (N_of_ascii z)) as [Eyz | Lyz | Gyz];
    destruct (N.compare_spec (N_of_ascii x) (N_of_ascii z)) as [Exz | Lxz | Gxz];
    try congruence; try lia.
  apply IH.
Qed.

Lemma compare_le_total (a b : string) :
  String.compare a b <> Gt \/ String.compare b a <> Gt.
Proof.
  rewrite (String.compare_antisym a b).
  destruct (String.compare b a); cbn; [left | right | left]; congruence.
Qed.

Section BookOrder.

Variable f : BookFilter.

Local Abbreviation before := (fun a b : Book => BookState.compareBooks f a b < 0).

Lemma lt_gt (v w : BookState.SortValue) : BookState.lt v w = BookState.gt w v.
Proof. destruct v, w; reflexivity. Qed.

(** The comparison function reports [a] to come before [b] exactly when
    [a] comes no later than [b] in the order of the specification. *)
Lemma compareBooks_before (a b : Book) :
  before a b <-> Spec.comesNoLater f a b = true.
Proof.
  unfold BookState.compareBooks, Spec.comesNoLater.
  destruct (BookFilter.sortOrder f);
    [destruct (BookState.gt _ _) | destruct (BookState.lt _ _)];
    cbn; split; intros H; try reflexivity; try discriminate H; lia.
Qed.

Lemma comesNoLater_total (a b : Book) :
  Spec.comesNoLater f a b = true \/ Spec.comesNoLater f b a = true.
Proof.
  unfold Spec.comesNoLater.
  destruct (BookFilter.sortOrder f); rewrite ?lt_gt;
    destruct (BookFilter.sortBy f); cbn;
    unfold Js.strGt, Js.numGt;
    rewrite ?not_ltb_compare, ?negb_involutive, ?Qle_bool_iff;
    try apply compare_le_total;
    match goal with
    | |- (?x <= ?y)%Q \/ _ =>
        destruct (Qlt_le_dec y x) as [H | H];
        [right; apply Qlt_le_weak; exact H | left; exact H]
    end.
Qed.

Lemma comesNoLater_trans (a b c : Book) :
  Spec.comesNoLater f a b = true -> Spec.comesNoLater f b c = true ->
  Spec.comesNoLater f a c = true.
Proof.
  unfold Spec.comesNoLater.
  destruct (BookFilter.sortOrder f); rewrite ?lt_gt;
    destruct (BookFilter.sortBy f); cbn;
    unfold Js.strGt, Js.numGt;
    rewrite ?not_ltb_compare, ?negb_involutive, ?Qle_bool_iff;
    intros H1 H2;
    first [ eapply compare_le_trans; eassumption
          | eapply Qle_trans; eassumption ].
Qed.

Lemma compareBooks_total (a b : Book) : before a b \/ before b a.
Proof.
  rewrite !compareBooks_before. apply comesNoLater_total.
Qed.

Lemma compareBooks_trans (a b c : Book) :
  before a b -> before b c -> before a c.
Proof.
  rewrite !compareBooks_before. apply comesNoLater_trans.
Qed.

(** Two books that each come before the other tie. *)
Lemma before_both_tie (a b : Book) :
  before a b -> before b a -> Spec.tie f a b = true /\ Spec.tie f b a = true.
Proof.
  rewrite !compareBooks_before. unfold Spec.comesNoLater, Spec.tie.
  rewrite !lt_gt.
  destruct (BookFilter.sortOrder f); intros -> ->; split; reflexivity.
Qed.

(** *** The stable sort of the specification *)

Lemma insertStable_permutation (x : Book) (l : list Book) :
  Permutation (Spec.insertStable f x l) (x :: l).
Proof.
  induction l as [| y l IH]; cbn.
  - reflexivity.
  - destruct (Spec.comesNoLater f x y); [reflexivity |].
    rewrite IH. apply perm_swap.
Qed.

Lemma stableSort_permutation (l : list Book) :
  Permutation (Spec.stableSort f l) l.
Proof.
  induction l as [| x l IH]; cbn.
  - reflexivity.
  - rewrite insertStable_permutation. apply perm_skip. exact IH.
Qed.

Lemma insertStable_sorted (x : Book) (l : list Book) :
  StronglySorted before l -> StronglySorted before (Spec.insertStable f x l).
Proof.
  induction l as [| y l IH]; intros Hs; cbn.
  - repeat constructor.
  - apply StronglySorted_inv in Hs. destruct Hs as [Hl Hall].
    destruct (Spec.comesNoLater f x y) eqn:Exy.
    + apply compareBooks_before in Exy.
      constructor; [constructor; assumption |].
      constructor; [exact Exy |].
      eapply Forall_impl; [| exact Hall].
      intros z Hz. cbn in *. eapply compareBooks_trans; eassumption.
    + assert (Hyx : before y x).
      { destruct (compareBooks_total y x) as [H | H]; [exact H |].
        apply compareBooks_before in H. congruence. }
      constructor; [apply IH; exact Hl |].
      eapply Permutation_Forall; [symmetry; apply insertStable_permutation |].
      constructor; assumption.
Qed.

Lemma stableSort_sorted (l : list Book) :
  StronglySorted before (Spec.stableSort f l).
Proof.
  induction l as [| x l IH]; cbn.
  - constructor.
  - apply insertStable_sorted. exact IH.
Qed.

(** Without ties, two books that each come before the other are one
    book. *)
Lemma noTies_antisym (l : list Book) (a b : Book) :
  Spec.noTies f l -> In a l -> In b l -> before a b -> before b a -> a = b.
Proof.
  intros Hties Ha Hb Hab Hba.
  destruct (before_both_tie a b Hab Hba) as [Tab Tba].
  destruct (ForallOrdPairs_In Hties a b Ha Hb) as [E | [T | T]];
    [exact E | congruence | congruence].
Qed.

(** So there is one sorted arrangement of a list without ties. *)
Lemma sorted_arrangement_unique (l1 l2 : list Book) :
  (forall a b, In a l1 -> In b l1 -> before a b -> before b a -> a = b) ->
  StronglySorted before l1 -> StronglySorted before l2 ->
  Permutation l1 l2 -> l1 = l2.
Proof.
  revert l2. induction l1 as [| a l1 IH]; intros l2 Hanti S1 S2 Hperm.
  - apply Permutation_nil in Hperm. symmetry. exact Hperm.
  - destruct l2 as [| b l2].
    { apply Permutation_sym, Permutation_nil in Hperm. discriminate Hperm. }
    apply StronglySorted_inv in S1, S2.
    destruct S1 as [S1 F1], S2 as [S2 F2].
    assert (Hab : a = b).
    { pose proof (Permutation_in a Hperm (or_introl eq_refl)) as Ha.
      pose proof (Permutation_in b (Permutation_sym Hperm) (or_introl eq_refl)) as Hb.
      destruct Ha as [Ha | Ha]; [symmetry; exact Ha |].
      destruct Hb as [Hb | Hb]; [exact Hb |].
      rewrite Forall_forall in F1, F2.
      apply Hanti; [left; reflexivity | right; exact Hb | apply F1, Hb | apply F2, Ha]. }
    subst b. f_equal.
    apply Permutation_cons_inv in Hperm.
    apply IH; try assumption.
    intros x y Hx Hy. apply Hanti; right; assumption.
Qed.

End BookOrder.

(** Under V8 (as modelled, that is for fewer than 64 passing books),
    [filteredBooks] returns the passing books ordered by the sort field:
    ascending by its natural order, descending by the reverse. *)
Lemma filteredBooks_v8_sorted (s : BookStateModel) :
  StronglySorted (fun a b => Spec.comesNoLater (filter s) a b = true)
    (BookState.filteredBooks Js.v8 s).
Proof.
  unfold BookState.filteredBooks, Js.v8.
  pose proof (ArrayTimSort_sorted (BookState.compareBooks (filter s))
                (compareBooks_total (filter s)) (compareBooks_trans (filter s))) as Hsorted.
  match goal with
  | |- StronglySorted _ (Js.ArrayTimSort _ ?l) => specialize (Hsorted l)
  end.
  induction Hsorted as [| a l Hs IH Hall]; constructor.
  - exact IH.
  - eapply Forall_impl; [| exact Hall].
    intros b Hb. apply compareBooks_before. exact Hb.
Qed.

(** And when no two of the passing books tie in the sort field, that is the
    projection of the specification. *)
Lemma filteredBooks_v8_without_ties (s : BookStateModel) :
  Spec.noTies (filter s) (List.filter (Spec.passes s) (books s)) ->
  BookState.filteredBooks Js.v8 s = Spec.stableProjection s.
Proof.
  intros Hties. symmetry.
  unfold Spec.stableProjection, BookState.filteredBooks, Js.v8.
  rewrite filters_keep_passing.
  set (l := List.filter (Spec.passes s) (books s)) in *.
  apply (sorted_arrangement_unique (filter s)).
  - intros a b Ha Hb. apply (noTies_antisym (filter s) l a b Hties).
    + eapply Permutation_in; [apply stableSort_permutation | exact Ha].
    + eapply Permutation_in; [apply stableSort_permutation | exact Hb].
  - apply stableSort_sorted.
  - apply (ArrayTimSort_sorted (BookState.compareBooks (filter s))
             (compareBooks_total (filter s)) (compareBooks_trans (filter s))).
  - rewrite stableSort_permutation. symmetry. apply ArrayTimSort_permutation.
Qed.

(* ================================================================== *)
(** ** Further properties of the store *)
(* ================================================================== *)

(** X1.  [loading] is a flag, not a count of the requests in flight: when
    the response of one page fetch arrives while another page fetch is
    still in flight, [loading] becomes false although that other request
    has not been answered. *)
Theorem loading_is_not_counted (apiUrl : string) (w : PageFetches.t)
    (answered waiting : nat) (r : PaginatedResponse Book) :
  PageFetches.isInFlight answered w = true ->
  PageFetches.isInFlight waiting w = true ->
  waiting <> answered ->
  let w' := PageFetches.step apiUrl w (PageFetches.Arrive answered r) in
  loading (PageFetches.store w') = false /\
  PageFetches.isInFlight waiting w' = true /\
  PageFetches.isInFlight answered w' = false.
Proof.
  intros Ha Hw Hne. cbn. rewrite Ha. cbn.
  unfold PageFetches.isInFlight, PageFetches.complete in *. cbn.
  split; [reflexivity | split].
  - apply existsb_exists in Hw. destruct Hw as (x & Hin & Heq).
    apply Nat.eqb_eq in Heq. subst x.
    apply existsb_exists. exists waiting. split; [| apply Nat.eqb_refl].
    apply filter_In. split; [exact Hin |].
    apply negb_true_iff, Nat.eqb_neq. exact Hne.
  - match goal with |- ?x = false => destruct x eqn:E end; [| reflexivity].
    apply existsb_exists in E. destruct E as (x & Hin & Heq).
    apply Nat.eqb_eq in Heq. subst x.
    apply filter_In in Hin. destruct Hin as [_ Hne'].
    rewrite Nat.eqb_refl in Hne'. discriminate Hne'.
Qed.

Lemma loading_is_not_counted_witness :
  let w := PageFetches.run "/api" (PageFetches.start BookState.defaults)
             [PageFetches.Issue Spec.firstPage; PageFetches.Issue Spec.firstPage] in
  let w' := PageFetches.step "/api" w
              (PageFetches.Arrive 0 (Spec.response [] 0 1 10 0)) in
  loading (PageFetches.store w) = true /\
  loading (PageFetches.store w') = false /\
  PageFetches.isInFlight 1 w' = true.
Proof.
  pose proof (loading_is_not_counted "/api"
                (PageFetches.run "/api" (PageFetches.start BookState.defaults)
                   [PageFetches.Issue Spec.firstPage; PageFetches.Issue Spec.firstPage])
                0%nat 1%nat (Spec.response [] 0 1 10 0) eq_refl eq_refl
                (fun E : 1%nat = 0%nat => O_S 0 (eq_sym E))) as (Hl & Hw & _).
  split; [reflexivity | split; assumption].
Defined.

(** X2.  Which actions can change which part of the state: the books only
    a success that brings or removes books; the selected book only the
    success of a fetch by id, an update or a delete, or clearing the
    selection; the filter only setting or clearing it; each lookup table
    only the success of its fetch.  In particular no failure changes any of
    them. *)
Theorem state_changes_only_by (apiUrl : string) (s : BookStateModel) (a : Action) :
  let s' := BookState.reduce apiUrl s a in
  (books s' <> books s ->
   Spec.role a = Spec.Success Spec.OpFetchPage \/
   Spec.role a = Spec.Success Spec.OpFetchAll \/
   Spec.role a = Spec.Success Spec.OpCreate \/
   Spec.role a = Spec.Success Spec.OpUpdate \/
   Spec.role a = Spec.Success Spec.OpDelete) /\
  (selectedBook s' <> selectedBook s ->
   Spec.role a = Spec.Success Spec.OpFetchDetail \/
   Spec.role a = Spec.Success Spec.OpUpdate \/
   Spec.role a = Spec.Success Spec.OpDelete \/
   a = ClearSelectedBook) /\
  (filter s' <> filter s ->
   (exists payload, a = SetBookFilter payload) \/ a = ClearBookFilter) /\
  (statuses s' <> statuses s -> exists payload, a = FetchStatusesSuccess payload) /\
  (genres s' <> genres s -> exists payload, a = FetchGenresSuccess payload).
Proof.
  destruct a; cbn; repeat split; intros H;
    try (exfalso; apply H; reflexivity); eauto 6.
Qed.

Lemma state_changes_only_by_witness :
  let s := Spec.withBooks [Spec.book 1 "Dune" "Herbert"] BookState.defaults in
  books (BookState.reduce "/api" s (DeleteBookSuccess 1)) <> books s /\
  (Spec.role (DeleteBookSuccess 1) = Spec.Success Spec.OpFetchPage \/
   Spec.role (DeleteBookSuccess 1) = Spec.Success Spec.OpFetchAll \/
   Spec.role (DeleteBookSuccess 1) = Spec.Success Spec.OpCreate \/
   Spec.role (DeleteBookSuccess 1) = Spec.Success Spec.OpUpdate \/
   Spec.role (DeleteBookSuccess 1) = Spec.Success Spec.OpDelete).
Proof.
  assert (Hchanged :
    books (BookState.reduce "/api"
             (Spec.withBooks [Spec.book 1 "Dune" "Herbert"] BookState.defaults)
             (DeleteBookSuccess 1))
    <> books (Spec.withBooks [Spec.book 1 "Dune" "Herbert"] BookState.defaults)).
  { cbn. discriminate. }
  split; [exact Hchanged |].
  exact (proj1 (state_changes_only_by "/api"
                  (Spec.withBooks [Spec.book 1 "Dune" "Herbert"] BookState.defaults)
                  (DeleteBookSuccess 1)) Hchanged).
Defined.

(** X3.  Along any sequence of actions the store sends exactly one HTTP
    request for each action that requests an operation and none for any
    other: a failure is not retried, and a result, a change of the filter
    or of the selection fetches nothing. *)
Theorem one_request_per_operation (apiUrl : string) (l : list Action)
    (s : BookStateModel) :
  List.length (StoreTraffic.sent apiUrl s l)
  = List.length (List.filter StoreTraffic.isRequest l).
Proof.
  revert s. induction l as [| a l IH]; intros s; [reflexivity |].
  cbn [StoreTraffic.sent List.filter].
  destruct (BookState.dispatch apiUrl s a) as [s1 effects] eqn:Ed.
  rewrite length_app, IH.
  assert (Hone : List.length (StoreTraffic.requestsOf effects)
                 = if StoreTraffic.isRequest a then 1%nat else 0%nat).
  { destruct a; cbn in Ed; injection Ed as <- <-; reflexivity. }
  rewrite Hone. destruct (StoreTraffic.isRequest a); reflexivity.
Qed.

Lemma update_keeps_ids (payload : Book) (l : list Book) :
  map Book.id
    (map (fun book => if Book.id book =? Book.id payload then payload else book) l)
  = map Book.id l.
Proof.
  induction l as [| b l IH]; cbn; [reflexivity |].
  rewrite IH. destruct (Z.eqb_spec (Book.id b) (Book.id payload)) as [E | _];
    [rewrite E |]; reflexivity.
Qed.

Lemma NoDup_map_filter {A B : Type} (f : A -> B) (g : A -> bool) (l : list A) :
  NoDup (map f l) -> NoDup (map f (List.filter g l)).
Proof.
  induction l as [| a l IH]; cbn; intros Hnd; [constructor |].
  inversion Hnd as [| ? ? Hnotin Hrest]; subst.
  destruct (g a); cbn; [constructor |]; auto.
  intros Hin. apply Hnotin.
  apply in_map_iff in Hin. destruct Hin as (x & Hx & Hfx).
  apply filter_In in Hfx. apply in_map_iff. exists x. tauto.
Qed.

(** X4.  A created book is appended after the books there are, whatever
    its id, also when a listed book has that id already; deleting that id
    afterwards removes it together with every listed book of the same id,
    so when the id is new to the list the delete gives back the list as it
    was before. *)
Theorem create_then_delete (apiUrl : string) (s : BookStateModel) (b : Book) :
  let created := BookState.reduce apiUrl s (CreateBookSuccess b) in
  let deleted := BookState.reduce apiUrl created (DeleteBookSuccess (Book.id b)) in
  books created = books s ++ [b] /\
  books deleted = List.filter (fun x => negb (Book.id x =? Book.id b)) (books s) /\
  ((forall x, In x (books s) -> Book.id x <> Book.id b) -> books deleted = books s).
Proof.
  cbn. split; [reflexivity |].
  rewrite filter_app. cbn. rewrite Z.eqb_refl. cbn. rewrite app_nil_r.
  split; [reflexivity |].
  intros Hfresh. apply filter_all_pass. intros x Hx.
  apply negb_true_iff, Z.eqb_neq, Hfresh, Hx.
Qed.

Lemma create_then_delete_witness :
  let s := Spec.withBooks [Spec.book 1 "Dune" "Herbert"] BookState.defaults in
  let b := Spec.book 2 "Emma" "Austen" in
  (forall x, In x (books s) -> Book.id x <> Book.id b) /\
  books (BookState.reduce "/api" (BookState.reduce "/api" s (CreateBookSuccess b))
           (DeleteBookSuccess 2))
  = [Spec.book 1 "Dune" "Herbert"].
Proof.
  assert (Hfresh : forall x,
             In x (books (Spec.withBooks [Spec.book 1 "Dune" "Herbert"]
                            BookState.defaults)) ->
             Book.id x <> Book.id (Spec.book 2 "Emma" "Austen")).
  { intros x [<- | []]. cbn. discriminate. }
  split; [exact Hfresh |].
  exact (proj2 (proj2 (create_then_delete "/api"
                  (Spec.withBooks [Spec.book 1 "Dune" "Herbert"] BookState.defaults)
                  (Spec.book 2 "Emma" "Austen"))) Hfresh).
Defined.

(** X5.  A successful update keeps the ids of the list, position by
    position; afterwards every listed book with the payload's id is the
    payload and the books with other ids are the ones there were.  The
    payload becomes the selected book also when no listed book has its id,
    and the list is then unchanged.  Applying the same update again changes
    nothing. *)
Theorem updateBookSuccess_replaces_by_id (apiUrl : string) (s : BookStateModel)
    (payload : Book) :
  let s' := BookState.reduce apiUrl s (UpdateBookSuccess payload) in
  map Book.id (books s') = map Book.id (books s) /\
  (forall b, In b (books s') -> Book.id b = Book.id payload -> b = payload) /\
  (forall b, Book.id b <> Book.id payload -> (In b (books s') <-> In b (books s))) /\
  ((forall b, In b (books s) -> Book.id b <> Book.id payload) -> books s' = books s) /\
  selectedBook s' = Some payload /\
  BookState.reduce apiUrl s' (UpdateBookSuccess payload) = s'.
Proof.
  cbn. split; [apply update_keeps_ids |].
  split; [| split; [| split; [| split; [reflexivity |]]]].
  - intros b Hin Hid. apply in_map_iff in Hin. destruct Hin as (x & Hx & _).
    destruct (Z.eqb_spec (Book.id x) (Book.id payload)) as [_ | Hne];
      [symmetry; exact Hx | subst x; contradiction].
  - intros b Hne. rewrite in_map_iff. split.
    + intros (x & Hx & Hin).
      destruct (Z.eqb_spec (Book.id x) (Book.id payload)) as [_ | _];
        [subst b; contradiction | subst x; exact Hin].
    + intros Hin. exists b. split; [| exact Hin].
      destruct (Z.eqb_spec (Book.id b) (Book.id payload)); [contradiction | reflexivity].
  - intros Hnone. induction (books s) as [| b l IH]; cbn; [reflexivity |].
    destruct (Z.eqb_spec (Book.id b) (Book.id payload)) as [E | _].
    + exfalso. apply (Hnone b); [left; reflexivity | exact E].
    + f_equal. apply IH. intros x Hx. apply Hnone. right. exact Hx.
  - unfold BookState.reduce. cbn. f_equal.
    rewrite map_map. apply map_ext. intros b.
    destruct (Z.eqb_spec (Book.id b) (Book.id payload)) as [_ | Hne].
    + rewrite Z.eqb_refl. reflexivity.
    + destruct (Z.eqb_spec (Book.id b) (Book.id payload)); [contradiction | reflexivity].
Qed.

(** X6.  Pairwise distinct ids stay pairwise distinct under every action,
    provided the server does its part: a list it sends has distinct ids and
    a created book has an id that is not listed.  Update, delete and every
    other action need nothing. *)
Theorem distinct_ids_kept (apiUrl : string) (s : BookStateModel) (a : Action) :
  NoDup (map Book.id (books s)) ->
  match a with
  | FetchPaginatedBooksSuccess r => NoDup (map Book.id (PaginatedResponse.items r))
  | FetchBooksSuccess l => NoDup (map Book.id l)
  | CreateBookSuccess b => ~ In (Book.id b) (map Book.id (books s))
  | _ => True
  end ->
  NoDup (map Book.id (books (BookState.reduce apiUrl s a))).
Proof.
  intros Hnd Hserver. destruct a; cbn; try assumption.
  - rewrite map_app. cbn.
    eapply Permutation_NoDup; [apply Permutation_cons_append |].
    constructor; assumption.
  - rewrite update_keeps_ids. exact Hnd.
  - apply NoDup_map_filter. exact Hnd.
Qed.

Lemma distinct_ids_kept_witness :
  let s := Spec.withBooks [Spec.book 1 "Dune" "Herbert"] BookState.defaults in
  NoDup (map Book.id (books s)) /\
  ~ In 2 (map Book.id (books s)) /\
  NoDup (map Book.id
           (books (BookState.reduce "/api" s
                     (CreateBookSuccess (Spec.book 2 "Emma" "Austen"))))).
Proof.
  assert (Hnd : NoDup [1]) by (repeat constructor; intros []).
  assert (Hfresh : ~ In 2 [1]) by (intros [E | []]; discriminate E).
  split; [exact Hnd | split; [exact Hfresh |]].
  exact (distinct_ids_kept "/api"
           (Spec.withBooks [Spec.book 1 "Dune" "Herbert"] BookState.defaults)
           (CreateBookSuccess (Spec.book 2 "Emma" "Austen")) Hnd Hfresh).
Defined.

Lemma filter_twice {A : Type} (f : A -> bool) (l : list A) :
  List.filter f (List.filter f l) = List.filter f l.
Proof.
  induction l as [| a l IH]; cbn; [reflexivity |].
  destruct (f a) eqn:E; cbn; rewrite ?E, IH; reflexivity.
Qed.

(** X7.  After a successful delete no listed book has the id and the
    selected book does not have it, whether or not the ids were distinct;
    and the same delete applied again leaves the state as it is. *)
Theorem deleteBookSuccess_idempotent (apiUrl : string) (s : BookStateModel) (id : Z) :
  let s' := BookState.reduce apiUrl s (DeleteBookSuccess id) in
  (forall b, In b (books s') -> Book.id b <> id) /\
  (forall b, selectedBook s' = Some b -> Book.id b <> id) /\
  BookState.reduce apiUrl s' (DeleteBookSuccess id) = s'.
Proof.
  cbn. split; [| split].
  - intros b Hin. apply filter_In in Hin. destruct Hin as [_ H].
    apply negb_true_iff, Z.eqb_neq in H. exact H.
  - unfold BookState.selectedIs.
    destruct (selectedBook s) as [x |]; [| discriminate].
    destruct (Z.eqb_spec (Book.id x) id) as [_ | Hne]; [discriminate |].
    intros b [= <-]. exact Hne.
  - unfold BookState.reduce. cbn. rewrite filter_twice. f_equal.
    unfold BookState.selectedIs. cbn.
    destruct (selectedBook s) as [x |]; [| reflexivity].
    destruct (Book.id x =? id) eqn:E; [reflexivity | rewrite E; reflexivity].
Qed.

Lemma reduce_brings (apiUrl : string) (s : BookStateModel) (a : Action) (b : Book) :
  (In b (books (BookState.reduce apiUrl s a)) ->
   In b (books s) \/ In b (StoreTraffic.carried a)) /\
  (selectedBook (BookState.reduce apiUrl s a) = Some b ->
   selectedBook s = Some b \/ In b (StoreTraffic.carried a)).
Proof.
  destruct a; cbn; split; intros H; auto; try discriminate H.
  - injection H as <-. auto.
  - apply in_app_or in H. destruct H as [H | [<- | []]]; auto.
  - apply in_map_iff in H. destruct H as (x & Hx & Hin).
    destruct (Book.id x =? Book.id payload); subst; auto.
  - injection H as <-. auto.
  - apply filter_In in H. tauto.
  - destruct (BookState.selectedIs s payload); [discriminate H | auto].
Qed.

(** X8.  The store never makes up a record: after any sequence of actions,
    every listed book and the selected book either were in the state at the
    start or came with one of the actions (in a page, a list, or as the
    book of a fetch by id, a create or an update). *)
Theorem store_never_fabricates (apiUrl : string) (l : list Action)
    (s : BookStateModel) (b : Book) :
  let s' := BookState.reduceAll apiUrl s l in
  (In b (books s') -> In b (books s) \/ In b (StoreTraffic.carriedBy l)) /\
  (selectedBook s' = Some b ->
   selectedBook s = Some b \/ In b (StoreTraffic.carriedBy l)).
Proof.
  revert s. induction l as [| a l IH]; intros s; cbn.
  - split; auto.
  - specialize (IH (BookState.reduce apiUrl s a)). cbn in IH.
    destruct IH as [IHb IHs].
    destruct (reduce_brings apiUrl s a b) as [Hb Hs].
    split; intros H.
    + apply IHb in H. destruct H as [H | H].
      * apply Hb in H. destruct H; [left | right; apply in_or_app; left]; assumption.
      * right. apply in_or_app. right. exact H.
    + apply IHs in H. destruct H as [H | H].
      * apply Hs in H. destruct H; [left | right; apply in_or_app; left]; assumption.
      * right. apply in_or_app. right. exact H.
Qed.

Lemma store_never_fabricates_witness :
  let l := [FetchPaginatedBooks Spec.firstPage;
            FetchPaginatedBooksSuccess
              (Spec.response [Spec.book 1 "Dune" "Herbert"] 1 1 10 1);
            DeleteBookSuccess 7] in
  In (Spec.book 1 "Dune" "Herbert")
     (books (BookState.reduceAll "/api" BookState.defaults l)) /\
  (In (Spec.book 1 "Dune" "Herbert") (books BookState.defaults) \/
   In (Spec.book 1 "Dune" "Herbert") (StoreTraffic.carriedBy l)).
Proof.
  assert (Hin : In (Spec.book 1 "Dune" "Herbert")
                  (books (BookState.reduceAll "/api" BookState.defaults
                            [FetchPaginatedBooks Spec.firstPage;
                             FetchPaginatedBooksSuccess
                               (Spec.response [Spec.book 1 "Dune" "Herbert"] 1 1 10 1);
                             DeleteBookSuccess 7]))).
  { cbn. left. reflexivity. }
  split; [exact Hin |].
  exact (proj1 (store_never_fabricates "/api"
                  [FetchPaginatedBooks Spec.firstPage;
                   FetchPaginatedBooksSuccess
                     (Spec.response [Spec.book 1 "Dune" "Herbert"] 1 1 10 1);
                   DeleteBookSuccess 7]
                  BookState.defaults (Spec.book 1 "Dune" "Herbert")) Hin).
Defined.

(* ================================================================== *)
(** ** Further properties of the client-side projection *)
(* ================================================================== *)

(** The search of the selector modelled above is the search stage for the
    engine that lowers the letters A to Z. *)
Lemma applySearch_engine (f : BookFilter) (l : list Book) :
  BookState.applySearch f l = SearchStage.applySearch Js.toLowerCase f l.
Proof. reflexivity. Qed.

(** X9.  The search of [filteredBooks] ignores case, whatever lower-casing
    the engine provides: two search terms (not empty) with the same lower
    case select the same books; two books whose titles and whose authors
    have the same lower case match the same terms; a book without title and
    author matches no term; and the empty term keeps every book. *)
Theorem search_ignores_case (toLowerCase : string -> string) (f1 f2 : BookFilter)
    (l : list Book) :
  (Js.truthyString (BookFilter.searchTerm f1) = true ->
   Js.truthyString (BookFilter.searchTerm f2) = true ->
   toLowerCase (BookFilter.searchTerm f1) = toLowerCase (BookFilter.searchTerm f2) ->
   SearchStage.applySearch toLowerCase f1 l = SearchStage.applySearch toLowerCase f2 l) /\
  (forall term b1 b2,
      option_map toLowerCase (Book.title b1) = option_map toLowerCase (Book.title b2) ->
      option_map toLowerCase (Book.author b1) = option_map toLowerCase (Book.author b2) ->
      SearchStage.matchesSearch toLowerCase term b1
      = SearchStage.matchesSearch toLowerCase term b2) /\
  (forall term b,
      Book.title b = None -> Book.author b = None ->
      SearchStage.matchesSearch toLowerCase term b = false) /\
  (BookFilter.searchTerm f1 = "" -> SearchStage.applySearch toLowerCase f1 l = l).
Proof.
  split; [| split; [| split]].
  - intros H1 H2 Hlow. unfold SearchStage.applySearch. rewrite H1, H2, Hlow.
    reflexivity.
  - intros term b1 b2 Ht Ha. unfold SearchStage.matchesSearch.
    destruct (Book.title b1), (Book.title b2); try discriminate Ht;
      destruct (Book.author b1), (Book.author b2); try discriminate Ha;
      cbn in Ht, Ha; try injection Ht as ->; try injection Ha as ->; reflexivity.
  - intros term b Ht Ha. unfold SearchStage.matchesSearch. rewrite Ht, Ha. reflexivity.
  - intros Hempty. unfold SearchStage.applySearch. rewrite Hempty. reflexivity.
Qed.

Lemma search_ignores_case_witness :
  let f term :=
    {| BookFilter.searchTerm := term;
       BookFilter.statusId := None;
       BookFilter.genreId := None;
       BookFilter.sortBy := title;
       BookFilter.sortOrder := asc |} in
  let l := [Spec.book 1 "Dune" "Herbert"; Spec.book 2 "Emma" "Austen"] in
  Js.toLowerCase "DUNE" = Js.toLowerCase "dune" /\
  SearchStage.applySearch Js.toLowerCase (f "DUNE") l
  = SearchStage.applySearch Js.toLowerCase (f "dune") l /\
  SearchStage.applySearch Js.toLowerCase (f "dune") l = [Spec.book 1 "Dune" "Herbert"].
Proof.
  split; [reflexivity |]. split; [| reflexivity].
  exact (proj1 (search_ignores_case Js.toLowerCase
                  {| BookFilter.searchTerm := "DUNE";
                     BookFilter.statusId := None;
                     BookFilter.genreId := None;
                     BookFilter.sortBy := title;
                     BookFilter.sortOrder := asc |}
                  {| BookFilter.searchTerm := "dune";
                     BookFilter.statusId := None;
                     BookFilter.genreId := None;
                     BookFilter.sortBy := title;
                     BookFilter.sortOrder := asc |}
                  [Spec.book 1 "Dune" "Herbert"; Spec.book 2 "Emma" "Austen"])
           eq_refl eq_refl eq_refl).
Defined.

Lemma find_all_fail {A : Type} (f : A -> bool) (l : list A) :
  (forall x, In x l -> f x = false) -> find f l = None.
Proof.
  induction l as [| a l IH]; cbn; intros H; [reflexivity |].
  rewrite (H a (or_introl eq_refl)). apply IH. intros x Hx. apply H. right. exact Hx.
Qed.

Lemma filter_none_pass {A : Type} (l : list A) :
  List.filter (fun _ => false) l = [].
Proof. induction l; cbn; auto. Qed.

(** X10.  A genre id of the filter that the genre table does not hold
    leaves no book, on any engine whose sort of the empty array is empty;
    a status id that the status table does not hold leaves the status
    filter out, so every book passes it. *)
Theorem unknown_lookup_id (s : BookStateModel) (id : Z) :
  (BookFilter.genreId (filter s) = Some id ->
   (forall g, In g (genres s) -> GenreDto.genreId g <> id) ->
   forall sort : Js.SortEngine,
     (forall comparefn, sort Book comparefn [] = []) ->
     BookState.filteredBooks sort s = []) /\
  (BookFilter.statusId (filter s) = Some id ->
   (forall st, In st (statuses s) -> StatusDto.statusId st <> id) ->
   forall l, BookState.applyStatus s l = l).
Proof.
  split.
  - intros Hid Hnone sort Hempty.
    unfold BookState.filteredBooks, BookState.applyGenre. rewrite Hid.
    assert (Hfind : BookState.findGenre (genres s) id = None).
    { apply find_all_fail. intros g Hg. apply Z.eqb_neq, Hnone, Hg. }
    unfold BookState.matchesGenre. rewrite Hfind.
    rewrite filter_none_pass.
    unfold BookState.applyStatus.
    destruct (BookFilter.statusId (filter s)) as [sid |]; [| apply Hempty].
    destruct (BookState.findStatus (statuses s) sid); apply Hempty.
  - intros Hid Hnone l. unfold BookState.applyStatus. rewrite Hid.
    assert (Hfind : BookState.findStatus (statuses s) id = None).
    { apply find_all_fail. intros st Hst. apply Z.eqb_neq, Hnone, Hst. }
    rewrite Hfind. reflexivity.
Qed.

Lemma unknown_lookup_id_witness :
  let s :=
    fst (BookState.setFilter
           (Spec.withBooks [Spec.book 1 "Dune" "Herbert"] BookState.defaults)
           {| BookFilter.searchTerm := "";
              BookFilter.statusId := Some 4;
              BookFilter.genreId := Some 9;
              BookFilter.sortBy := title;
              BookFilter.sortOrder := asc |}) in
  BookState.filteredBooks Js.v8 s = [] /\
  BookState.applyStatus s (books s) = books s.
Proof.
  pose proof (unknown_lookup_id
                (fst (BookState.setFilter
                        (Spec.withBooks [Spec.book 1 "Dune" "Herbert"] BookState.defaults)
                        {| BookFilter.searchTerm := "";
                           BookFilter.statusId := Some 4;
                           BookFilter.genreId := Some 9;
                           BookFilter.sortBy := title;
                           BookFilter.sortOrder := asc |})) 9) as [Hg _].
  pose proof (unknown_lookup_id
                (fst (BookState.setFilter
                        (Spec.withBooks [Spec.book 1 "Dune" "Herbert"] BookState.defaults)
                        {| BookFilter.searchTerm := "";
                           BookFilter.statusId := Some 4;
                           BookFilter.genreId := Some 9;
                           BookFilter.sortBy := title;
                           BookFilter.sortOrder := asc |})) 4) as [_ Hs].
  split.
  - apply (Hg eq_refl); [intros g [] | reflexivity].
  - apply (Hs eq_refl). intros st [].
Defined.

Lemma gt_excludes_lt (v w : BookState.SortValue) :
  BookState.gt v w = true -> BookState.lt v w = false.
Proof.
  destruct v as [x | p], w as [y | q]; cbn; try discriminate.
  - unfold Js.strGt, Js.strLt, String.ltb.
    rewrite (String.compare_antisym x y).
    destruct (String.compare y x); cbn; congruence.
  - unfold Js.numGt, Js.numLt. intros H.
    apply negb_true_iff in H. apply negb_false_iff, Qle_bool_iff.
    destruct (Qlt_le_dec q p) as [Hlt | Hle].
    + apply Qlt_le_weak. exact Hlt.
    + apply Qle_bool_iff in Hle. congruence.
Qed.

(** X11.  The comparison function of [filteredBooks] answers 1 or -1,
    never 0.  For two books that do not tie in the sort field it is
    antisymmetric, and the descending order answers the opposite of the
    ascending one; for two that tie it answers -1 both ways, in either
    order. *)
Theorem compareBooks_answers (f : BookFilter) (a b : Book) :
  (BookState.compareBooks f a b = 1 \/ BookState.compareBooks f a b = -1) /\
  (Spec.tie f a b = true ->
   BookState.compareBooks f a b = -1 /\ BookState.compareBooks f b a = -1) /\
  (Spec.tie f a b = false ->
   BookState.compareBooks f a b = - BookState.compareBooks f b a /\
   forall g : BookFilter,
     BookFilter.sortBy g = BookFilter.sortBy f ->
     BookFilter.sortOrder g <> BookFilter.sortOrder f ->
     BookState.compareBooks g a b = - BookState.compareBooks f a b).
Proof.
  unfold BookState.compareBooks, Spec.tie.
  set (aVal := BookState.sortValue (BookFilter.sortBy f) a).
  set (bVal := BookState.sortValue (BookFilter.sortBy f) b).
  pose proof (gt_excludes_lt aVal bVal) as Hex.
  rewrite (lt_gt bVal aVal), <- (lt_gt aVal bVal).
  split; [| split].
  - destruct (BookFilter.sortOrder f);
      [destruct (BookState.gt aVal bVal) | destruct (BookState.lt aVal bVal)]; auto.
  - intros Htie. apply andb_true_iff in Htie. destruct Htie as [Hg Hl].
    apply negb_true_iff in Hg, Hl. rewrite Hg, Hl.
    destruct (BookFilter.sortOrder f); auto.
  - intros Htie. split.
    + destruct (BookState.gt aVal bVal) eqn:Eg.
      * rewrite (Hex eq_refl). destruct (BookFilter.sortOrder f); reflexivity.
      * destruct (BookState.lt aVal bVal) eqn:El; [| discriminate Htie].
        destruct (BookFilter.sortOrder f); reflexivity.
    + intros g Hby Horder. rewrite Hby. fold aVal bVal.
      destruct (BookState.gt aVal bVal) eqn:Eg.
      * rewrite (Hex eq_refl).
        destruct (BookFilter.sortOrder f), (BookFilter.sortOrder g);
          try reflexivity; exfalso; apply Horder; reflexivity.
      * destruct (BookState.lt aVal bVal) eqn:El; [| discriminate Htie].
        destruct (BookFilter.sortOrder f), (BookFilter.sortOrder g);
          try reflexivity; exfalso; apply Horder; reflexivity.
Qed.

Lemma compareBooks_answers_witness :
  let f := BookStateModel.filter BookState.defaults in
  let a := Spec.book 1 "Dune" "Herbert" in
  let b := Spec.book 2 "Emma" "Austen" in
  Spec.tie f a b = false /\
  Spec.tie f a a = true /\
  BookState.compareBooks f a b = - BookState.compareBooks f b a /\
  BookState.compareBooks f a a = -1.
Proof.
  split; [reflexivity | split; [reflexivity | split]].
  - exact (proj1 (proj2 (proj2 (compareBooks_answers
                                  (BookStateModel.filter BookState.defaults)
                                  (Spec.book 1 "Dune" "Herbert")
                                  (Spec.book 2 "Emma" "Austen"))) eq_refl)).
  - exact (proj1 (proj1 (proj2 (compareBooks_answers
                                  (BookStateModel.filter BookState.defaults)
                                  (Spec.book 1 "Dune" "Herbert")
                                  (Spec.book 1 "Dune" "Herbert"))) eq_refl)).
Defined.

(** *** The selector against the books to be listed *)

Lemma find_first {A : Type} (f : A -> bool) (before : list A) (g : A)
    (after : list A) :
  f g = true -> (forall x, In x before -> f x = false) ->
  find f (before ++ g :: after) = Some g.
Proof.
  intros Hg Hbefore. induction before as [| x before IH]; cbn.
  - rewrite Hg. reflexivity.
  - rewrite (Hbefore x (or_introl eq_refl)).
    apply IH. intros y Hy. apply Hbefore. right. exact Hy.
Qed.

Lemma prefix_spec (t s : string) :
  String.prefix t s = true <-> exists after, s = (t ++ after)%string.
Proof.
  revert s. induction t as [| c t IH]; intros s.
  - split; [intros _; exists s; reflexivity | intros _; destruct s; reflexivity].
  - destruct s as [| d s]; cbn [String.prefix].
    + split; [discriminate | intros [after H]; discriminate H].
    + destruct (Ascii.ascii_dec c d) as [-> | Hne].
      * rewrite IH. split; intros [after H]; exists after.
        -- rewrite H. reflexivity.
        -- cbn in H. injection H as H. exact H.
      * split; [discriminate |].
        intros [after H]. cbn in H. injection H as H _. congruence.
Qed.

Lemma includes_spec (s t : string) :
  Js.includes s t = true <-> Projection.Occurs t s.
Proof.
  unfold Projection.Occurs. split.
  - induction s as [| c s IH]; cbn [Js.includes];
      destruct (String.prefix t _) eqn:E; try discriminate.
    + intros _. apply prefix_spec in E. destruct E as [after ->].
      exists "", after. reflexivity.
    + intros _. apply prefix_spec in E. destruct E as [after ->].
      exists "", after. reflexivity.
    + intros H. destruct (IH H) as (before & after & ->).
      exists (String c before), after. reflexivity.
  - intros (before & after & ->).
    induction before as [| c before IH]; cbn [append].
    + assert (E : String.prefix t (t ++ after) = true)
        by (apply prefix_spec; exists after; reflexivity).
      destruct (t ++ after)%string; cbn [Js.includes]; rewrite E; reflexivity.
    + cbn [Js.includes]. destruct (String.prefix t _); [reflexivity | exact IH].
Qed.

Lemma strictEq_eq (x y : option string) :
  Js.strictEqOptString x y = true <-> x = y.
Proof.
  destruct x as [a |], y as [b |]; cbn; try (split; discriminate).
  - rewrite String.eqb_eq. split; [intros -> | intros [= ->]]; reflexivity.
  - split; reflexivity.
Qed.

Lemma find_first_spec {A : Type} (idOf : A -> Z) (id : Z) (table : list A) (g : A) :
  find (fun x => idOf x =? id) table = Some g <-> Projection.FirstWith idOf id table g.
Proof.
  unfold Projection.FirstWith. split.
  - induction table as [| x table IH]; cbn; [discriminate |].
    destruct (Z.eqb_spec (idOf x) id) as [E | Hne].
    + intros [= ->]. exists [], table. repeat split; [exact E | intros y []].
    + intros H. destruct (IH H) as (before & after & -> & Hg & Hbefore).
      exists (x :: before), after. repeat split; [exact Hg |].
      intros y [<- | Hy]; [exact Hne | apply Hbefore, Hy].
  - intros (before & after & -> & Hg & Hbefore).
    apply find_first; [apply Z.eqb_eq, Hg |].
    intros x Hx. apply Z.eqb_neq, Hbefore, Hx.
Qed.

Lemma matchesSearch_Found (term : string) (b : Book) :
  BookState.matchesSearch (Js.toLowerCase term) b = true <-> Projection.Found term b.
Proof.
  assert (Hfield : forall field : option string,
            match field with
            | Some t => Js.includes (Js.toLowerCase t) (Js.toLowerCase term)
            | None => false
            end = true
            <-> exists t, field = Some t /\
                          Projection.Occurs (Js.toLowerCase term) (Js.toLowerCase t)).
  { intros [t |].
    - rewrite includes_spec. split; [intros H; exists t; auto |].
      intros (t' & [= <-] & H). exact H.
    - split; [discriminate | intros (t' & H & _); discriminate H]. }
  unfold BookState.matchesSearch, Projection.Found.
  rewrite orb_true_iff, !Hfield. reflexivity.
Qed.

(** The three tests of the selector keep the books to be listed. *)
Lemma passes_Selected (s : BookStateModel) (b : Book) :
  Spec.passes s b = true <-> Projection.Selected s b.
Proof.
  unfold Spec.passes, Projection.Selected. rewrite !andb_true_iff.
  rewrite and_assoc.
  match goal with
  | |- (?a /\ ?b /\ ?c) <-> (?a' /\ ?b' /\ ?c') =>
      assert (Ha : a <-> a'); [| assert (Hb : b <-> b'); [| assert (Hc : c <-> c');
        [| tauto]]]
  end.
  - destruct (BookFilter.searchTerm (filter s)) as [| c term] eqn:Eterm.
    + cbn. split; auto.
    + cbn [Js.truthyString]. rewrite matchesSearch_Found. split; [auto |].
      intros [H | H]; [discriminate H | exact H].
  - destruct (BookFilter.genreId (filter s)) as [id |].
    + unfold BookState.matchesGenre, BookState.findGenre. split.
      * intros H id' [= <-].
        destruct (find _ (genres s)) as [g |] eqn:E; [| discriminate H].
        exists g. split; [apply find_first_spec, E | apply strictEq_eq, H].
      * intros H. destruct (H id eq_refl) as (g & Hfirst & Hgenre).
        apply find_first_spec in Hfirst. rewrite Hfirst. apply strictEq_eq, Hgenre.
    + split; [intros _ id H; discriminate H | reflexivity].
  - destruct (BookFilter.statusId (filter s)) as [id |].
    + unfold BookState.findStatus. split.
      * intros H id' st [= <-] Hfirst.
        apply find_first_spec in Hfirst. rewrite Hfirst in H. apply strictEq_eq, H.
      * intros H. destruct (find _ (statuses s)) as [st |] eqn:E; [| reflexivity].
        apply strictEq_eq, (H id st eq_refl), find_first_spec, E.
    + split; [intros _ id st H; discriminate H | reflexivity].
Qed.

Lemma leb_compare (a b : string) :
  String.leb a b = true <-> String.compare a b <> Gt.
Proof.
  unfold String.leb. destruct (String.compare a b); split; congruence.
Qed.

(** The order of the comparison function is the order of the column. *)
Lemma comesNoLater_NoLater (f : BookFilter) (a b : Book) :
  Spec.comesNoLater f a b = true <-> Projection.NoLater f a b.
Proof.
  unfold Spec.comesNoLater, Projection.NoLater, Projection.fieldLe.
  destruct (BookFilter.sortOrder f); rewrite ?lt_gt;
    destruct (BookFilter.sortBy f); cbn [BookState.sortValue BookState.gt];
    unfold Js.strGt, Js.numGt;
    rewrite ?not_ltb_compare, ?leb_compare, ?negb_involutive, ?Qle_bool_iff,
      <- ?Zle_Qle;
    reflexivity.
Qed.

Lemma StronglySorted_impl {A : Type} (R S : A -> A -> Prop) (l : list A) :
  (forall a b, R a b -> S a b) -> StronglySorted R l -> StronglySorted S l.
Proof.
  intros HRS Hsorted. induction Hsorted as [| a l Hs IH Hall]; constructor.
  - exact IH.
  - eapply Forall_impl; [| exact Hall]. intros b. apply HRS.
Qed.

(** X12.  Under V8, for fewer than 64 books of ASCII text, [filteredBooks]
    returns the books to be listed, each as often as the list has it: those
    in which the search term occurs (in the title or the author, case
    ignored, or any book for the empty term), that are of the selected
    genre, the first of the table with the selected id (none when the table
    has no such genre), and that have the selected status (any book when
    the table has no such status).  They are ordered by the sort column,
    ascending or the reverse for descending. *)
Theorem filteredBooks_v8_contract (s : BookStateModel) :
  (List.length (books s) < 64)%nat ->
  Projection.asciiText s = true ->
  let result := BookState.filteredBooks Js.v8 s in
  (exists keep : Book -> bool,
      (forall b, keep b = true <-> Projection.Selected s b) /\
      Permutation result (List.filter keep (books s))) /\
  (forall b, In b result <-> In b (books s) /\ Projection.Selected s b) /\
  StronglySorted (Projection.NoLater (filter s)) result /\
  (List.length result < 64)%nat.
Proof.
  intros Hlength _ result.
  pose proof (filteredBooks_v8_passing s) as Hperm. fold result in Hperm.
  split; [| split; [| split]].
  - exists (Spec.passes s). split; [apply passes_Selected | exact Hperm].
  - intros b. rewrite <- passes_Selected, <- filter_In.
    split; apply Permutation_in; [| symmetry]; exact Hperm.
  - eapply StronglySorted_impl; [| apply filteredBooks_v8_sorted].
    intros a b Hab. apply comesNoLater_NoLater. exact Hab.
  - rewrite (Permutation_length Hperm).
    eapply Nat.le_lt_trans; [apply filter_length_le | exact Hlength].
Qed.

Lemma filteredBooks_v8_contract_witness :
  let s := Spec.withBooks
             [Spec.book 1 "Ulysses" "Joyce"; Spec.book 2 "Dune" "Herbert";
              Spec.book 3 "Emma" "Austen"] BookState.defaults in
  (List.length (books s) < 64)%nat /\
  Projection.asciiText s = true /\
  StronglySorted (Projection.NoLater (filter s)) (BookState.filteredBooks Js.v8 s) /\
  BookState.filteredBooks Js.v8 s
  = [Spec.book 2 "Dune" "Herbert"; Spec.book 3 "Emma" "Austen";
     Spec.book 1 "Ulysses" "Joyce"].
Proof.
  assert (Hlength :
    (List.length
       (books (Spec.withBooks
                 [Spec.book 1 "Ulysses" "Joyce"; Spec.book 2 "Dune" "Herbert";
                  Spec.book 3 "Emma" "Austen"] BookState.defaults)) < 64)%nat).
  { cbn. lia. }
  split; [exact Hlength |]. split; [reflexivity |]. split; [| reflexivity].
  exact (proj1 (proj2 (proj2
           (filteredBooks_v8_contract
              (Spec.withBooks
                 [Spec.book 1 "Ulysses" "Joyce"; Spec.book 2 "Dune" "Herbert";
                  Spec.book 3 "Emma" "Austen"] BookState.defaults)
              Hlength eq_refl)))).
Defined.

(* ================================================================== *)
(** ** Further properties of the API client *)
(* ================================================================== *)

(** X13.  The request of [getBooks] goes to [<apiUrl>/Books/paged] and
    names no parameter twice.  It always has [Page] and [PageSize]; it has
    [SearchText] and [SortBy] exactly when they are given and not empty,
    [StatusId] and [GenreId] exactly when they are given (0 included),
    [SortDir] exactly when it is given; and it has no other parameter. *)
Theorem getBooks_query (apiUrl : string) (p : PaginationParams) :
  exists query,
    BookService.getBooks apiUrl p
    = BookService.GET (BookService.apiUrl apiUrl ++ "/paged")%string query /\
    NoDup (map fst query) /\
    BookService.get "Page" query = Some (Js.toString (PaginationParams.Page p)) /\
    BookService.get "PageSize" query = Some (Js.toString (PaginationParams.PageSize p)) /\
    BookService.get "SearchText" query
    = match PaginationParams.SearchText p with
      | Some t => Js.stringOrUndefined t
      | None => None
      end /\
    BookService.get "StatusId" query
    = option_map Js.numToString (PaginationParams.StatusId p) /\
    BookService.get "GenreId" query
    = option_map Js.numToString (PaginationParams.GenreId p) /\
    BookService.get "SortBy" query
    = match PaginationParams.SortBy p with
      | Some t => Js.stringOrUndefined t
      | None => None
      end /\
    BookService.get "SortDir" query
    = option_map directionName (PaginationParams.SortDir p) /\
    (forall k, In k (map fst query) ->
               In k ["Page"; "PageSize"; "SearchText"; "StatusId"; "GenreId";
                     "SortBy"; "SortDir"]).
Proof.
  unfold BookService.getBooks. eexists. split; [reflexivity |].
  destruct p as [pg sz search st gn sb sd].
  cbn [PaginationParams.Page PaginationParams.PageSize PaginationParams.SearchText
       PaginationParams.StatusId PaginationParams.GenreId PaginationParams.SortBy
       PaginationParams.SortDir].
  unfold Js.stringOrUndefined.
  destruct search as [x |]; [destruct (Js.truthyString x) |];
    (destruct st as [y |]); (destruct gn as [z |]);
    (destruct sb as [u |]; [destruct (Js.truthyString u) |]);
    (destruct sd as [v |]); cbn;
    (split; [repeat constructor; cbn; intuition discriminate |]);
    repeat (split; [reflexivity |]);
    intros k Hk; cbn; tauto.
Qed.

(* ================================================================== *)
(** ** Further properties of the list component *)
(* ================================================================== *)

Lemma In_range (x left right : Z) :
  In x (BookList.range left right) <-> left <= x <= right.
Proof.
  unfold BookList.range. rewrite in_map_iff. split.
  - intros (i & <- & Hi). apply in_seq in Hi. lia.
  - intros Hx. exists (Z.to_nat (x - left)). split; [lia |].
    apply in_seq. lia.
Qed.

Lemma length_range (left right : Z) :
  List.length (BookList.range left right) = Z.to_nat (right - left + 1).
Proof. unfold BookList.range. rewrite length_map, length_seq. reflexivity. Qed.

Lemma range_increasing (left right : Z) :
  StronglySorted Z.lt (BookList.range left right).
Proof.
  unfold BookList.range.
  generalize (Z.to_nat (right - left + 1)) as n. generalize 0%nat as start.
  intros start n. revert start.
  induction n as [| n IH]; intros start; cbn; constructor.
  - apply IH.
  - apply Forall_forall. intros x Hx.
    apply in_map_iff in Hx. destruct Hx as (i & <- & Hi).
    apply in_seq in Hi. lia.
Qed.

Lemma sorted_snoc {A : Type} (R : A -> A -> Prop) (l : list A) (y : A) :
  StronglySorted R l -> (forall x, In x l -> R x y) -> StronglySorted R (l ++ [y]).
Proof.
  induction l as [| a l IH]; cbn; intros Hs Hall.
  - repeat constructor.
  - apply StronglySorted_inv in Hs. destruct Hs as [Hs Ha].
    constructor.
    + apply IH; [exact Hs | intros x Hx; apply Hall; right; exact Hx].
    + apply Forall_app. split; [exact Ha |].
      repeat constructor. apply Hall. left. reflexivity.
Qed.

Lemma filter_app3 (f : Z -> bool) (a b c d e : list Z) :
  List.filter f (a ++ b ++ c ++ d ++ e)
  = List.filter f a ++ List.filter f b ++ List.filter f c
    ++ List.filter f d ++ List.filter f e.
Proof. rewrite !filter_app. reflexivity. Qed.

(** X14.  The page buttons.  Every entry of [pageNumbers] is the ellipsis
    (-1) or a page from 1 to [totalPages]; the first and the last page are
    always offered, and so is the current page when it is one of the
    pages.  Up to 5 pages the entries are exactly the pages, without an
    ellipsis.  There are never more than 7 entries, and the pages among
    them are strictly increasing, so no page is offered twice. *)
Theorem pageNumbers_shape (c : BookListComponent.t) :
  let pages := BookList.pageNumbers c in
  (forall p, In p pages -> p = -1 \/ 1 <= p <= totalPages c) /\
  (1 <= currentPage c <= totalPages c -> In (currentPage c) pages) /\
  (1 <= totalPages c -> In 1 pages /\ In (totalPages c) pages) /\
  (totalPages c <= 5 -> forall p, In p pages <-> 1 <= p <= totalPages c) /\
  (List.length pages <= 7)%nat /\
  StronglySorted Z.lt (List.filter (fun p => negb (p =? -1)) pages).
Proof.
  unfold BookList.pageNumbers. cbv zeta.
  destruct (Z.leb_spec (totalPages c) 5) as [Hsmall | Hlarge].
  - split; [| split; [| split; [| split; [| split]]]].
    + intros p Hp. apply In_range in Hp. right. exact Hp.
    + intros Hc. apply In_range. exact Hc.
    + intros Hone. split; apply In_range; lia.
    + intros _ p. apply In_range.
    + rewrite length_range. lia.
    + rewrite filter_all_pass; [apply range_increasing |].
      intros x Hx. apply In_range in Hx.
      apply negb_true_iff, Z.eqb_neq. lia.
  - set (left := Z.max 2 (currentPage c - 1)).
    set (right := Z.min (totalPages c - 1) (currentPage c + 1)).
    assert (Hin : forall p,
               In p ([1] ++ (if 2 <? left then [-1] else [])
                         ++ BookList.range left right
                         ++ (if right <? totalPages c - 1 then [-1] else [])
                         ++ [totalPages c]) ->
               p = 1 \/ p = -1 \/ left <= p <= right \/ p = totalPages c).
    { intros p Hp. rewrite !in_app_iff in Hp.
      destruct Hp as [H1 | [He | [Hr | [He | Ht]]]].
      - destruct H1 as [<- | []]. auto.
      - destruct (2 <? left); [destruct He as [<- | []]; auto | destruct He].
      - apply In_range in Hr. auto.
      - destruct (right <? totalPages c - 1);
          [destruct He as [<- | []]; auto | destruct He].
      - destruct Ht as [<- | []]. auto. }
    split; [| split; [| split; [| split; [| split]]]].
    + intros p Hp. apply Hin in Hp. unfold left, right in Hp. lia.
    + intros Hc. rewrite !in_app_iff, In_range. cbn [In].
      unfold left, right. lia.
    + intros _. rewrite !in_app_iff. cbn [In]. tauto.
    + lia.
    + rewrite !length_app, length_range. cbn [List.length].
      destruct (2 <? left), (right <? totalPages c - 1); cbn [List.length];
        unfold left, right; lia.
    + rewrite filter_app3.
      assert (Hell : forall b : bool,
                 List.filter (fun p => negb (p =? -1)) (if b then [-1] else []) = []).
      { intros []; reflexivity. }
      rewrite !Hell. cbn [List.filter app].
      replace (negb (1 =? -1)) with true by reflexivity.
      replace (negb (totalPages c =? -1)) with true
        by (symmetry; apply negb_true_iff, Z.eqb_neq; lia).
      rewrite filter_all_pass.
      2:{ intros x Hx. apply In_range in Hx.
          apply negb_true_iff, Z.eqb_neq. unfold left in Hx. lia. }
      cbn [app]. constructor.
      * apply sorted_snoc; [apply range_increasing |].
        intros x Hx. apply In_range in Hx. unfold right in Hx. lia.
      * apply Forall_app. split.
        -- apply Forall_forall. intros x Hx. apply In_range in Hx.
           unfold left in Hx. lia.
        -- repeat constructor. lia.
Qed.

Lemma pageNumbers_shape_witness :
  let c := BookListComponent.onPagination
             {| Pagination.currentPage := 5;
                Pagination.pageSize := 10;
                Pagination.totalCount := 93;
                Pagination.totalPages := 10 |} BookListComponent.initial in
  BookList.pageNumbers c = [1; -1; 4; 5; 6; -1; 10] /\
  In (currentPage c) (BookList.pageNumbers c).
Proof.
  split; [reflexivity |].
  apply (proj1 (proj2 (pageNumbers_shape
                         (BookListComponent.onPagination
                            {| Pagination.currentPage := 5;
                               Pagination.pageSize := 10;
                               Pagination.totalCount := 93;
                               Pagination.totalPages := 10 |}
                            BookListComponent.initial)))).
  cbn. lia.
Defined.

(** *** Printing an id and reading it back *)

Lemma parseDigits_acc (d : Decimal.uint) (acc : positive) :
  Js.parseDigits (Some (Z.pos acc)) (NilEmpty.string_of_uint d)
  = Some (Z.pos (Pos.of_uint_acc d acc)).
Proof.
  revert acc. induction d; intros acc; cbn [NilEmpty.string_of_uint Pos.of_uint_acc];
    [reflexivity | ..];
    cbn [Js.parseDigits];
    match goal with
    | |- context [Js.digitValue ?c] =>
        let v := eval vm_compute in (Js.digitValue c) in
        change (Js.digitValue c) with v
    end;
    cbn [Js.orZeroZ]; rewrite <- IHd; f_equal; f_equal; lia.
Qed.

Lemma parseDigits_zero (d : Decimal.uint) :
  Js.parseDigits (Some 0) (NilEmpty.string_of_uint d)
  = Some (Z.of_N (Pos.of_uint d)).
Proof.
  induction d; cbn [NilEmpty.string_of_uint Pos.of_uint];
    [reflexivity | ..];
    cbn [Js.parseDigits];
    match goal with
    | |- context [Js.digitValue ?c] =>
        let v := eval vm_compute in (Js.digitValue c) in
        change (Js.digitValue c) with v
    end;
    cbn [Js.orZeroZ];
    first [ exact IHd | apply parseDigits_acc ].
Qed.

Lemma parseInt10_digits (d : Decimal.uint) :
  d <> Decimal.Nil ->
  Js.parseInt10 (NilEmpty.string_of_uint d) = Js.Int (Z.of_N (Pos.of_uint d)) /\
  Js.parseInt10 (String "-" (NilEmpty.string_of_uint d))
  = Js.Int (- Z.of_N (Pos.of_uint d)).
Proof.
  intros Hd. unfold Js.parseInt10.
  destruct d; [contradiction | ..];
    cbn [NilEmpty.string_of_uint Js.trimStart Pos.of_uint];
    match goal with
    | |- context [Js.isWhiteSpace ?c] =>
        let v := eval vm_compute in (Js.isWhiteSpace c) in
        change (Js.isWhiteSpace c) with v
    end;
    cbv iota;
    match goal with
    | |- context [Js.isWhiteSpace ?c] =>
        let v := eval vm_compute in (Js.isWhiteSpace c) in
        change (Js.isWhiteSpace c) with v
    end;
    cbv iota; cbn [Js.parseDigits];
    match goal with
    | |- context [Js.digitValue ?c] =>
        let v := eval vm_compute in (Js.digitValue c) in
        change (Js.digitValue c) with v
    end;
    cbn [Js.orZeroZ];
    first [ change (10 * 0 + 0) with 0; rewrite parseDigits_zero
          | match goal with
            | |- context [Js.parseDigits (Some ?k) _] =>
                let p := eval vm_compute in k in
                change k with p
            end;
            rewrite parseDigits_acc ];
    split; f_equal; lia.
Qed.

(** [parseInt(String(z), 10)] is [z]. *)
Lemma parseInt10_toString (z : Z) : Js.parseInt10 (Js.toString z) = Js.Int z.
Proof.
  unfold Js.toString. destruct z as [| p | p]; [reflexivity | |];
    cbn [Z.to_int NilZero.string_of_int];
    pose proof (Unsigned.to_uint_nonnil p) as Hnil;
    pose proof (Unsigned.of_to p) as Hval;
    destruct (parseInt10_digits (Pos.to_uint p) Hnil) as [Hpos Hneg];
    unfold NilZero.string_of_uint;
    destruct (Pos.to_uint p) eqn:E; try contradiction;
    rewrite <- E in *; first [rewrite Hpos | rewrite Hneg]; rewrite Hval; reflexivity.
Qed.

Lemma toString_truthy (z : Z) : Js.truthyString (Js.toString z) = true.
Proof.
  pose proof (parseInt10_toString z) as H.
  destruct (Js.toString z); [discriminate H | reflexivity].
Qed.

(** X15.  A select shows the selected id as [String(id)] and the change
    handler reads a select's value back with [parseInt].  For a selected id
    that is a safe integer other than 0, the value the select shows leads the
    change handler back to that id; null, 0 and [NaN] are all shown as the
    empty value, which leads the change handler to null.  The same holds of
    the genre select and of the status select. *)
Theorem select_value_round_trip (c : BookListComponent.t) :
  (forall z,
      selectedGenreId c = Some (Js.Int z) -> z <> 0 -> Spec.isSafeInteger z = true ->
      selectedGenreId (fst (onGenreChange (BookList.getGenreSelectValue c) c))
      = Some (Js.Int z)) /\
  (selectedGenreId c = None \/ selectedGenreId c = Some Js.NaN
   \/ selectedGenreId c = Some (Js.Int 0) ->
   BookList.getGenreSelectValue c = "" /\
   selectedGenreId (fst (onGenreChange (BookList.getGenreSelectValue c) c)) = None) /\
  (forall z,
      selectedStatusId c = Some (Js.Int z) -> z <> 0 -> Spec.isSafeInteger z = true ->
      selectedStatusId (fst (onStatusChange (BookList.getStatusSelectValue c) c))
      = Some (Js.Int z)) /\
  (selectedStatusId c = None \/ selectedStatusId c = Some Js.NaN
   \/ selectedStatusId c = Some (Js.Int 0) ->
   BookList.getStatusSelectValue c = "" /\
   selectedStatusId (fst (onStatusChange (BookList.getStatusSelectValue c) c)) = None).
Proof.
  assert (Hid : forall z, z <> 0 ->
            parseId (BookList.selectValue (Some (Js.Int z))) = Some (Js.Int z)).
  { intros z Hz. cbn. apply Z.eqb_neq in Hz. rewrite Hz. cbn.
    unfold parseId. rewrite toString_truthy, parseInt10_toString. reflexivity. }
  assert (Hgenre : forall x, selectedGenreId (fst (onGenreChange x c)) = parseId x)
    by reflexivity.
  assert (Hstatus : forall x, selectedStatusId (fst (onStatusChange x c)) = parseId x)
    by reflexivity.
  rewrite Hgenre, Hstatus.
  unfold BookList.getGenreSelectValue, BookList.getStatusSelectValue.
  split; [| split; [| split]].
  - intros z Hsel Hz _. rewrite Hsel. apply Hid, Hz.
  - intros [H | [H | H]]; rewrite H; split; reflexivity.
  - intros z Hsel Hz _. rewrite Hsel. apply Hid, Hz.
  - intros [H | [H | H]]; rewrite H; split; reflexivity.
Qed.

Lemma select_value_round_trip_witness :
  let c := fst (onGenreChange "7" initial) in
  selectedGenreId c = Some (Js.Int 7) /\
  Spec.isSafeInteger 7 = true /\
  BookList.getGenreSelectValue c = "7" /\
  selectedGenreId (fst (onGenreChange (BookList.getGenreSelectValue c) c))
  = Some (Js.Int 7).
Proof.
  split; [reflexivity |]. split; [reflexivity |]. split; [reflexivity |].
  apply (proj1 (select_value_round_trip (fst (onGenreChange "7" initial))) 7);
    [reflexivity | discriminate | reflexivity].
Defined.

(* ================================================================== *)
(** ** Properties of the detail component and of the routes *)
(* ================================================================== *)

(** X16.  The detail view asks for the book of its route: for the id [z]
    printed in the route it dispatches one fetch of book [z], except for
    id 0, where it dispatches nothing.  Whatever the route says, none of
    its fetch, delete or edit requests is for id 0, a delete is only sent
    once confirmed, and leaving the view clears the selection. *)
Theorem detail_follows_route (c : BookDetailComponent.t) :
  (forall z,
      BookDetailComponent.dispatchedBy
        (snd (BookDetailComponent.onParams (Some (Js.toString z)) c))
      = if z =? 0 then [] else [FetchBookById z]) /\
  (forall (id : option string) (confirmed : bool) (a : Action),
      let c' := fst (BookDetailComponent.onParams id c) in
      In a (BookDetailComponent.dispatchedBy (snd (BookDetailComponent.onParams id c))
            ++ BookDetailComponent.dispatchedBy
                 (BookDetailComponent.deleteBook confirmed c')) ->
      (exists n, n <> 0 /\ a = FetchBookById n) \/
      (exists n, n <> 0 /\ confirmed = true /\ a = DeleteBook n)) /\
  BookDetailComponent.deleteBook false c = [] /\
  BookDetailComponent.dispatchedBy (BookDetailComponent.ngOnDestroy c)
  = [ClearSelectedBook].
Proof.
  split; [| split; [| split]].
  - intros z. unfold BookDetailComponent.onParams.
    rewrite toString_truthy, parseInt10_toString. cbn.
    unfold BookDetailComponent.loadBookDetails, BookDetailComponent.truthyId. cbn.
    destruct (z =? 0); reflexivity.
  - intros id confirmed a.
    assert (Htruthy : forall (d : BookDetailComponent.t) n,
               BookDetailComponent.truthyId d = Some n -> n <> 0).
    { intros d n. unfold BookDetailComponent.truthyId.
      destruct (BookDetailComponent.bookId d) as [[| z] |]; try discriminate.
      destruct (Z.eqb_spec z 0); [discriminate |]. intros [= <-]. assumption. }
    cbv zeta. intros Hin. apply in_app_or in Hin. destruct Hin as [Hin | Hin].
    + left. unfold BookDetailComponent.onParams in Hin.
      destruct id as [s |]; [| destruct Hin].
      destruct (Js.truthyString s); [| destruct Hin].
      cbn [snd] in Hin. unfold BookDetailComponent.loadBookDetails in Hin.
      destruct (BookDetailComponent.truthyId _) as [n |] eqn:E; [| destruct Hin].
      destruct Hin as [<- | []]. exists n. split; [eapply Htruthy; exact E | reflexivity].
    + right. unfold BookDetailComponent.deleteBook in Hin.
      destruct (BookDetailComponent.truthyId _) as [n |] eqn:E; [| destruct Hin].
      destruct confirmed; [| destruct Hin].
      destruct Hin as [<- | []]. exists n.
      split; [eapply Htruthy; exact E | split; reflexivity].
  - unfold BookDetailComponent.deleteBook.
    destruct (BookDetailComponent.truthyId c); reflexivity.
  - reflexivity.
Qed.

Lemma toString_not_add (z : Z) : String.eqb "add" (Js.toString z) = false.
Proof.
  apply String.eqb_neq. intros E.
  pose proof (parseInt10_toString z) as H. rewrite <- E in H. discriminate H.
Qed.

(** X17.  The route table.  Every URL leads to one of the three
    components.  [books/add] leads to the form and never to the detail
    view with the id ["add"]; any other [books/<x>] leads to the detail
    view with [id = x].  So the URL that [selectBook] navigates to opens
    the detail view on the book's id, and for an id other than 0 that view
    fetches exactly this book; the URL of [editBook] opens the form with
    the book's id. *)
Theorem routes_lead_to_components :
  (forall url, exists component params,
      Routes.resolve url = Some (component, params)) /\
  Routes.resolve ["books"; "add"] = Some (Routes.BookFormComponent, []) /\
  (forall x, x <> "add" ->
             Routes.resolve ["books"; x]
             = Some (Routes.BookDetailComponent, [("id", x)])) /\
  (forall b : Book,
      Routes.resolve (Routes.segmentsOf (BookList.selectBook b))
      = Some (Routes.BookDetailComponent, [("id", Js.toString (Book.id b))]) /\
      Routes.resolve (Routes.segmentsOf (BookList.editBook b))
      = Some (Routes.BookFormComponent, [("id", Js.toString (Book.id b))]) /\
      (Book.id b <> 0 ->
       BookDetailComponent.dispatchedBy
         (snd (BookDetailComponent.onParams
                 (Routes.param "id" [("id", Js.toString (Book.id b))])
                 BookDetailComponent.initial))
       = [FetchBookById (Book.id b)])).
Proof.
  split; [| split; [reflexivity | split]].
  - intros url. unfold Routes.resolve, Routes.routes.
    destruct url as [| a [| b [| c [| d rest]]]];
      cbn [Routes.firstMatch Routes.matchPath];
      repeat match goal with
             | |- context [String.eqb ?x ?y] =>
                 is_var y; destruct (String.eqb x y);
                 cbn [Routes.firstMatch Routes.matchPath]
             end;
      vm_compute; eexists; eexists; reflexivity.
  - intros x Hx. unfold Routes.resolve, Routes.routes.
    cbn [Routes.firstMatch Routes.matchPath].
    rewrite (String.eqb_refl "books").
    replace (String.eqb "add" x) with false
      by (symmetry; apply String.eqb_neq; intros E; apply Hx; symmetry; exact E).
    reflexivity.
  - intros b. split; [| split].
    + unfold Routes.resolve, Routes.routes, BookList.selectBook.
      cbn [Routes.segmentsOf Routes.firstMatch Routes.matchPath].
      rewrite (String.eqb_refl "books"), toString_not_add. reflexivity.
    + unfold Routes.resolve, Routes.routes, BookList.editBook.
      cbn [Routes.segmentsOf Routes.firstMatch Routes.matchPath].
      rewrite (String.eqb_refl "books"), (String.eqb_refl "edit").
      destruct (String.eqb "add" (Js.toString (Book.id b))); reflexivity.
    + intros Hne. cbn [Routes.param].
      rewrite (String.eqb_refl "id").
      unfold BookDetailComponent.onParams.
      rewrite toString_truthy, parseInt10_toString. cbn [snd].
      unfold BookDetailComponent.loadBookDetails, BookDetailComponent.truthyId.
      cbn [BookDetailComponent.bookId].
      destruct (Z.eqb_spec (Book.id b) 0); [contradiction | reflexivity].
Qed.

Lemma routes_lead_to_components_witness :
  Routes.resolve ["books"; "42"]
  = Some (Routes.BookDetailComponent, [("id", "42")]) /\
  BookDetailComponent.dispatchedBy
    (snd (BookDetailComponent.onParams
            (Routes.param "id" [("id", Js.toString 42)])
            BookDetailComponent.initial))
  = [FetchBookById 42].
Proof.
  pose proof routes_lead_to_components as (_ & _ & Hdetail & Hbook).
  split.
  - apply Hdetail. discriminate.
  - apply (proj2 (proj2 (Hbook (Spec.book 42 "Dune" "Herbert")))).
    discriminate.
Defined.

(* ================================================================== *)
(** ** Properties of the form's lookups by name *)
(* ================================================================== *)

Lemma strictEq_Some (x : option string) (name : string) :
  Js.strictEqOptString x (Some name) = true <-> x = Some name.
Proof.
  destruct x as [y |]; cbn.
  - rewrite String.eqb_eq. split; [intros -> | intros [= ->]]; reflexivity.
  - split; discriminate.
Qed.

Lemma distinct_names_before {A : Type} (nameOf : A -> option string)
    (before : list A) (g : A) (after : list A) (name : string) :
  NoDup (map nameOf (before ++ g :: after)) -> nameOf g = Some name ->
  forall x, In x before -> Js.strictEqOptString (nameOf x) (Some name) = false.
Proof.
  intros Hnd Hg x Hx.
  destruct (Js.strictEqOptString (nameOf x) (Some name)) eqn:E; [| reflexivity].
  apply strictEq_Some in E. exfalso.
  rewrite map_app in Hnd. cbn in Hnd. apply NoDup_remove_2 in Hnd. apply Hnd.
  apply in_or_app. left. rewrite Hg, <- E. apply in_map. exact Hx.
Qed.

(** X18.  The form finds the id of a genre, and in the same way of a
    status, by its name: the id of the first entry of the table with that
    name, and null when no entry has it.  When the names of the table are
    pairwise distinct, the name of every entry leads back to the id of that
    entry. *)
Theorem lookup_by_name (genres : list GenreDto) (statuses : list StatusDto)
    (name : string) :
  ((forall before g after,
       genres = before ++ g :: after ->
       GenreDto.genreName g = Some name ->
       (forall x, In x before -> GenreDto.genreName x <> Some name) ->
       BookFormComponent.getGenreIdByName genres name = Some (GenreDto.genreId g)) /\
   ((forall x, In x genres -> GenreDto.genreName x <> Some name) ->
    BookFormComponent.getGenreIdByName genres name = None) /\
   (NoDup (map GenreDto.genreName genres) ->
    forall g, In g genres -> GenreDto.genreName g = Some name ->
              BookFormComponent.getGenreIdByName genres name
              = Some (GenreDto.genreId g))) /\
  ((forall before st after,
       statuses = before ++ st :: after ->
       StatusDto.statusName st = Some name ->
       (forall x, In x before -> StatusDto.statusName x <> Some name) ->
       BookFormComponent.getStatusIdByName statuses name
       = Some (StatusDto.statusId st)) /\
   ((forall x, In x statuses -> StatusDto.statusName x <> Some name) ->
    BookFormComponent.getStatusIdByName statuses name = None) /\
   (NoDup (map StatusDto.statusName statuses) ->
    forall st, In st statuses -> StatusDto.statusName st = Some name ->
               BookFormComponent.getStatusIdByName statuses name
               = Some (StatusDto.statusId st))).
Proof.
  split; (split; [| split]).
  - intros before g after -> Hg Hbefore.
    unfold BookFormComponent.getGenreIdByName.
    rewrite find_first; [reflexivity | apply strictEq_Some; exact Hg |].
    intros x Hx. destruct (Js.strictEqOptString _ _) eqn:E; [| reflexivity].
    apply strictEq_Some in E. exfalso. exact (Hbefore x Hx E).
  - intros Hnone. unfold BookFormComponent.getGenreIdByName.
    rewrite find_all_fail; [reflexivity |].
    intros x Hx. destruct (Js.strictEqOptString _ _) eqn:E; [| reflexivity].
    apply strictEq_Some in E. exfalso. exact (Hnone x Hx E).
  - intros Hnd g Hin Hg.
    destruct (in_split g genres Hin) as (before & after & ->).
    unfold BookFormComponent.getGenreIdByName.
    rewrite find_first; [reflexivity | apply strictEq_Some; exact Hg |].
    exact (distinct_names_before GenreDto.genreName before g after name Hnd Hg).
  - intros before st after -> Hst Hbefore.
    unfold BookFormComponent.getStatusIdByName.
    rewrite find_first; [reflexivity | apply strictEq_Some; exact Hst |].
    intros x Hx. destruct (Js.strictEqOptString _ _) eqn:E; [| reflexivity].
    apply strictEq_Some in E. exfalso. exact (Hbefore x Hx E).
  - intros Hnone. unfold BookFormComponent.getStatusIdByName.
    rewrite find_all_fail; [reflexivity |].
    intros x Hx. destruct (Js.strictEqOptString _ _) eqn:E; [| reflexivity].
    apply strictEq_Some in E. exfalso. exact (Hnone x Hx E).
  - intros Hnd st Hin Hst.
    destruct (in_split st statuses Hin) as (before & after & ->).
    unfold BookFormComponent.getStatusIdByName.
    rewrite find_first; [reflexivity | apply strictEq_Some; exact Hst |].
    exact (distinct_names_before StatusDto.statusName before st after name Hnd Hst).
Qed.

Lemma lookup_by_name_witness :
  let genres :=
    [ {| GenreDto.genreId := 3; GenreDto.genreName := Some "Fiction" |};
      {| GenreDto.genreId := 5; GenreDto.genreName := Some "Poetry" |} ] in
  let statuses :=
    [ {| StatusDto.statusId := 1; StatusDto.statusName := Some "Read" |};
      {| StatusDto.statusId := 2; StatusDto.statusName := Some "Reading" |} ] in
  NoDup (map GenreDto.genreName genres) /\
  BookFormComponent.getGenreIdByName genres "Poetry" = Some 5 /\
  (forall x, In x statuses -> StatusDto.statusName x <> Some "Poetry") /\
  BookFormComponent.getStatusIdByName statuses "Poetry" = None.
Proof.
  assert (Hnd : NoDup [Some "Fiction"; Some "Poetry"]).
  { repeat constructor; cbn; intuition discriminate. }
  assert (Hnone : forall x,
            In x [ {| StatusDto.statusId := 1; StatusDto.statusName := Some "Read" |};
                   {| StatusDto.statusId := 2; StatusDto.statusName := Some "Reading" |} ] ->
            StatusDto.statusName x <> Some "Poetry").
  { intros x [<- | [<- | []]]; cbn; discriminate. }
  pose proof (lookup_by_name
                [ {| GenreDto.genreId := 3; GenreDto.genreName := Some "Fiction" |};
                  {| GenreDto.genreId := 5; GenreDto.genreName := Some "Poetry" |} ]
                [ {| StatusDto.statusId := 1; StatusDto.statusName := Some "Read" |};
                  {| StatusDto.statusId := 2; StatusDto.statusName := Some "Reading" |} ]
                "Poetry") as [(_ & _ & Hgenre) (_ & Hstatus & _)].
  split; [exact Hnd |]. split; [| split; [exact Hnone | exact (Hstatus Hnone)]].
  exact (Hgenre Hnd {| GenreDto.genreId := 5; GenreDto.genreName := Some "Poetry" |}
           (or_intror (or_introl eq_refl)) eq_refl).
Defined.

(* ================================================================== *)
(** ** Properties of paging, badges and the delete animation *)
(* ================================================================== *)

Lemma fire_previous_repeat (n : nat) (c : BookListComponent.t) :
  map BookList.pageOf (snd (fireAll (repeat LoadPreviousPage n) c))
  = map (fun i => Some (currentPage c - Z.of_nat i)) (seq 1 n) /\
  currentPage (fst (fireAll (repeat LoadPreviousPage n) c))
  = currentPage c - Z.of_nat n.
Proof.
  revert c. induction n as [| n IH]; intros c.
  - cbn. split; [reflexivity | lia].
  - cbn [repeat fireAll].
    destruct (fire LoadPreviousPage c) as [c1 out] eqn:Ef.
    cbn in Ef. injection Ef as <- <-.
    match goal with
    | |- context [fireAll _ ?c1] => specialize (IH c1); destruct (fireAll _ c1) as [c2 acts]
    end.
    cbn [fst snd] in *. destruct IH as [IHp IHc].
    cbn [dispatchedBy app map BookList.pageOf loadData loadDataParams
         PaginationParams.Page currentPage set_currentPage set_animateListOut] in *.
    split.
    + cbn [seq map]. change (Z.of_nat 1) with 1. f_equal.
      rewrite IHp, <- (seq_shift n 1), map_map. apply map_ext. intros i. f_equal. lia.
    + rewrite IHc. lia.
Qed.

Lemma fire_next_repeat (n : nat) (c : BookListComponent.t) :
  map BookList.pageOf (snd (fireAll (repeat LoadNextPage n) c))
  = map (fun i => Some (currentPage c + Z.of_nat i)) (seq 1 n) /\
  currentPage (fst (fireAll (repeat LoadNextPage n) c))
  = currentPage c + Z.of_nat n.
Proof.
  revert c. induction n as [| n IH]; intros c.
  - cbn. split; [reflexivity | lia].
  - cbn [repeat fireAll].
    destruct (fire LoadNextPage c) as [c1 out] eqn:Ef.
    cbn in Ef. injection Ef as <- <-.
    match goal with
    | |- context [fireAll _ ?c1] => specialize (IH c1); destruct (fireAll _ c1) as [c2 acts]
    end.
    cbn [fst snd] in *. destruct IH as [IHp IHc].
    cbn [dispatchedBy app map BookList.pageOf loadData loadDataParams
         PaginationParams.Page currentPage set_currentPage set_animateListOut] in *.
    split.
    + cbn [seq map]. change (Z.of_nat 1) with 1. f_equal.
      rewrite IHp, <- (seq_shift n 1), map_map. apply map_ext. intros i. f_equal. lia.
    + rewrite IHc. lia.
Qed.

Lemma previousPageClicks_pending (n : nat) (c : BookListComponent.t) :
  1 < currentPage c ->
  snd (BookList.previousPageClicks n c) = repeat LoadPreviousPage n /\
  currentPage (fst (BookList.previousPageClicks n c)) = currentPage c.
Proof.
  revert c. induction n as [| n IH]; intros c Hc; [split; reflexivity |].
  cbn [BookList.previousPageClicks]. unfold previousPage, canPreviousPage.
  replace (1 <? currentPage c) with true by (symmetry; apply Z.ltb_lt; exact Hc).
  specialize (IH (set_animateListOut true c) Hc).
  destruct (BookList.previousPageClicks n (set_animateListOut true c)) as [c2 pending].
  cbn [fst snd timersOf app] in *. destruct IH as [-> ->]. split; reflexivity.
Qed.

Lemma nextPageClicks_pending (n : nat) (c : BookListComponent.t) :
  currentPage c < totalPages c ->
  snd (BookList.nextPageClicks n c) = repeat LoadNextPage n /\
  currentPage (fst (BookList.nextPageClicks n c)) = currentPage c.
Proof.
  revert c. induction n as [| n IH]; intros c Hc; [split; reflexivity |].
  cbn [BookList.nextPageClicks]. unfold nextPage, canNextPage.
  replace (currentPage c <? totalPages c) with true
    by (symmetry; apply Z.ltb_lt; exact Hc).
  specialize (IH (set_animateListOut true c) Hc).
  destruct (BookList.nextPageClicks n (set_animateListOut true c)) as [c2 pending].
  cbn [fst snd timersOf app] in *. destruct IH as [-> ->]. split; reflexivity.
Qed.

(** X19.  "Previous" does nothing on page 1 or below and "next" nothing on
    the last page or beyond.  But the test is made at the click and the
    step is taken when the timer fires: [n] clicks on "previous" made on
    page [p > 1] before any timer fires ask for the pages [p-1], ...,
    [p-n] in turn, so for [n >= p] for a page below 1; and [n] clicks on
    "next" made before the last page ask for [p+1], ..., [p+n], beyond the
    last page if [n] is large enough. *)
Theorem page_steps_are_taken_late (n : nat) (c : BookListComponent.t) :
  (currentPage c <= 1 -> previousPage c = (c, [])) /\
  (totalPages c <= currentPage c -> nextPage c = (c, [])) /\
  (1 < currentPage c ->
   let '(c1, pending) := BookList.previousPageClicks n c in
   map BookList.pageOf (snd (fireAll pending c1))
   = map (fun i => Some (currentPage c - Z.of_nat i)) (seq 1 n) /\
   currentPage (fst (fireAll pending c1)) = currentPage c - Z.of_nat n) /\
  (currentPage c < totalPages c ->
   let '(c1, pending) := BookList.nextPageClicks n c in
   map BookList.pageOf (snd (fireAll pending c1))
   = map (fun i => Some (currentPage c + Z.of_nat i)) (seq 1 n) /\
   currentPage (fst (fireAll pending c1)) = currentPage c + Z.of_nat n).
Proof.
  split; [| split; [| split]].
  - intros H. unfold previousPage, canPreviousPage.
    replace (1 <? currentPage c) with false by (symmetry; apply Z.ltb_ge; exact H).
    reflexivity.
  - intros H. unfold nextPage, canNextPage.
    replace (currentPage c <? totalPages c) with false
      by (symmetry; apply Z.ltb_ge; exact H).
    reflexivity.
  - intros H. destruct (previousPageClicks_pending n c H) as [Hp Hc].
    destruct (BookList.previousPageClicks n c) as [c1 pending].
    cbn [fst snd] in *. subst pending. rewrite <- Hc. apply fire_previous_repeat.
  - intros H. destruct (nextPageClicks_pending n c H) as [Hp Hc].
    destruct (BookList.nextPageClicks n c) as [c1 pending].
    cbn [fst snd] in *. subst pending. rewrite <- Hc. apply fire_next_repeat.
Qed.

Lemma page_steps_are_taken_late_witness :
  let c := BookListComponent.onPagination
             {| Pagination.currentPage := 2;
                Pagination.pageSize := 10;
                Pagination.totalCount := 25;
                Pagination.totalPages := 3 |} BookListComponent.initial in
  1 < currentPage c /\
  let '(c1, pending) := BookList.previousPageClicks 2 c in
  map BookList.pageOf (snd (fireAll pending c1)) = [Some 1; Some 0].
Proof.
  split; [reflexivity |].
  exact (proj1 (proj1 (proj2 (proj2
           (page_steps_are_taken_late 2
              (BookListComponent.onPagination
                 {| Pagination.currentPage := 2;
                    Pagination.pageSize := 10;
                    Pagination.totalCount := 25;
                    Pagination.totalPages := 3 |} BookListComponent.initial))))
           eq_refl)).
Defined.

Lemma prefix_reading_read (s : string) :
  String.prefix "reading" s = true -> String.prefix "read" s = true.
Proof.
  destruct s as [| a [| b [| c [| d s]]]]; cbn [String.prefix];
    repeat match goal with
           | |- context [Ascii.ascii_dec ?x ?y] => destruct (Ascii.ascii_dec x y)
           end;
    intros H; try discriminate H; try reflexivity; destruct s; reflexivity.
Qed.

Lemma includes_reading_read (s : string) :
  Js.includes s "reading" = true -> Js.includes s "read" = true.
Proof.
  induction s as [| a s IH]; cbn [Js.includes].
  - destruct (String.prefix "reading" "") eqn:E; [| discriminate].
    rewrite (prefix_reading_read _ E). reflexivity.
  - destruct (String.prefix "reading" (String a s)) eqn:E.
    + rewrite (prefix_reading_read _ E). reflexivity.
    + intros H. destruct (String.prefix "read" (String a s)); [reflexivity |].
      apply IH. exact H.
Qed.

(** X20.  The badge of a status is never ['badge-info']: a status that
    contains "reading" contains "read" and gets ['badge-success'] from the
    test made first.  The badge is one of the other three, and a missing
    status gets ['badge-default']. *)
Theorem getStatusBadgeClass_never_info (status : option string) :
  BookList.getStatusBadgeClass status <> "badge-info" /\
  (BookList.getStatusBadgeClass status = "badge-success" \/
   BookList.getStatusBadgeClass status = "badge-warning" \/
   BookList.getStatusBadgeClass status = "badge-default") /\
  BookList.getStatusBadgeClass None = "badge-default".
Proof.
  unfold BookList.getStatusBadgeClass.
  set (statusLower := match status with
                      | Some s => Js.toLowerCase s
                      | None => ""
                      end).
  pose proof (includes_reading_read statusLower) as Hread.
  split; [| split; [| reflexivity]].
  - destruct (Js.includes statusLower "read"); [discriminate |].
    destruct (Js.includes statusLower "reading"); [discriminate (Hread eq_refl) |].
    destruct (Js.includes statusLower "want"); discriminate.
  - destruct (Js.includes statusLower "read"); [auto |].
    destruct (Js.includes statusLower "reading"); [discriminate (Hread eq_refl) |].
    destruct (Js.includes statusLower "want"); auto.
Qed.

(** X21.  After a click on a column the sort indicator marks that column
    and no other: it is the up arrow when the direction is ascending and
    the down arrow when it is descending, and it is empty for every other
    column. *)
Theorem getSortIndicator_marks_clicked (column other : SortColumn)
    (c : BookListComponent.t) :
  let c' := fst (onSortChange column c) in
  (BookList.getSortIndicator (columnName column) c'
   = match SortConfig.direction (sortConfig c') with
     | asc => "↑"
     | desc => "↓"
     end) /\
  (other <> column -> BookList.getSortIndicator (columnName other) c' = "").
Proof.
  assert (Hcol : SortConfig.column (sortConfig (fst (onSortChange column c))) = column).
  { unfold onSortChange. destruct (columnEq _ _); reflexivity. }
  cbv zeta. unfold BookList.getSortIndicator. rewrite Hcol. split.
  - rewrite String.eqb_refl. reflexivity.
  - intros Hne.
    change (String.eqb (columnName column) (columnName other))
      with (columnEq column other).
    rewrite columnEq_false; [reflexivity |].
    intros E. apply Hne. symmetry. exact E.
Qed.

Lemma getSortIndicator_marks_clicked_witness :
  BookList.getSortIndicator "rating"
    (fst (onSortChange rating BookListComponent.initial)) = "↑" /\
  BookList.getSortIndicator "title"
    (fst (onSortChange rating BookListComponent.initial)) = "".
Proof.
  split.
  - exact (proj1 (getSortIndicator_marks_clicked rating title BookListComponent.initial)).
  - apply (proj2 (getSortIndicator_marks_clicked rating title BookListComponent.initial)).
    discriminate.
Defined.

(** X22.  Deleting from the list.  Without confirmation nothing happens.
    With it the id is marked as leaving and a timer is set; when the timer
    fires, the delete of that id is dispatched and the id is no longer
    marked, however often it was; ids marked for other rows stay marked, in
    their order, and if the id was not marked before, the marks are again
    what they were. *)
Theorem deleteBook_marks_and_unmarks (id : Z) (c : BookListComponent.t) :
  BookList.deleteBook id false c = (c, false) /\
  let c1 := fst (BookList.deleteBook id true c) in
  let c2 := fst (BookList.deleteBookTimer id c1) in
  snd (BookList.deleteBook id true c) = true /\
  In id (leaving c1) /\
  snd (BookList.deleteBookTimer id c1) = [DeleteBook id] /\
  ~ In id (leaving c2) /\
  leaving c2 = List.filter (fun x => negb (x =? id)) (leaving c) /\
  (~ In id (leaving c) -> leaving c2 = leaving c).
Proof.
  split; [reflexivity |]. cbn.
  assert (Hfilter :
    List.filter (fun x => negb (x =? id)) (leaving c ++ [id])
    = List.filter (fun x => negb (x =? id)) (leaving c)).
  { rewrite filter_app. cbn. rewrite Z.eqb_refl. cbn. apply app_nil_r. }
  rewrite Hfilter.
  split; [reflexivity | split; [| split; [reflexivity | split; [| split]]]].
  - apply in_or_app. right. left. reflexivity.
  - intros Hin. apply filter_In in Hin. destruct Hin as [_ H].
    rewrite Z.eqb_refl in H. discriminate H.
  - reflexivity.
  - intros Hnot. apply filter_all_pass. intros x Hx.
    apply negb_true_iff, Z.eqb_neq. intros ->. contradiction.
Qed.

(** X23.  The pager follows the server.  When a page arrives, the four
    pagination signals take the response's values, whatever the user had
    set, and the filter signals stay: the next request asks for the page
    and the page size of the response.  "Next" and "previous" are then
    enabled exactly when the response's page is before its last page, or
    after page 1; [goToPage] ignores a page outside 1 to the response's
    [totalPages], and for a page inside sets a timer that, when it fires,
    asks for that page. *)
Theorem pager_follows_server (apiUrl : string) (s : BookStateModel)
    (r : PaginatedResponse Book) (c : BookListComponent.t) :
  let c' := onPagination
              (pagination (BookState.reduce apiUrl s (FetchPaginatedBooksSuccess r)))
              c in
  (currentPage c' = PaginatedResponse.page r /\
   pageSize c' = PaginatedResponse.pageSize r /\
   totalBooks c' = PaginatedResponse.totalCount r /\
   totalPages c' = PaginatedResponse.totalPages r) /\
  (searchTerm c' = searchTerm c /\
   selectedGenreId c' = selectedGenreId c /\
   selectedStatusId c' = selectedStatusId c /\
   sortConfig c' = sortConfig c) /\
  (exists query,
      BookService.getBooks apiUrl (loadDataParams c')
      = BookService.GET (BookService.apiUrl apiUrl ++ "/paged")%string query /\
      BookService.get "Page" query = Some (Js.toString (PaginatedResponse.page r)) /\
      BookService.get "PageSize" query
      = Some (Js.toString (PaginatedResponse.pageSize r))) /\
  (canNextPage c' = true <-> PaginatedResponse.page r < PaginatedResponse.totalPages r) /\
  (canPreviousPage c' = true <-> 1 < PaginatedResponse.page r) /\
  (forall page,
      (page < 1 \/ PaginatedResponse.totalPages r < page -> goToPage page c' = (c', [])) /\
      (1 <= page <= PaginatedResponse.totalPages r ->
       snd (goToPage page c') = [SetTimeout (LoadPage page) ANIM_MS] /\
       forall later,
         map BookList.pageOf (dispatchedBy (snd (fire (LoadPage page) later)))
         = [Some page])).
Proof.
  cbv zeta.
  set (c' := onPagination
               (pagination (BookState.reduce apiUrl s (FetchPaginatedBooksSuccess r))) c).
  assert (Hsig : currentPage c' = PaginatedResponse.page r /\
                 pageSize c' = PaginatedResponse.pageSize r /\
                 totalBooks c' = PaginatedResponse.totalCount r /\
                 totalPages c' = PaginatedResponse.totalPages r)
    by (repeat split).
  destruct Hsig as (Hp & Hs & Hb & Ht).
  split; [repeat split |].
  split; [repeat split |].
  split.
  - destruct (loadData_request apiUrl c') as (query & Hq & Hpage & Hsize & _).
    exists query. rewrite <- Hp, <- Hs. repeat split; assumption.
  - split; [| split].
    + unfold canNextPage. rewrite Hp, Ht. apply Z.ltb_lt.
    + unfold canPreviousPage. rewrite Hp. apply Z.ltb_lt.
    + intros page. unfold goToPage. rewrite Ht. split.
      * intros Hout.
        replace ((1 <=? page) && (page <=? PaginatedResponse.totalPages r)) with false;
          [reflexivity |].
        symmetry. apply andb_false_iff.
        destruct Hout; [left; apply Z.leb_gt | right; apply Z.leb_gt]; assumption.
      * intros [Hlo Hhi].
        replace ((1 <=? page) && (page <=? PaginatedResponse.totalPages r)) with true
          by (symmetry; apply andb_true_iff; split; apply Z.leb_le; assumption).
        split; reflexivity.
Qed.

Lemma pager_follows_server_witness :
  let c' := onPagination
              (pagination
                 (BookState.reduce "/api" BookState.defaults
                    (FetchPaginatedBooksSuccess (Spec.response [] 25 2 10 3))))
              BookListComponent.initial in
  canNextPage c' = true /\
  snd (goToPage 3 c') = [SetTimeout (LoadPage 3) ANIM_MS] /\
  goToPage 4 c' = (c', []).
Proof.
  pose proof (pager_follows_server "/api" BookState.defaults
                (Spec.response [] 25 2 10 3) BookListComponent.initial)
    as (_ & _ & _ & Hnext & _ & Hgo).
  split; [| split].
  - apply Hnext. reflexivity.
  - apply (proj2 (Hgo 3)). cbn. lia.
  - apply (proj1 (Hgo 4)). right. reflexivity.
Defined.

(** X24.  The text under the list says ['No books found'] when the total
    is 0, whatever the page.  Otherwise it names the range from
    [(page-1)*size+1] to [min(page*size, total)]; for a page from 1 on, a
    size of at least 1 and a page that starts before the last book, this
    range lies within 1 to the total, is not empty and holds at most
    [size] books; for a page that starts after the last book the range it
    names is inverted (its start exceeds its end). *)
Theorem getPaginationInfo_range (c : BookListComponent.t) :
  let '(first, last) := BookList.shownRange c in
  (totalBooks c = 0 -> BookList.getPaginationInfo c = "No books found") /\
  (totalBooks c <> 0 ->
   BookList.getPaginationInfo c
   = ("Showing " ++ Js.toString first ++ "-" ++ Js.toString last
      ++ " of " ++ Js.toString (totalBooks c) ++ " books")%string) /\
  (1 <= currentPage c -> 1 <= pageSize c ->
   (currentPage c - 1) * pageSize c < totalBooks c ->
   1 <= first <= last /\ last <= totalBooks c /\ last - first + 1 <= pageSize c) /\
  (totalBooks c <= (currentPage c - 1) * pageSize c -> last < first).
Proof.
  unfold BookList.getPaginationInfo, BookList.shownRange.
  split; [| split; [| split]].
  - intros ->. reflexivity.
  - intros Hne. destruct (Z.eqb_spec (totalBooks c) 0); [contradiction | reflexivity].
  - intros Hp Hs Hstart. nia.
  - intros Hbeyond. lia.
Qed.

Lemma getPaginationInfo_range_witness :
  let c := onPagination
             {| Pagination.currentPage := 3;
                Pagination.pageSize := 10;
                Pagination.totalCount := 25;
                Pagination.totalPages := 3 |} BookListComponent.initial in
  BookList.getPaginationInfo c = "Showing 21-25 of 25 books" /\
  1 <= fst (BookList.shownRange c) <= snd (BookList.shownRange c).
Proof.
  split; [reflexivity |].
  pose proof (getPaginationInfo_range
                (onPagination
                   {| Pagination.currentPage := 3;
                      Pagination.pageSize := 10;
                      Pagination.totalCount := 25;
                      Pagination.totalPages := 3 |} BookListComponent.initial)) as H.
  cbn in H. destruct H as (_ & _ & Hin & _).
  cbn. apply Hin; lia.
Defined.
